(** * DICOM Tag Sniffer dashboard: report parsers and static HTML renderer

    A shallow embedding of [scripts/dashboard.py] (the format parsers and the
    file-count aggregation), of [scripts/html_report.py] (the static
    renderer) and of the scanner run of [scripts/xnat_dashboard.py], with
    the properties of the specification stated over it.

    Conventions of the embedding.
    - A Python [str] is a Rocq [string]; a character is a code point below
      256, and the character classes ([str.isspace], the regex classes [\w]
      and [\s]) are Python's Unicode classes restricted to that range.
    - A file is the text that [open(path, "r")] hands to Python (newlines
      already translated), and the file system is a partial map from paths
      to such texts.
    - An [OrderedDict] is an association list with unique keys in insertion
      order.
    - A call that can raise returns a [result]. *)

From Stdlib Require Import String Ascii List ZArith Lia Bool Arith.
From Stdlib Require Import Permutation Sorted DecimalString DecimalZ.
Import ListNotations.
Open Scope string_scope.
Open Scope nat_scope.

(* ------------------------------------------------------------------ *)
(** ** Python built-ins used by the scripts *)
(* ------------------------------------------------------------------ *)

Module Py.

(** Exceptions the modelled code can raise. *)
Inductive exn : Type :=
  | FileNotFoundError
  | ValueError.

Inductive result (A : Type) : Type :=
  | Ok (a : A)
  | Raise (e : exn).
Arguments Ok {A} a.
Arguments Raise {A} e.

Definition bind {A B : Type} (r : result A) (k : A -> result B) : result B :=
  match r with
  | Ok a => k a
  | Raise e => Raise e
  end.

Notation "x <- r ;; k" := (bind r (fun x => k))
  (at level 61, r at next level, right associativity).

(** The line feed and the double quote, which string literals of this file
    never contain. *)
Definition LF : ascii := "010"%char.
Definition CR : ascii := "013"%char.
Definition DQ : ascii := "034"%char.
Definition nl : string := String LF EmptyString.
Definition dq : string := String DQ EmptyString.

(** [str.isspace] on one character. *)
Definition isspace (c : ascii) : bool :=
  let n := nat_of_ascii c in
  ((9 <=? n) && (n <=? 13)) || ((28 <=? n) && (n <=? 32))
  || (n =? 133) || (n =? 160).

(** ASCII decimal digit. *)
Definition isdigit (c : ascii) : bool :=
  let n := nat_of_ascii c in (48 <=? n) && (n <=? 57).

(** The regex class [\w]: [str.isalnum] or the underscore. *)
Definition isword (c : ascii) : bool :=
  let n := nat_of_ascii c in
  isdigit c
  || ((65 <=? n) && (n <=? 90)) || ((97 <=? n) && (n <=? 122))
  || (n =? 95)
  || (n =? 170) || (n =? 178) || (n =? 179) || (n =? 181)
  || (n =? 185) || (n =? 186) || ((188 <=? n) && (n <=? 190))
  || ((192 <=? n) && (n <=? 214)) || ((216 <=? n) && (n <=? 246))
  || (248 <=? n).

(** Truthiness of a [str]. *)
Definition nonempty (s : string) : bool :=
  match s with
  | EmptyString => false
  | String _ _ => true
  end.

(** [s.lstrip()], [s.rstrip()], [s.strip()]. *)
Fixpoint lstrip (s : string) : string :=
  match s with
  | EmptyString => EmptyString
  | String c s' => if isspace c then lstrip s' else s
  end.

Fixpoint rstrip (s : string) : string :=
  match s with
  | EmptyString => EmptyString
  | String c s' =>
      match rstrip s' with
      | EmptyString => if isspace c then EmptyString else String c EmptyString
      | r => String c r
      end
  end.

Definition strip (s : string) : string := lstrip (rstrip s).

(** [s.rstrip("\n")]. *)
Fixpoint rstrip_nl (s : string) : string :=
  match s with
  | EmptyString => EmptyString
  | String c s' =>
      match rstrip_nl s' with
      | EmptyString =>
          if Ascii.eqb c LF then EmptyString else String c EmptyString
      | r => String c r
      end
  end.

(** [s.startswith(p)]. *)
Definition startswith (s p : string) : bool := String.prefix p s.

(** [s[n:]]. *)
Fixpoint drop (n : nat) (s : string) : string :=
  match n, s with
  | O, _ => s
  | S n', String _ s' => drop n' s'
  | S _, EmptyString => EmptyString
  end.

(** [s[:n]]. *)
Fixpoint take (n : nat) (s : string) : string :=
  match n, s with
  | O, _ => EmptyString
  | S n', String c s' => String c (take n' s')
  | S _, EmptyString => EmptyString
  end.

(** [s.split()]: the maximal runs of non-space characters. *)
Fixpoint split_ws_aux (cur : string) (s : string) : list string :=
  match s with
  | EmptyString => if nonempty cur then [cur] else []
  | String c s' =>
      if isspace c
      then (if nonempty cur then cur :: split_ws_aux EmptyString s'
            else split_ws_aux EmptyString s')
      else split_ws_aux (cur ++ String c EmptyString) s'
  end.

Definition split_ws (s : string) : list string := split_ws_aux EmptyString s.

(** [s.split(sep, 1)] for a non-empty separator: the text before the first
    occurrence of [sep] and the text after it, or [s] alone. *)
Fixpoint split_once (sep : string) (s : string) : list string :=
  if String.prefix sep s then [EmptyString; drop (String.length sep) s]
  else
    match s with
    | EmptyString => [EmptyString]
    | String c s' =>
        match split_once sep s' with
        | [a] => [String c a]
        | a :: rest => String c a :: rest
        | [] => []
        end
    end.

(** [f.readlines()] on the text of a file: every line keeps its line feed,
    except a last line that has none. *)
Fixpoint readlines_aux (cur : string) (s : string) : list string :=
  match s with
  | EmptyString => if nonempty cur then [cur] else []
  | String c s' =>
      if Ascii.eqb c LF
      then (cur ++ nl) :: readlines_aux EmptyString s'
      else readlines_aux (cur ++ String c EmptyString) s'
  end.

Definition readlines (text : string) : list string :=
  readlines_aux EmptyString text.

(** The newline translation of [open(path, "r")]: a carriage return, alone
    or in front of a line feed, reaches Python as a line feed.  It turns the
    content of a file into the text that the file system of this
    development holds. *)
Fixpoint universal_newlines (content : string) : string :=
  match content with
  | EmptyString => EmptyString
  | String c rest =>
      if Ascii.eqb c CR then
        match rest with
        | String d _ =>
            if Ascii.eqb d LF then universal_newlines rest
            else String LF (universal_newlines rest)
        | EmptyString => String LF EmptyString
        end
      else String c (universal_newlines rest)
  end.

(** The interpreter's limit on the number of decimal digits in a
    conversion between [int] and [str], at its default value
    ([sys.get_int_max_str_digits()]). *)
Definition int_max_str_digits : nat := 4300.

(** The white space that [int] accepts around a number: the ASCII white
    space of C ([\t], [\n], [\v], [\f], [\r] and the space), and the
    characters above 127 that [str.isspace] accepts, which [int] turns into
    spaces first.  The separators [\x1c] to [\x1f] are not among them. *)
Definition int_space (c : ascii) : bool :=
  let n := nat_of_ascii c in
  ((9 <=? n) && (n <=? 13)) || (n =? 32) || (n =? 133) || (n =? 160).

Fixpoint lstrip_by (p : ascii -> bool) (s : string) : string :=
  match s with
  | EmptyString => EmptyString
  | String c s' => if p c then lstrip_by p s' else s
  end.

Fixpoint rstrip_by (p : ascii -> bool) (s : string) : string :=
  match s with
  | EmptyString => EmptyString
  | String c s' =>
      match rstrip_by p s' with
      | EmptyString => if p c then EmptyString else String c EmptyString
      | r => String c r
      end
  end.

(** The number of decimal digits in a text. *)
Fixpoint ndigits (s : string) : nat :=
  match s with
  | EmptyString => 0
  | String c s' => if isdigit c then S (ndigits s') else ndigits s'
  end.

(** [int(s)] on a [str]: surrounding white space is removed, then an
    optional sign and groups of decimal digits separated by single
    underscores; anything else raises [ValueError], and so does a text with
    more than [int_max_str_digits] digits, leading zeros included. *)
Definition digit_val (c : ascii) : Z := Z.of_nat (nat_of_ascii c - 48).

Fixpoint int_digits (acc : Z) (prev_digit : bool) (s : string) : option Z :=
  match s with
  | EmptyString => if prev_digit then Some acc else None
  | String c s' =>
      if isdigit c then int_digits (10 * acc + digit_val c)%Z true s'
      else if Ascii.eqb c "_"%char
           then (if prev_digit then int_digits acc false s' else None)
           else None
  end.

Definition int_body (d : string) : option Z :=
  if int_max_str_digits <? ndigits d then None else int_digits 0%Z false d.

Definition int_opt (s : string) : option Z :=
  match lstrip_by int_space (rstrip_by int_space s) with
  | String "+"%char d => int_body d
  | String "-"%char d => option_map Z.opp (int_body d)
  | d => int_body d
  end.

Definition int (s : string) : result Z :=
  match int_opt s with
  | Some z => Ok z
  | None => Raise ValueError
  end.

(** The decimal text of an integer.  [str(n)] gives it when there is
    one, see [str_of_int]; the length of a list, which [len] keeps below
    2^63, always has one: [str_nat]. *)
Definition str_int (z : Z) : string :=
  NilZero.string_of_int (Z.to_int z).

Definition str_nat (n : nat) : string := str_int (Z.of_nat n).

(** The integer has at most [int_max_str_digits] decimal digits, its sign
    not counted. *)
Definition within_digit_limit (z : Z) : bool :=
  String.length (str_int (Z.abs z)) <=? int_max_str_digits.

(** [str(n)] for an [int]: beyond the digit limit the conversion raises
    [ValueError]. *)
Definition str_of_int (z : Z) : result string :=
  if within_digit_limit z then Ok (str_int z) else Raise ValueError.

(** The text of [format(n, ",")]: the decimal digits in groups of three,
    from the right, separated by commas. *)
Fixpoint group3 (digits : list ascii) : list ascii :=
  match digits with
  | a :: b :: c :: ((_ :: _) as rest) => a :: b :: c :: ","%char :: group3 rest
  | _ => digits
  end.

Definition commas (digits : string) : string :=
  string_of_list_ascii
    (rev (group3 (rev (list_ascii_of_string digits)))).

Definition fmt_int (z : Z) : string :=
  if (z <? 0)%Z then "-" ++ commas (str_int (- z)) else commas (str_int z).

Definition fmt_nat (n : nat) : string := fmt_int (Z.of_nat n).

(** [format(n, ",")], as in [f"{n:,}"], for an [int]: the same limit
    applies. *)
Definition format_of_int (z : Z) : result string :=
  if within_digit_limit z then Ok (fmt_int z) else Raise ValueError.

(** [", ".join(xs)] and friends. *)
Fixpoint join (sep : string) (xs : list string) : string :=
  match xs with
  | [] => EmptyString
  | [x] => x
  | x :: rest => x ++ sep ++ join sep rest
  end.

End Py.

(* ------------------------------------------------------------------ *)
(** ** The tag-line pattern of [re.match] *)
(* ------------------------------------------------------------------ *)

Module Re.
Import Py.

(** The fragment of regular expressions the scripts use: a literal
    character, a character class, a greedy [+] over a class, the border of
    a capturing group, and [$]. *)
Inductive item : Type :=
  | Chr (c : ascii)
  | Cls (p : ascii -> bool)
  | Plus (p : ascii -> bool)
  | Mark
  | Eol.

(** Greedy [p+] with backtracking: take one more character while possible,
    and give characters back until the continuation [k] succeeds. *)
Fixpoint plus_greedy {R : Type} (p : ascii -> bool)
    (k : string -> option R) (s : string) : option R :=
  match s with
  | EmptyString => None
  | String c s' =>
      if p c then
        match plus_greedy p k s' with
        | Some r => Some r
        | None => k s'
        end
      else None
  end.

(** [$] without [re.MULTILINE]: the end of the text, or just before a final
    line feed. *)
Definition at_end (s : string) : bool :=
  match s with
  | EmptyString => true
  | String c EmptyString => Ascii.eqb c LF
  | _ => false
  end.

(** Matching anchored at the start of [s]; the result lists the text that
    remained at each group border, in order. *)
Fixpoint run (re : list item) (s : string) : option (list string) :=
  match re with
  | [] => Some []
  | Chr c :: re' =>
      match s with
      | String d s' => if Ascii.eqb c d then run re' s' else None
      | EmptyString => None
      end
  | Cls p :: re' =>
      match s with
      | String d s' => if p d then run re' s' else None
      | EmptyString => None
      end
  | Plus p :: re' => plus_greedy p (run re') s
  | Mark :: re' => option_map (cons s) (run re' s)
  | Eol :: re' => if at_end s then run re' s else None
  end.

(** The text of a group that opened with [a] remaining and closed with [b]
    remaining. *)
Definition group (a b : string) : string :=
  take (String.length a - String.length b) a.

(** [.] matches anything but a line feed. *)
Definition dot (c : ascii) : bool := negb (Ascii.eqb c LF).

(** [^\((\w{4},\w{4})\)\s+(\w+)\s+(.+)$] *)
Definition tag_re : list item :=
  [ Chr "("%char; Mark;
    Cls isword; Cls isword; Cls isword; Cls isword; Chr ","%char;
    Cls isword; Cls isword; Cls isword; Cls isword; Mark;
    Chr ")"%char; Plus isspace;
    Mark; Plus isword; Mark;
    Plus isspace;
    Mark; Plus dot; Mark; Eol ].

(** [re.match(tag_re, line)] with [m.group(1)], [m.group(2)], [m.group(3)]. *)
Definition match_tag (line : string) : option (string * string * string) :=
  match run tag_re line with
  | Some [a1; b1; a2; b2; a3; b3] =>
      Some (group a1 b1, group a2 b2, group a3 b3)
  | _ => None
  end.

End Re.

(* ------------------------------------------------------------------ *)
(** ** [OrderedDict] with [str] keys *)
(* ------------------------------------------------------------------ *)

Module OD.
Section Dict.
Context {V : Type}.

Definition t : Type := list (string * V).

(** [d.get(k)] *)
Fixpoint get (k : string) (d : t) : option V :=
  match d with
  | [] => None
  | (k', v) :: d' => if String.eqb k k' then Some v else get k d'
  end.

(** [k in d] *)
Definition mem (k : string) (d : t) : bool :=
  match get k d with
  | Some _ => true
  | None => false
  end.

(** [d[k] = v]: an existing key keeps its place, a new key goes last. *)
Fixpoint set (k : string) (v : V) (d : t) : t :=
  match d with
  | [] => [(k, v)]
  | (k', v') :: d' =>
      if String.eqb k k' then (k, v) :: d' else (k', v') :: set k v d'
  end.

(** In-place change of the value stored under an existing key [k], as in
    [d[k].append(x)]. *)
Fixpoint update (k : string) (f : V -> V) (d : t) : t :=
  match d with
  | [] => []
  | (k', v') :: d' =>
      if String.eqb k k' then (k', f v') :: d' else (k', v') :: update k f d'
  end.

Definition keys (d : t) : list string := map fst d.

End Dict.
Arguments t V : clear implicits.
End OD.

(* ------------------------------------------------------------------ *)
(** ** [scripts/dashboard.py]: the format parsers *)
(* ------------------------------------------------------------------ *)

(** The [st.cache_data] decorator memoises a parser per path; it does not
    change what a call on a given file returns, and is left out. *)

Module Dashboard.
Import Py.

(** The files visible to the process: a path either has a text or does not
    exist. *)
Definition filesystem : Type := string -> option string.

(** [os.path.exists(path)] *)
Definition exists_ (fs : filesystem) (path : string) : bool :=
  match fs path with
  | Some _ => true
  | None => false
  end.

(** [with open(path, "r") as f: f.readlines()] *)
Definition open_readlines (fs : filesystem) (path : string)
  : result (list string) :=
  match fs path with
  | Some text => Ok (readlines text)
  | None => Raise FileNotFoundError
  end.

(** [line.strip() == ""] *)
Definition blank (line : string) : bool := String.eqb (strip line) "".

(** *** [parse_standard_elements] *)

Record std_entry : Type := mk_std_entry {
  vr : string;
  keyword : string;
  values : list string
}.

Definition append_value (x : string) (e : std_entry) : std_entry :=
  {| vr := vr e; keyword := keyword e; values := values e ++ [x] |}.

Record phase1_state : Type := mk_phase1 {
  in_listing : bool;
  tag_list : list (string * string * string);
  listed : OD.t std_entry
}.

(** One turn of the first loop. *)
Definition phase1_step (st : phase1_state) (raw : string) : phase1_state :=
  let line := rstrip_nl raw in
  if String.eqb line "List of Standard Elements" then
    {| in_listing := true; tag_list := tag_list st; listed := listed st |}
  else if in_listing st then
    match Re.match_tag line with
    | Some (tag_hex, v, k) =>
        {| in_listing := true;
           tag_list := tag_list st ++ [(tag_hex, v, k)];
           listed :=
             OD.set tag_hex {| vr := v; keyword := k; values := [] |}
                    (listed st) |}
    | None =>
        if blank line then
          match tag_list st with
          | _ :: _ =>
              {| in_listing := false; tag_list := tag_list st;
                 listed := listed st |}
          | [] => st
          end
        else st
    end
  else st.

Definition phase1 (lines : list string) : OD.t std_entry :=
  listed
    (fold_left phase1_step lines
       {| in_listing := false; tag_list := []; listed := [] |}).

(** One turn of the second loop; the state is [elements] and
    [current_tag]. *)
Definition phase2_step (st : OD.t std_entry * option string) (raw : string)
  : OD.t std_entry * option string :=
  let '(elements, current_tag) := st in
  let line := rstrip_nl raw in
  match Re.match_tag line with
  | Some (tag_hex, _, _) =>
      if OD.mem tag_hex elements then (elements, Some tag_hex)
      else (elements, None)
  | None =>
      match current_tag with
      | Some tag =>
          if nonempty tag && startswith line "  " then
            (OD.update tag (append_value (strip line)) elements, current_tag)
          else st
      | None => st
      end
  end.

Definition phase2 (st : OD.t std_entry * option string) (lines : list string)
  : OD.t std_entry * option string :=
  fold_left phase2_step lines st.

(** The body of [parse_standard_elements] after [f.readlines()]. *)
Definition parse_standard_elements_lines (lines : list string)
  : OD.t std_entry :=
  fst (phase2 (phase1 lines, None) lines).

Definition parse_standard_elements (fs : filesystem) (filepath : string)
  : result (OD.t std_entry) :=
  lines <- open_readlines fs filepath ;;
  Ok (parse_standard_elements_lines lines).

(** *** [parse_private_elements] *)

(** The search for [sep_idx]: the first blank line whose index is above 2. *)
Fixpoint find_sep (i : nat) (lines : list string) : option nat :=
  match lines with
  | [] => None
  | raw :: rest =>
      let stripped := strip raw in
      if (String.eqb stripped "Private Elements"
          || String.eqb stripped "List of Element Keys"
          || String.eqb stripped "")
         && (String.eqb stripped "" && (2 <? i))
      then Some i
      else find_sep (S i) rest
  end.

(** One turn of the loop shared, up to its guards, by the parsers that map
    a key line to the indented lines below it: open [key] without resetting
    an existing list. *)
Definition open_key (key : string) (d : OD.t (list string))
  : OD.t (list string) :=
  if OD.mem key d then d else OD.set key [] d.

Definition append_to (x : string) (vs : list string) : list string :=
  vs ++ [x].

Definition private_step (st : OD.t (list string) * option string)
    (raw : string) : OD.t (list string) * option string :=
  let '(elements, current_key) := st in
  let line := rstrip_nl raw in
  if blank line then st
  else if negb (startswith line "  ") then
    (open_key (strip line) elements, Some (strip line))
  else
    match current_key with
    | Some key =>
        if nonempty key
        then (OD.update key (append_to (strip line)) elements, current_key)
        else st
    | None => st
    end.

Definition parse_private_elements_lines (lines : list string)
  : OD.t (list string) :=
  match find_sep 0 lines with
  | None => []
  | Some sep_idx =>
      fst (fold_left private_step (skipn (sep_idx + 1) lines) ([], None))
  end.

Definition parse_private_elements (fs : filesystem) (filepath : string)
  : result (OD.t (list string)) :=
  lines <- open_readlines fs filepath ;;
  Ok (parse_private_elements_lines lines).

(** *** [parse_sequences] *)

(** The guard of the first [if] of the loop. *)
Definition seq_skipped (line : string) : bool :=
  startswith line "Standard Sequence"
  || startswith line "Private Sequence"
  || blank line.

Definition seq_step (st : OD.t (list string) * option string) (raw : string)
  : OD.t (list string) * option string :=
  let '(sequences, current_key) := st in
  let line := rstrip_nl raw in
  if seq_skipped line then st
  else if startswith line "  " then
    match current_key with
    | Some key =>
        if nonempty key
        then (OD.update key (append_to (strip line)) sequences, current_key)
        else st
    | None => st
    end
  else (open_key (strip line) sequences, Some (strip line)).

Definition seq_loop (st : OD.t (list string) * option string)
    (lines : list string) : OD.t (list string) * option string :=
  fold_left seq_step lines st.

Definition parse_sequences_lines (lines : list string) : OD.t (list string) :=
  fst (seq_loop ([], None) lines).

Definition parse_sequences (fs : filesystem) (filepath : string)
  : result (OD.t (list string)) :=
  if negb (exists_ fs filepath) then Ok []
  else
    lines <- open_readlines fs filepath ;;
    Ok (parse_sequences_lines lines).

(** *** [parse_date_time] *)

(** [f"({tag_hex}) {vr} {keyword}"] *)
Definition dt_key (tag_hex v k : string) : string :=
  "(" ++ tag_hex ++ ") " ++ v ++ " " ++ k.

Definition dt_step (st : OD.t (list string) * option string) (raw : string)
  : OD.t (list string) * option string :=
  let '(elements, current_key) := st in
  let line := rstrip_nl raw in
  if String.eqb line "Date/Time Elements" || blank line then st
  else
    match Re.match_tag line with
    | Some (tag_hex, v, k) =>
        (OD.set (dt_key tag_hex v k) [] elements, Some (dt_key tag_hex v k))
    | None =>
        match current_key with
        | Some key =>
            if nonempty key && startswith line "  "
            then (OD.update key (append_to (strip line)) elements,
                  current_key)
            else st
        | None => st
        end
    end.

Definition dt_loop (st : OD.t (list string) * option string)
    (lines : list string) : OD.t (list string) * option string :=
  fold_left dt_step lines st.

Definition parse_date_time_lines (lines : list string) : OD.t (list string) :=
  fst (dt_loop ([], None) lines).

Definition parse_date_time (fs : filesystem) (filepath : string)
  : result (OD.t (list string)) :=
  lines <- open_readlines fs filepath ;;
  Ok (parse_date_time_lines lines).

(** *** [parse_simple_list] *)

Definition simple_step (items : list string) (line : string) : list string :=
  let val := strip line in
  if nonempty val then items ++ [val] else items.

Definition parse_simple_list (fs : filesystem) (filepath : string)
  : result (list string) :=
  if negb (exists_ fs filepath) then Ok []
  else
    lines <- open_readlines fs filepath ;;
    Ok (fold_left simple_step (skipn 1 lines) []).

(** *** [parse_counts] *)

Record count_row : Type := mk_count_row {
  study_uid : string;
  files : string;
  over_1kb : string;
  over_20kb : string;
  over_50kb : string
}.

Definition counts_step (rows : list count_row) (raw : string)
  : list count_row :=
  let line := strip raw in
  if negb (nonempty line) then rows
  else
    match split_ws line with
    | p0 :: _ :: p2 :: p3 :: p4 :: p5 :: _ =>
        rows ++ [ {| study_uid := p0; files := p2; over_1kb := p3;
                     over_20kb := p4; over_50kb := p5 |} ]
    | _ => rows
    end.

Definition parse_counts_lines (lines : list string) : list count_row :=
  fold_left counts_step (skipn 1 lines) [].

Definition parse_counts (fs : filesystem) (filepath : string)
  : result (list count_row) :=
  if negb (exists_ fs filepath) then Ok []
  else
    lines <- open_readlines fs filepath ;;
    Ok (parse_counts_lines lines).

(** *** [parse_private_creators] *)

Definition TAB : string := String "009"%char EmptyString.

Definition creators_step (creators : list (string * string)) (raw : string)
  : list (string * string) :=
  let line := strip raw in
  if nonempty line && negb (String.eqb line "Private Creators")
     && negb (String.eqb line "")
  then
    match split_once TAB line with
    | [tag; creator] => creators ++ [(tag, creator)]
    | _ => creators
    end
  else creators.

Definition parse_private_creators (fs : filesystem) (filepath : string)
  : result (list (string * string)) :=
  if negb (exists_ fs filepath) then Ok []
  else
    lines <- open_readlines fs filepath ;;
    Ok (fold_left creators_step lines []).

(** *** [parse_large_private_elements] *)

Record hash_row : Type := mk_hash_row {
  hash : string;
  count : Z
}.

(** One turn of the loop; [int] may raise. *)
Definition large_step (rows : list hash_row) (raw : string)
  : result (list hash_row) :=
  let line := strip raw in
  if startswith line "Hash: " then
    match split_once ", count: " line with
    | [p0; p1] =>
        n <- int p1 ;;
        Ok (rows ++ [ {| hash := drop 6 p0; count := n |} ])%list
    | _ => Ok rows
    end
  else Ok rows.

Fixpoint large_loop (rows : list hash_row) (lines : list string)
  : result (list hash_row) :=
  match lines with
  | [] => Ok rows
  | raw :: rest =>
      rows' <- large_step rows raw ;;
      large_loop rows' rest
  end.

Definition parse_large_private_elements (fs : filesystem) (filepath : string)
  : result (list hash_row) :=
  if negb (exists_ fs filepath) then Ok []
  else
    lines <- open_readlines fs filepath ;;
    large_loop [] lines.

(** *** The aggregation in [main] (and in [generate_html_report]) *)

(** [sum(int(r["Files"]) for r in counts)]: the generator converts the rows
    one after the other, and the first failing conversion ends the sum. *)
Fixpoint sum_files (acc : Z) (counts : list count_row) : result Z :=
  match counts with
  | [] => Ok acc
  | r :: rest =>
      n <- int (files r) ;;
      sum_files (acc + n)%Z rest
  end.

(** [sum(int(r["Files"]) for r in counts) if counts else 0] *)
Definition total_files (counts : list count_row) : result Z :=
  match counts with
  | [] => Ok 0%Z
  | _ :: _ => sum_files 0%Z counts
  end.

(** The guarded parser calls of [main]: the three parsers that open their
    file without asking are only called on a path that exists. *)
Definition load_std_elements (fs : filesystem) (std_path : string)
  : result (OD.t std_entry) :=
  if exists_ fs std_path then parse_standard_elements fs std_path else Ok [].

Definition load_priv_elements (fs : filesystem) (priv_path : string)
  : result (OD.t (list string)) :=
  if exists_ fs priv_path then parse_private_elements fs priv_path else Ok [].

Definition load_dt_elements (fs : filesystem) (dt_path : string)
  : result (OD.t (list string)) :=
  if exists_ fs dt_path then parse_date_time fs dt_path else Ok [].

End Dashboard.

(* ------------------------------------------------------------------ *)
(** ** [scripts/html_report.py]: the static renderer *)
(* ------------------------------------------------------------------ *)

Module Html.
Import Py Dashboard.

(** [html.escape(s)] with its default [quote=True]: the five replacements,
    the ampersand first, amount to a translation character by character. *)
Definition escape_char (c : ascii) : string :=
  if Ascii.eqb c "&"%char then "&amp;"
  else if Ascii.eqb c "<"%char then "&lt;"
  else if Ascii.eqb c ">"%char then "&gt;"
  else if Ascii.eqb c DQ then "&quot;"
  else if Ascii.eqb c "'"%char then "&#x27;"
  else String c EmptyString.

Fixpoint escape (s : string) : string :=
  match s with
  | EmptyString => EmptyString
  | String c s' => escape_char c ++ escape s'
  end.

(** [_esc(text)] is [escape(str(text))]; [_esc_int] is its use on an
    [int], where [str] can raise. *)
Definition _esc (text : string) : string := escape text.
Definition _esc_int (n : Z) : result string :=
  text <- str_of_int n ;; Ok (escape text).

(** A quoted attribute value, [="name"] without the equals sign. *)
Definition q (name : string) : string := dq ++ name ++ dq.

(** A [html += ...] loop over [xs]. *)
Definition concat_map {A : Type} (f : A -> string) (xs : list A) : string :=
  String.concat "" (map f xs).

(** The same loop when the text of an element can raise: the first
    failure ends it. *)
Fixpoint concat_mapM {A : Type} (f : A -> result string) (xs : list A)
  : result string :=
  match xs with
  | [] => Ok EmptyString
  | x :: rest =>
      head <- f x ;;
      tail <- concat_mapM f rest ;;
      Ok (head ++ tail)
  end.

(** [_esc(v) if v.strip() else "&lt;empty&gt;"] *)
Definition value_html (v : string) : string :=
  if nonempty (strip v) then _esc v else "&lt;empty&gt;".

Definition value_div (v : string) : string :=
  "<div>" ++ value_html v ++ "</div>".

Definition _tag_row_html (tag_hex keyword vr : string) (values : list string)
  : string :=
  let status :=
    match values with
    | _ :: _ =>
        "<span class=" ++ q "status-review" ++ ">"
        ++ str_nat (List.length values) ++ " value(s)</span>"
    | [] => "<span class=" ++ q "status-clean" ++ ">Empty / Clean</span>"
    end in
  "<div class=" ++ q "tag-row" ++ ">"
  ++ "<div class=" ++ q "tag-header" ++ ">"
  ++ ("<span><span class=" ++ q "tag-label" ++ ">("
      ++ _esc tag_hex ++ ") " ++ _esc keyword ++ "</span>")
  ++ ("<span class=" ++ q "tag-vr" ++ ">" ++ _esc vr ++ "</span></span>")
  ++ status
  ++ "</div>"
  ++ match values with
     | _ :: _ =>
         "<div class=" ++ q "values" ++ ">"
         ++ concat_map value_div values
         ++ "</div>"
     | [] => ""
     end
  ++ "</div>".

Definition _details (summary content : string) (open_default : bool)
  : string :=
  let open_attr := if open_default then " open" else "" in
  "<details" ++ open_attr ++ "><summary>" ++ _esc summary
  ++ "</summary><div class=" ++ q "content" ++ ">" ++ content
  ++ "</div></details>".

(** [PHI_GROUPS] of [dashboard.py]. *)
Definition PHI_GROUPS : list (string * list (string * string)) :=
  [ ("Patient Demographics",
      [ ("0010,0010", "PatientName"); ("0010,0020", "PatientID");
        ("0010,0030", "PatientBirthDate"); ("0010,0040", "PatientSex");
        ("0010,1010", "PatientAge"); ("0010,1020", "PatientSize");
        ("0010,1030", "PatientWeight") ]);
    ("Institutional / Referring",
      [ ("0008,0080", "InstitutionName");
        ("0008,0090", "ReferringPhysicianName");
        ("0008,1010", "StationName"); ("0008,0050", "AccessionNumber") ]);
    ("Descriptions (may contain PHI)",
      [ ("0008,1030", "StudyDescription");
        ("0008,103E", "SeriesDescription");
        ("0008,1080", "AdmittingDiagnosesDescription");
        ("0010,21B0", "AdditionalPatientHistory") ]);
    ("De-identification Status",
      [ ("0012,0062", "PatientIdentityRemoved");
        ("0012,0063", "DeidentificationMethod") ]);
    ("UIDs",
      [ ("0008,0018", "SOPInstanceUID"); ("0020,000D", "StudyInstanceUID");
        ("0020,000E", "SeriesInstanceUID");
        ("0020,0052", "FrameOfReferenceUID");
        ("0002,0003", "MediaStorageSOPInstanceUID");
        ("0008,0014", "InstanceCreatorUID") ]);
    ("Equipment / Protocol",
      [ ("0008,0070", "Manufacturer"); ("0008,1090", "ManufacturerModelName");
        ("0018,1000", "DeviceSerialNumber"); ("0018,1020", "SoftwareVersions");
        ("0018,1030", "ProtocolName");
        ("0002,0016", "SourceApplicationEntityTitle");
        ("0040,0241", "PerformedStationAETitle") ]);
    ("Procedure Info",
      [ ("0020,0010", "StudyID");
        ("0032,1060", "RequestedProcedureDescription");
        ("0040,0254", "PerformedProcedureStepDescription");
        ("0020,4000", "ImageComments"); ("0010,21C0", "PregnancyStatus") ]) ].

(** [std_elements.get(tag_hex, {})] followed by [.get("values", [])] and
    [.get("vr", "")]. *)
Definition values_of (std_elements : OD.t std_entry) (tag_hex : string)
  : list string :=
  match OD.get tag_hex std_elements with
  | Some e => values e
  | None => []
  end.

Definition vr_of (std_elements : OD.t std_entry) (tag_hex : string)
  : string :=
  match OD.get tag_hex std_elements with
  | Some e => vr e
  | None => ""
  end.

Definition phi_tag_html (std_elements : OD.t std_entry)
    (ref : string * string) : string :=
  let '(tag_hex, keyword) := ref in
  _tag_row_html tag_hex keyword (vr_of std_elements tag_hex)
                (values_of std_elements tag_hex).

Definition phi_group_html (std_elements : OD.t std_entry)
    (group : string * list (string * string)) : string :=
  let '(group_name, tags) := group in
  _details group_name (concat_map (phi_tag_html std_elements) tags)
           (String.eqb group_name "Patient Demographics").

Definition dt_row_html (item : string * list string) : string :=
  let '(tag_display, values) := item in
  "<div class=" ++ q "tag-row" ++ "><span class=" ++ q "tag-label" ++ ">"
  ++ _esc tag_display ++ "</span>"
  ++ match values with
     | _ :: _ =>
         "<div class=" ++ q "values" ++ "><div>"
         ++ join ", " (map value_html values) ++ "</div></div>"
     | [] =>
         "<div class=" ++ q "values" ++ "><div>&lt;empty&gt;</div></div>"
     end
  ++ "</div>".

Definition _section_phi_review (std_elements : OD.t std_entry)
    (dt_elements : OD.t (list string)) : string :=
  "<h2>PHI Review</h2>"
  ++ concat_map (phi_group_html std_elements) PHI_GROUPS
  ++ _details "Dates & Times"
       match dt_elements with
       | _ :: _ => concat_map dt_row_html dt_elements
       | [] =>
           "<div class=" ++ q "info-box"
           ++ ">No date/time elements found</div>"
       end
       false.

(** [scan_summary.get(key, 0)] on the mapping that the absent
    [parse_scan_summary] returns. *)
Definition summary_get (scan_summary : OD.t Z) (key : string) : Z :=
  match OD.get key scan_summary with
  | Some n => n
  | None => 0%Z
  end.

Definition metric_html (item : string * string) : string :=
  let '(label, value) := item in
  "<div class=" ++ q "metric" ++ "><div class=" ++ q "value" ++ ">"
  ++ _esc value ++ "</div><div class=" ++ q "label" ++ ">" ++ _esc label
  ++ "</div></div>".

Definition code_html (s : string) : string :=
  "<code>" ++ _esc s ++ "</code>".

(** [parts.append(f"{n:,} ...")] under [if n:]. *)
Definition summary_part (n : Z) (label : string) : result (list string) :=
  if (n =? 0)%Z then Ok []
  else (text <- format_of_int n ;; Ok [text ++ label]).

Definition summary_line (scan_summary : OD.t Z) : result string :=
  let total := summary_get scan_summary "total_files" in
  let parsed := summary_get scan_summary "dicom_parsed" in
  let errors := summary_get scan_summary "parse_errors" in
  let skipped := (total - parsed - errors)%Z in
  total_text <- format_of_int total ;;
  parsed_part <- summary_part parsed " DICOM files parsed" ;;
  errors_part <- summary_part errors " could not be parsed" ;;
  skipped_part <- summary_part skipped " non-DICOM skipped" ;;
  let parts :=
    List.app [total_text ++ " files found in project"]
      (List.app parsed_part (List.app errors_part skipped_part)) in
  Ok ("<p style=" ++ q "color:#888; font-size:0.9em;" ++ ">"
      ++ join " &bull; " parts ++ "</p>").

Definition _section_overview (std_elements : OD.t std_entry)
    (priv_elements : OD.t (list string)) (sop_classes studies : list string)
    (modalities : list string) (total_files : Z)
    (scan_summary : option (OD.t Z)) : result string :=
  files_text <- format_of_int total_files ;;
  summary_html <-
    match scan_summary with
    | Some ((_ :: _) as summary) =>
        if (0 <? summary_get summary "total_files")%Z
        then summary_line summary else Ok ""
    | _ => Ok ""
    end ;;
  Ok ("<h2>Dataset Overview</h2>"
  ++ "<div class=" ++ q "metrics" ++ ">"
  ++ concat_map metric_html
       [ ("DICOM Files Parsed", files_text);
         ("Studies", str_nat (List.length studies));
         ("Standard Tags", str_nat (List.length std_elements));
         ("Private Element Groups", str_nat (List.length priv_elements)) ]
  ++ "</div>"
  ++ summary_html
  ++ "<h3>Modalities</h3>"
  ++ match modalities with
     | _ :: _ => join ", " (map code_html modalities)
     | [] =>
         "<div class=" ++ q "info-box"
         ++ ">No modality information found</div>"
     end
  ++ "<h3>SOP Classes</h3>"
  ++ match sop_classes with
     | _ :: _ => join ", " (map code_html sop_classes)
     | [] => "<div class=" ++ q "info-box" ++ ">No SOP classes found</div>"
     end).

Definition std_row_html (item : string * std_entry) : string :=
  let '(tag_hex, data) := item in
  _tag_row_html tag_hex (keyword data) (vr data) (values data).

Definition priv_row_html (item : string * list string) : string :=
  let '(key, values) := item in
  let status :=
    match values with
    | _ :: _ =>
        "<span class=" ++ q "status-review" ++ ">"
        ++ str_nat (List.length values) ++ " value(s)</span>"
    | [] => "<span class=" ++ q "status-clean" ++ ">Empty</span>"
    end in
  "<div class=" ++ q "tag-row" ++ "><div class=" ++ q "tag-header"
  ++ "><span class=" ++ q "tag-label" ++ ">" ++ _esc key ++ "</span>"
  ++ status ++ "</div>"
  ++ match values with
     | _ :: _ =>
         "<div class=" ++ q "values" ++ ">" ++ concat_map value_div values
         ++ "</div>"
     | [] => ""
     end
  ++ "</div>".

Definition seq_row_html (item : string * list string) : string :=
  let '(key, values) := item in
  "<div class=" ++ q "tag-row" ++ "><span class=" ++ q "tag-label" ++ ">"
  ++ _esc key ++ "</span>"
  ++ match values with
     | _ :: _ =>
         "<div class=" ++ q "values" ++ ">" ++ concat_map value_div values
         ++ "</div>"
     | [] => ""
     end
  ++ "</div>".

(** The two loops that fill [all_seq]. *)
Definition add_prefixed (label : string) (all_seq : OD.t (list string))
    (item : string * list string) : OD.t (list string) :=
  OD.set (label ++ fst item) (snd item) all_seq.

Definition merge_sequences (std_sequences priv_sequences : OD.t (list string))
  : OD.t (list string) :=
  fold_left (add_prefixed "[Priv] ") priv_sequences
    (fold_left (add_prefixed "[Std] ") std_sequences []).

Definition _section_tag_explorer (std_elements : OD.t std_entry)
    (priv_elements std_sequences priv_sequences : OD.t (list string))
  : string :=
  let all_seq := merge_sequences std_sequences priv_sequences in
  "<h2>Tag Explorer</h2>"
  ++ _details
       ("Standard Elements (" ++ str_nat (List.length std_elements) ++ ")")
       (concat_map std_row_html std_elements) false
  ++ _details
       ("Private Elements (" ++ str_nat (List.length priv_elements) ++ ")")
       (concat_map priv_row_html priv_elements) false
  ++ _details
       ("Sequences (" ++ str_nat (List.length all_seq) ++ ")")
       match all_seq with
       | _ :: _ => concat_map seq_row_html all_seq
       | [] =>
           "<div class=" ++ q "info-box"
           ++ ">No sequence elements found</div>"
       end
       false.

(** *** Study summary *)

(** [sorted(rows, key=lambda r: r["Count"], reverse=True)]: a stable sort
    into descending order of [Count]; rows of equal count keep the order
    they had.  [insert_desc r l] puts [r], which came before every row of
    [l], in front of the first row whose count is not larger. *)
Fixpoint insert_desc (r : hash_row) (l : list hash_row) : list hash_row :=
  match l with
  | [] => [r]
  | x :: l' =>
      if (count r <? count x)%Z then x :: insert_desc r l' else r :: l
  end.

Fixpoint sorted_desc (rows : list hash_row) : list hash_row :=
  match rows with
  | [] => []
  | r :: rest => insert_desc r (sorted_desc rest)
  end.

Definition display_limit : nat := 10.

Definition count_row_html (r : count_row) : string :=
  "<tr>"
  ++ "<td><code>" ++ _esc (study_uid r) ++ "</code></td>"
  ++ "<td>" ++ _esc (files r) ++ "</td>"
  ++ "<td>" ++ _esc (over_1kb r) ++ "</td>"
  ++ "<td>" ++ _esc (over_20kb r) ++ "</td>"
  ++ "<td>" ++ _esc (over_50kb r) ++ "</td>"
  ++ "</tr>".

Definition hash_row_html (r : hash_row) : result string :=
  count_text <- _esc_int (count r) ;;
  Ok ("<tr><td><code>" ++ _esc (hash r) ++ "</code></td><td>"
      ++ count_text ++ "</td></tr>").

(** The rows of the large-hash table. *)
Definition shown_hashes (large_priv : list hash_row) : list hash_row :=
  firstn display_limit (sorted_desc large_priv).

(** The paragraph under the table. *)
Definition hash_note (large_priv : list hash_row) : string :=
  if display_limit <? List.length large_priv then
    "<p><em>Showing top " ++ str_nat display_limit ++ " of "
    ++ fmt_nat (List.length large_priv)
    ++ " unique hashes. Full data available in large_private_elements.txt</em></p>"
  else "".

Definition sum_counts (large_priv : list hash_row) : Z :=
  fold_left (fun acc r => (acc + count r)%Z) large_priv 0%Z.

Definition large_hashes_html (large_priv : list hash_row) : result string :=
  match large_priv with
  | _ :: _ =>
      occurrences <- format_of_int (sum_counts large_priv) ;;
      rows <- concat_mapM hash_row_html (shown_hashes large_priv) ;;
      Ok ("<h3>Large Private Elements</h3>"
          ++ "<div class=" ++ q "warning-box"
          ++ ">Large private elements detected. These are SHA-256 hashes of private data elements exceeding size thresholds.</div>"
          ++ ("<div class=" ++ q "metrics" ++ "><div class=" ++ q "metric"
              ++ "><div class=" ++ q "value" ++ ">"
              ++ fmt_nat (List.length large_priv)
              ++ "</div><div class=" ++ q "label"
              ++ ">Unique hashes</div></div>")
          ++ ("<div class=" ++ q "metric" ++ "><div class=" ++ q "value"
              ++ ">" ++ occurrences
              ++ "</div><div class=" ++ q "label"
              ++ ">Total occurrences</div></div></div>")
          ++ "<div class=" ++ q "table-scroll"
          ++ "><table><tr><th>SHA-256 Hash</th><th>Occurrences</th></tr>"
          ++ rows
          ++ "</table></div>"
          ++ hash_note large_priv)
  | [] =>
      Ok ("<h3>Large Private Elements</h3>"
          ++ "<div class=" ++ q "success-box"
          ++ ">No large private elements detected</div>")
  end.

Definition _section_study_summary (counts : list count_row)
    (large_priv : list hash_row) : result string :=
  counts_html <-
    match counts with
    | _ :: _ =>
        total <- sum_files 0%Z counts ;;
        total_text <- format_of_int total ;;
        Ok ("<div class=" ++ q "table-scroll"
            ++ "><table><tr><th>Study UID</th><th>Files</th><th>&gt;1KB</th><th>&gt;20KB</th><th>&gt;50KB</th></tr>"
            ++ concat_map count_row_html counts
            ++ "</table></div>"
            ++ "<div class=" ++ q "metrics" ++ "><div class=" ++ q "metric"
            ++ "><div class=" ++ q "value" ++ ">" ++ total_text
            ++ "</div><div class=" ++ q "label"
            ++ ">Total files</div></div></div>")
    | [] => Ok ("<div class=" ++ q "info-box" ++ ">No study data found</div>")
    end ;;
  hashes_html <- large_hashes_html large_priv ;;
  Ok ("<h2>Study Summary</h2>" ++ counts_html ++ hashes_html).

Definition creator_row_html (c : string * string) : string :=
  "<tr><td><code>" ++ _esc (fst c) ++ "</code></td><td>" ++ _esc (snd c)
  ++ "</td></tr>".

Definition _section_private_creators (creators : list (string * string))
  : string :=
  "<h2>Private Creators</h2>"
  ++ match creators with
     | _ :: _ =>
         "<div class=" ++ q "table-scroll"
         ++ "><table><tr><th>Tag</th><th>Creator ID</th></tr>"
         ++ concat_map creator_row_html creators
         ++ "</table></div>"
     | [] =>
         "<div class=" ++ q "info-box" ++ ">No private creators found</div>"
     end.

(** *** The style sheet *)

Definition _CSS : string :=
  nl
  ++ "body {" ++ nl
  ++ "    font-family: -apple-system, BlinkMacSystemFont, " ++ dq ++ "Segoe UI" ++ dq ++ ", Roboto, Helvetica, Arial, sans-serif;" ++ nl
  ++ "    max-width: 1100px;" ++ nl
  ++ "    margin: 0 auto;" ++ nl
  ++ "    padding: 20px 30px;" ++ nl
  ++ "    color: #000337;" ++ nl
  ++ "    background: #FAFBFF;" ++ nl
  ++ "    line-height: 1.5;" ++ nl
  ++ "}" ++ nl
  ++ "h1 { color: #7BA7CC; border-bottom: 2px solid #7BA7CC; padding-bottom: 8px; }" ++ nl
  ++ "h2 { color: #000337; margin-top: 30px; border-left: 4px solid #FF702A; padding-left: 12px; }" ++ nl
  ++ "h3 { color: #000337; margin-top: 20px; border-left: 3px solid #FFA929; padding-left: 10px; }" ++ nl
  ++ ".header-info {" ++ nl
  ++ "    background: #E8F0FE;" ++ nl
  ++ "    padding: 12px 18px;" ++ nl
  ++ "    border-radius: 6px;" ++ nl
  ++ "    margin-bottom: 20px;" ++ nl
  ++ "    font-size: 0.95em;" ++ nl
  ++ "    border-left: 4px solid #2C82FD;" ++ nl
  ++ "}" ++ nl
  ++ ".header-info span { margin-right: 30px; }" ++ nl
  ++ ".metrics {" ++ nl
  ++ "    display: flex;" ++ nl
  ++ "    gap: 16px;" ++ nl
  ++ "    flex-wrap: wrap;" ++ nl
  ++ "    margin: 16px 0;" ++ nl
  ++ "}" ++ nl
  ++ ".metric {" ++ nl
  ++ "    background: white;" ++ nl
  ++ "    border: 1px solid #D0DDEF;" ++ nl
  ++ "    border-radius: 8px;" ++ nl
  ++ "    padding: 14px 20px;" ++ nl
  ++ "    min-width: 140px;" ++ nl
  ++ "    text-align: center;" ++ nl
  ++ "    border-top: 3px solid #2C82FD;" ++ nl
  ++ "}" ++ nl
  ++ ".metric .value { font-size: 1.8em; font-weight: 700; color: #000337; }" ++ nl
  ++ ".metric .label { font-size: 0.85em; color: #555; margin-top: 2px; }" ++ nl
  ++ "details {" ++ nl
  ++ "    background: white;" ++ nl
  ++ "    border: 1px solid #D0DDEF;" ++ nl
  ++ "    border-radius: 6px;" ++ nl
  ++ "    margin: 10px 0;" ++ nl
  ++ "    padding: 0;" ++ nl
  ++ "}" ++ nl
  ++ "details > summary {" ++ nl
  ++ "    padding: 12px 16px;" ++ nl
  ++ "    cursor: pointer;" ++ nl
  ++ "    font-weight: 600;" ++ nl
  ++ "    font-size: 1.05em;" ++ nl
  ++ "    background: #E8F0FE;" ++ nl
  ++ "    color: #000337;" ++ nl
  ++ "    border-radius: 6px;" ++ nl
  ++ "    list-style: none;" ++ nl
  ++ "}" ++ nl
  ++ "details > summary::-webkit-details-marker { display: none; }" ++ nl
  ++ "details > summary::before { content: " ++ dq ++ "\25B6  " ++ dq ++ "; font-size: 0.8em; color: #2C82FD; }" ++ nl
  ++ "details[open] > summary::before { content: " ++ dq ++ "\25BC  " ++ dq ++ "; color: #2C82FD; }" ++ nl
  ++ "details[open] > summary { border-bottom: 1px solid #D0DDEF; border-radius: 6px 6px 0 0; }" ++ nl
  ++ "details > .content { padding: 12px 16px; }" ++ nl
  ++ ".tag-row { margin: 8px 0; padding: 6px 0; border-bottom: 1px solid #E8F0FE; }" ++ nl
  ++ ".tag-header { display: flex; justify-content: space-between; align-items: center; }" ++ nl
  ++ ".tag-label { font-weight: 600; font-family: monospace; font-size: 0.95em; color: #000337; }" ++ nl
  ++ ".tag-vr { color: #888; font-family: monospace; font-size: 0.85em; margin-left: 8px; }" ++ nl
  ++ ".status-clean {" ++ nl
  ++ "    display: inline-block;" ++ nl
  ++ "    background: #E0F2E9;" ++ nl
  ++ "    color: #155724;" ++ nl
  ++ "    padding: 2px 10px;" ++ nl
  ++ "    border-radius: 12px;" ++ nl
  ++ "    font-size: 0.8em;" ++ nl
  ++ "    font-weight: 600;" ++ nl
  ++ "}" ++ nl
  ++ ".status-review {" ++ nl
  ++ "    display: inline-block;" ++ nl
  ++ "    background: #FFF0D9;" ++ nl
  ++ "    color: #7A4D00;" ++ nl
  ++ "    padding: 2px 10px;" ++ nl
  ++ "    border-radius: 12px;" ++ nl
  ++ "    font-size: 0.8em;" ++ nl
  ++ "    font-weight: 600;" ++ nl
  ++ "    border: 1px solid #FFA929;" ++ nl
  ++ "}" ++ nl
  ++ ".values { margin: 4px 0 0 20px; font-family: monospace; font-size: 0.9em; color: #333; max-height: 200px; overflow-y: auto; }" ++ nl
  ++ ".values div { padding: 1px 0; }" ++ nl
  ++ ".table-scroll {" ++ nl
  ++ "    max-height: 400px;" ++ nl
  ++ "    overflow-y: auto;" ++ nl
  ++ "    margin: 10px 0;" ++ nl
  ++ "    border: 1px solid #D0DDEF;" ++ nl
  ++ "    border-radius: 6px;" ++ nl
  ++ "}" ++ nl
  ++ "table {" ++ nl
  ++ "    border-collapse: collapse;" ++ nl
  ++ "    width: 100%;" ++ nl
  ++ "    margin: 0;" ++ nl
  ++ "    font-size: 0.9em;" ++ nl
  ++ "}" ++ nl
  ++ ".table-scroll table th {" ++ nl
  ++ "    position: sticky;" ++ nl
  ++ "    top: 0;" ++ nl
  ++ "    z-index: 1;" ++ nl
  ++ "}" ++ nl
  ++ "th, td {" ++ nl
  ++ "    border: 1px solid #D0DDEF;" ++ nl
  ++ "    padding: 8px 12px;" ++ nl
  ++ "    text-align: left;" ++ nl
  ++ "}" ++ nl
  ++ "th { background: #E8F0FE; font-weight: 600; color: #000337; }" ++ nl
  ++ "tr:nth-child(even) { background: #F5F8FF; }" ++ nl
  ++ ".section-divider { border-top: 2px solid #D0DDEF; margin: 30px 0; }" ++ nl
  ++ ".warning-box {" ++ nl
  ++ "    background: #FFF0D9;" ++ nl
  ++ "    border: 1px solid #FFA929;" ++ nl
  ++ "    border-radius: 6px;" ++ nl
  ++ "    padding: 10px 14px;" ++ nl
  ++ "    margin: 10px 0;" ++ nl
  ++ "    font-size: 0.9em;" ++ nl
  ++ "}" ++ nl
  ++ ".success-box {" ++ nl
  ++ "    background: #E0F2E9;" ++ nl
  ++ "    border: 1px solid #28a745;" ++ nl
  ++ "    border-radius: 6px;" ++ nl
  ++ "    padding: 10px 14px;" ++ nl
  ++ "    margin: 10px 0;" ++ nl
  ++ "    font-size: 0.9em;" ++ nl
  ++ "}" ++ nl
  ++ ".info-box {" ++ nl
  ++ "    background: #E8F0FE;" ++ nl
  ++ "    border: 1px solid #2C82FD;" ++ nl
  ++ "    border-radius: 6px;" ++ nl
  ++ "    padding: 10px 14px;" ++ nl
  ++ "    margin: 10px 0;" ++ nl
  ++ "    font-size: 0.9em;" ++ nl
  ++ "}" ++ nl.

(** *** [generate_html_report] *)

(** [os.path.join(output_dir, name)] for a relative file name. *)
Definition path_join (output_dir name : string) : string :=
  if negb (nonempty output_dir) then name
  else if String.eqb (drop (String.length output_dir - 1) output_dir) "/"
  then output_dir ++ name
  else output_dir ++ "/" ++ name.

(** The dash of the title, U+2014, as its three UTF-8 bytes. *)
Definition em_dash : string :=
  String "226"%char (String "128"%char (String "148"%char EmptyString)).

(** The parsed report, as the local variables of [generate_html_report]. *)
Record report_data : Type := mk_report_data {
  std_elements : OD.t std_entry;
  priv_elements : OD.t (list string);
  dt_elements : OD.t (list string);
  sop_classes : list string;
  studies : list string;
  counts : list count_row;
  creators : list (string * string);
  std_sequences : OD.t (list string);
  priv_sequences : OD.t (list string);
  large_priv : list hash_row;
  scan_summary : option (OD.t Z)
}.

(** The part of [generate_html_report] below the parser calls;
    [timestamp] is the text of [datetime.now().strftime(...)]. *)
Definition render_report (d : report_data) (project_name timestamp : string)
  : result string :=
  total_files <- total_files (counts d) ;;
  let modalities := values_of (std_elements d) "0008,0060" in
  let title :=
    if nonempty project_name
    then "PHI Report " ++ em_dash ++ " " ++ project_name
    else "PHI Report" in
  files_text <- format_of_int total_files ;;
  overview <-
    _section_overview (std_elements d) (priv_elements d) (sop_classes d)
      (studies d) modalities total_files (scan_summary d) ;;
  study_summary <- _section_study_summary (counts d) (large_priv d) ;;
  let body :=
    "<h1>" ++ _esc title ++ "</h1>"
    ++ "<div class=" ++ q "header-info" ++ ">"
    ++ "<span><strong>Generated:</strong> " ++ _esc timestamp ++ "</span>"
    ++ (if nonempty project_name
        then "<span><strong>Project:</strong> " ++ _esc project_name
             ++ "</span>"
        else "")
    ++ "<span><strong>DICOM files parsed:</strong> " ++ files_text
    ++ "</span>"
    ++ "</div>"
    ++ overview
    ++ "<div class=" ++ q "section-divider" ++ "></div>"
    ++ _section_phi_review (std_elements d) (dt_elements d)
    ++ "<div class=" ++ q "section-divider" ++ "></div>"
    ++ _section_tag_explorer (std_elements d) (priv_elements d)
         (std_sequences d) (priv_sequences d)
    ++ "<div class=" ++ q "section-divider" ++ "></div>"
    ++ study_summary
    ++ "<div class=" ++ q "section-divider" ++ "></div>"
    ++ _section_private_creators (creators d) in
  Ok ("<!DOCTYPE html>" ++ nl
      ++ "<html lang=" ++ q "en" ++ ">" ++ nl
      ++ "<head>" ++ nl
      ++ "<meta charset=" ++ q "UTF-8" ++ ">" ++ nl
      ++ "<meta name=" ++ q "viewport" ++ " content="
      ++ q "width=device-width, initial-scale=1.0" ++ ">" ++ nl
      ++ "<title>" ++ _esc title ++ "</title>" ++ nl
      ++ "<style>" ++ nl
      ++ _CSS ++ nl
      ++ "</style>" ++ nl
      ++ "</head>" ++ nl
      ++ "<body>" ++ nl
      ++ body ++ nl
      ++ "</body>" ++ nl
      ++ "</html>").

Section Generate.

(** [parse_scan_summary] is imported from [dashboard.py], which does not
    define it in this revision; it is a parameter here. *)
Variable parse_scan_summary : filesystem -> string -> result (option (OD.t Z)).

Definition load_report (fs : filesystem) (output_dir : string)
  : result report_data :=
  std <- load_std_elements fs (path_join output_dir "standard_elements.txt") ;;
  priv <- load_priv_elements fs (path_join output_dir "private_elements.txt") ;;
  dt <- load_dt_elements fs (path_join output_dir "date_time_elements.txt") ;;
  sop <- parse_simple_list fs (path_join output_dir "sop_classes.txt") ;;
  stu <- parse_simple_list fs (path_join output_dir "dicom_studies.txt") ;;
  cnt <- parse_counts fs (path_join output_dir "counts.txt") ;;
  cre <- parse_private_creators fs
           (path_join output_dir "private_creators.txt") ;;
  sseq <- parse_sequences fs (path_join output_dir "standard_sequences.txt") ;;
  pseq <- parse_sequences fs (path_join output_dir "private_sequences.txt") ;;
  large <- parse_large_private_elements fs
             (path_join output_dir "large_private_elements.txt") ;;
  summary <- parse_scan_summary fs (path_join output_dir "scan_summary.txt") ;;
  Ok {| std_elements := std; priv_elements := priv; dt_elements := dt;
        sop_classes := sop; studies := stu; counts := cnt; creators := cre;
        std_sequences := sseq; priv_sequences := pseq; large_priv := large;
        scan_summary := summary |}.

Definition generate_html_report (fs : filesystem)
    (output_dir project_name timestamp : string) : result string :=
  d <- load_report fs output_dir ;;
  render_report d project_name timestamp.

End Generate.

End Html.

(* ------------------------------------------------------------------ *)
(** ** [scripts/xnat_dashboard.py]: running the scanner *)
(* ------------------------------------------------------------------ *)

Module Xnat.
Import Py.

(** [xs[-n:]] for a positive [n]. *)
Definition last_slice {A : Type} (n : nat) (xs : list A) : list A :=
  skipn (List.length xs - n) xs.

(** One turn of the loop of [run_tag_sniffer] over [proc.stdout]: the line
    joins [last_lines], and the oldest line leaves when there are more than
    20. *)
Definition keep_line (last_lines : list string) (line : string)
  : list string :=
  let stripped := rstrip_nl line in
  let last_lines := (last_lines ++ [stripped])%list in
  if 20 <? List.length last_lines then tl last_lines else last_lines.

(** The [RuntimeError] message.  The return code of a process is a machine
    integer, far below the digit limit of [str]. *)
Definition failure_message (returncode : Z) (last_lines : list string)
  : string :=
  "Tag sniffer exited with code " ++ str_int returncode ++ nl ++ nl
  ++ "Last output:" ++ nl ++ join nl (last_slice 10 last_lines).

(** [run_tag_sniffer], seen from its caller: the child process is the
    lines it prints and its return code; the generator yields a list of
    lines and then either ends or raises [RuntimeError] with a message. *)
Definition run_tag_sniffer (stdout : list string) (returncode : Z)
  : list string * option string :=
  let last_lines := fold_left keep_line stdout [] in
  (map rstrip_nl stdout,
   if (returncode =? 0)%Z then None
   else Some (failure_message returncode last_lines)).

End Xnat.

(* ------------------------------------------------------------------ *)
(** ** Vocabulary of the statements *)
(* ------------------------------------------------------------------ *)

Module Spec.
Import Py Dashboard Html Xnat.

(** [needle in s] *)
Fixpoint contains (needle s : string) : bool :=
  String.prefix needle s
  || match s with
     | EmptyString => false
     | String _ s' => contains needle s'
     end.

(** The sum of a list of integers. *)
Definition Zsum (ns : list Z) : Z := fold_right Z.add 0%Z ns.

(** A file system without any file. *)
Definition no_files : filesystem := fun _ => None.

(** A file system with one file. *)
Definition one_file (path text : string) : filesystem :=
  fun p => if String.eqb p path then Some text else None.

(** What a line contributes once its line feed is gone. *)
Definition text_of (raw : string) : string := rstrip_nl raw.

(** A line read as a tag header. *)
Definition header_of (raw : string) : option (string * string * string) :=
  Re.match_tag (text_of raw).

(** A line that starts with two spaces. *)
Definition indented (raw : string) : bool := startswith (text_of raw) "  ".

(** The value an indented line carries. *)
Definition value_of (raw : string) : string := strip (text_of raw).

(** Adding values at the end of an entry of the standard catalog. *)
Definition add_values (xs : list string) (e : std_entry) : std_entry :=
  {| vr := vr e; keyword := keyword e; values := values e ++ xs |}.

(** Rows in descending order of count. *)
Definition count_ge (a b : hash_row) : Prop := (count b <= count a)%Z.

(** The rows of a given count, in their order. *)
Definition with_count (c : Z) (rows : list hash_row) : list hash_row :=
  filter (fun r => (count r =? c)%Z) rows.

(** Sample lines of a standard-elements file: a listing of one tag, then
    value blocks. *)
Definition std_listing : list string :=
  [ "Standard Elements" ++ nl;
    "List of Standard Elements" ++ nl;
    "(0010,0010) PN PatientName" ++ nl;
    nl ].

Definition std_name_header : string := "(0010,0010) PN PatientName" ++ nl.
Definition std_id_header : string := "(0010,0020) LO PatientID" ++ nl.
Definition std_stray : string := "-- continued --" ++ nl.
Definition std_doe : string := "  Doe^John" ++ nl.
Definition std_roe : string := "  Roe^Jane" ++ nl.
Definition std_name_values : list string := [ std_doe; std_roe ].
Definition std_id_values : list string := [ "  12345" ++ nl; nl ].

(** The composite key a date/time header line opens. *)
Definition dt_key_of (raw : string) : option string :=
  match header_of raw with
  | Some (t, v, k) => Some (dt_key t v k)
  | None => None
  end.

(** The lines of a date/time block that carry a value, and their values. *)
Definition dt_value_line (raw : string) : bool :=
  negb (String.eqb (text_of raw) "Date/Time Elements" || blank (text_of raw))
  && indented raw.

Definition dt_values (block : list string) : list string :=
  map value_of (filter dt_value_line block).

(** The block under a header ends with the file or at the next header. *)
Definition ends_block (rest : list string) : Prop :=
  match rest with
  | [] => True
  | raw :: _ => header_of raw <> None
  end.

(** Sample lines of a date/time file. *)
Definition dt_sentinel : string := "Date/Time Elements" ++ nl.
Definition dt_date_header : string := "(0008,0020) DA StudyDate" ++ nl.
Definition dt_time_header : string := "(0008,0030) TM StudyTime" ++ nl.
Definition dt_first_value : string := "  20200101" ++ nl.
Definition dt_second_value : string := "  20210101" ++ nl.
Definition dt_time_value : string := "  1200" ++ nl.

(** The values of the lines below a sequence key: the skipped lines carry
    none. *)
Definition seq_values (body : list string) : list string :=
  map value_of
    (filter (fun raw => negb (seq_skipped (text_of raw))) body).

(** A line below a sequence key that does not open another key. *)
Definition seq_body_line (raw : string) : Prop :=
  seq_skipped (text_of raw) = true \/ indented raw = true.

(** The list stored under a key, empty for a key not yet seen. *)
Definition stored (d : OD.t (list string)) (key : string) : list string :=
  match OD.get key d with
  | Some vs => vs
  | None => []
  end.

(** Sample lines of a sequence file. *)
Definition seq_header_line : string := "Standard Sequence Elements" ++ nl.
Definition seq_other_line : string := "Standard Sequence Items" ++ nl.
Definition seq_key_line : string := "(0008,1115) ReferencedSeriesSequence" ++ nl.
Definition seq_value_a : string := "  1.2.840.1" ++ nl.
Definition seq_value_b : string := "  1.2.840.2" ++ nl.

(** The number of different hashes among the rows. *)
Definition unique_hashes (rows : list hash_row) : nat :=
  List.length (nodup string_dec (map hash rows)).

(** The table row for a hash and its number of occurrences, as the
    specification has it: the escaped hash in a [code] cell, then the
    count. *)
Definition hash_table_row (r : hash_row) : string :=
  "<tr><td><code>" ++ escape (hash r) ++ "</code></td><td>"
  ++ str_int (count r) ++ "</td></tr>".

(** The large-hash part of the study summary when more than ten rows were
    parsed: the title, the warning, the number of rows and the sum of their
    counts, the table with a row for each of the first ten rows of the
    sorted list, and the note with the limit and the number of rows. *)
Definition top_ten_text (large_priv : list hash_row) : string :=
  "<h3>Large Private Elements</h3>"
  ++ "<div class=" ++ q "warning-box"
  ++ ">Large private elements detected. These are SHA-256 hashes of private data elements exceeding size thresholds.</div>"
  ++ "<div class=" ++ q "metrics" ++ ">"
  ++ "<div class=" ++ q "metric" ++ "><div class=" ++ q "value" ++ ">"
  ++ fmt_nat (List.length large_priv)
  ++ "</div><div class=" ++ q "label" ++ ">Unique hashes</div></div>"
  ++ "<div class=" ++ q "metric" ++ "><div class=" ++ q "value" ++ ">"
  ++ fmt_int (sum_counts large_priv)
  ++ "</div><div class=" ++ q "label"
  ++ ">Total occurrences</div></div></div>"
  ++ "<div class=" ++ q "table-scroll" ++ "><table>"
  ++ "<tr><th>SHA-256 Hash</th><th>Occurrences</th></tr>"
  ++ concat_map hash_table_row (firstn 10 (sorted_desc large_priv))
  ++ "</table></div>"
  ++ "<p><em>Showing top 10 of "
  ++ fmt_nat (List.length large_priv)
  ++ " unique hashes. Full data available in large_private_elements.txt</em></p>".

(** The part of the study summary above the hashes, for the rows of the
    counts file and the total of their file counts. *)
Definition counts_part (counts : list count_row) (total : Z) : string :=
  match counts with
  | _ :: _ =>
      "<div class=" ++ q "table-scroll"
      ++ "><table><tr><th>Study UID</th><th>Files</th><th>&gt;1KB</th><th>&gt;20KB</th><th>&gt;50KB</th></tr>"
      ++ concat_map count_row_html counts
      ++ "</table></div>"
      ++ "<div class=" ++ q "metrics" ++ "><div class=" ++ q "metric"
      ++ "><div class=" ++ q "value" ++ ">" ++ fmt_int total
      ++ "</div><div class=" ++ q "label"
      ++ ">Total files</div></div></div>"
  | [] => "<div class=" ++ q "info-box" ++ ">No study data found</div>"
  end.

(** [n] hash rows with the counts 1 to [n]. *)
Definition sample_hashes (n : nat) : list hash_row :=
  map (fun i => {| hash := "h" ++ str_nat i; count := Z.of_nat i |})
      (seq 1 n).

(** Every character of [s] satisfies [p]. *)
Fixpoint all_chars (p : ascii -> bool) (s : string) : bool :=
  match s with
  | EmptyString => true
  | String c s' => p c && all_chars p s'
  end.

(** The characters that open or close markup: the angle brackets and the
    two quotes. *)
Definition is_markup (c : ascii) : bool :=
  Ascii.eqb c "<"%char || Ascii.eqb c ">"%char
  || Ascii.eqb c DQ || Ascii.eqb c "'"%char.

Definition markup_free (s : string) : bool :=
  all_chars (fun c => negb (is_markup c)) s.

Definition no_lt (s : string) : bool :=
  all_chars (fun c => negb (Ascii.eqb c "<"%char)) s.

(** Reading a text while looking for [<script]: the state is the number of
    characters of [<script] just read, 7 once the whole of it was seen. *)
Definition restart (c : ascii) : nat :=
  if Ascii.eqb c "<"%char then 1 else 0.

Definition script_step (n : nat) (c : ascii) : nat :=
  match n with
  | 0 => restart c
  | 1 => if Ascii.eqb c "s"%char then 2 else restart c
  | 2 => if Ascii.eqb c "c"%char then 3 else restart c
  | 3 => if Ascii.eqb c "r"%char then 4 else restart c
  | 4 => if Ascii.eqb c "i"%char then 5 else restart c
  | 5 => if Ascii.eqb c "p"%char then 6 else restart c
  | 6 => if Ascii.eqb c "t"%char then 7 else restart c
  | _ => 7
  end.

Fixpoint scan (n : nat) (s : string) : nat :=
  match s with
  | EmptyString => n
  | String c s' => scan (script_step n c) s'
  end.

(** A piece of text that can follow, and be followed by, any other such
    piece without a [<script] arising: read from the initial state it ends
    in the initial state. *)
Definition clean (s : string) : Prop := scan 0 s = 0.

(** A report with one hostile value in every place that takes report
    data. *)
Definition hostile : string := "<script>alert(1)</script>".

Definition hostile_report : report_data :=
  {| std_elements :=
       [ ("0010,0010", mk_std_entry hostile hostile [hostile; " "]) ];
     priv_elements := [ (hostile, [hostile]) ];
     dt_elements := [ (hostile, [hostile; hostile]) ];
     sop_classes := [hostile];
     studies := [hostile];
     counts := [ mk_count_row hostile "3" hostile hostile hostile ];
     creators := [ (hostile, hostile) ];
     std_sequences := [ (hostile, [hostile]) ];
     priv_sequences := [ (hostile, [hostile]) ];
     large_priv := [ mk_hash_row hostile 2 ];
     scan_summary := Some [ ("total_files", 5%Z); ("dicom_parsed", 3%Z) ] |}.

(** Sample lines of a counts file, and a row whose file count is not a
    number. *)
Definition counts_sample : list string :=
  [ "StudyUID Series Files >1KB >20KB >50KB" ++ nl;
    "1.2.3 4 10 0 0 0" ++ nl;
    "1.2.4 2 20 0 0 0" ++ nl;
    nl;
    "1.2.5 7 30 1 2 3" ++ nl ].

Definition bad_count_row : count_row :=
  {| study_uid := "1.2.6"; files := "n/a"; over_1kb := "0";
     over_20kb := "0"; over_50kb := "0" |}.

(** [s] without the character [c]. *)
Fixpoint remove_char (c : ascii) (s : string) : string :=
  match s with
  | EmptyString => EmptyString
  | String d s' =>
      if Ascii.eqb d c then remove_char c s' else String d (remove_char c s')
  end.

(** A text without white space at either end. *)
Definition trimmed (s : string) : Prop := strip s = s.

(** A text without any white space. *)
Definition spaceless (s : string) : bool :=
  all_chars (fun c => negb (isspace c)) s.

(** A text without the characters that [html.escape] replaces. *)
Definition is_special (c : ascii) : bool :=
  Ascii.eqb c "&"%char || is_markup c.

Definition plain (s : string) : bool :=
  all_chars (fun c => negb (is_special c)) s.

(** The entry that the listing phase records for a tag line. *)
Definition listed_entry (raw : string) : option (string * std_entry) :=
  match header_of raw with
  | Some (t, v, k) => Some (t, {| vr := v; keyword := k; values := [] |})
  | None => None
  end.

Definition add_listed (d : OD.t std_entry) (raw : string) : OD.t std_entry :=
  match listed_entry raw with
  | Some (t, e) => OD.set t e d
  | None => d
  end.

(** The line is the sentinel of the listing. *)
Definition is_sentinel (raw : string) : bool :=
  String.eqb (text_of raw) "List of Standard Elements".

(** A line that opens a key in the sequence parser. *)
Definition seq_key_line_b (raw : string) : bool :=
  negb (seq_skipped (text_of raw)) && negb (indented raw).

(** A key of a merged sequence collection. *)
Definition prefixed (label : string) (item : string * list string)
  : string * list string :=
  (label ++ fst item, snd item).

(** The keys of a dictionary are distinct. *)
Definition distinct_keys {V : Type} (d : OD.t V) : Prop :=
  NoDup (OD.keys d).

(** Sample output of the scanner: [n] numbered lines. *)
Definition scanner_output (n : nat) : list string :=
  map (fun i => "line " ++ str_nat i ++ nl) (seq 1 n).

(** A value that some indented line of the file carries. *)
Definition from_indented_line (lines : list string) (x : string) : Prop :=
  exists raw, In raw lines /\ indented raw = true /\ x = value_of raw.

(** A text without a horizontal tab, without a comma. *)
Definition tab_free (s : string) : bool :=
  all_chars (fun c => negb (Ascii.eqb c "009"%char)) s.

Definition comma_free (s : string) : bool :=
  all_chars (fun c => negb (Ascii.eqb c ","%char)) s.

(** A text without a line feed, without a carriage return. *)
Definition line_free (s : string) : bool :=
  all_chars (fun c => negb (Ascii.eqb c LF)) s.

Definition cr_free (s : string) : bool :=
  all_chars (fun c => negb (Ascii.eqb c CR)) s.

(** The text of a file made of the given lines. *)
Fixpoint text_of_lines (lines : list string) : string :=
  match lines with
  | [] => EmptyString
  | l :: rest => l ++ text_of_lines rest
  end.

(** The line of a large-private-elements file for a row, in the format the
    parser documents: [Hash: <hex>, count: <N>]. *)
Definition hash_text (r : hash_row) : string :=
  "Hash: " ++ hash r ++ ", count: " ++ str_int (count r).

Definition hash_line (r : hash_row) : string := hash_text r ++ nl.

(** A row that such a line carries unchanged: its hash has no comma and no
    line break, and its count is within the digit limit of [int]. *)
Definition writable (r : hash_row) : Prop :=
  comma_free (hash r) = true /\ line_free (hash r) = true
  /\ cr_free (hash r) = true /\ within_digit_limit (count r) = true.

Definition large_sample : list hash_row :=
  [ mk_hash_row "0a1b" 3; mk_hash_row "ff 00" 12; mk_hash_row "" (-1) ].

(** Sample lines of a private-elements file. *)
Definition priv_sample : list string :=
  [ "Private Elements" ++ nl;
    nl;
    "List of Element Keys" ++ nl;
    "(0009,xx10) GEMS_IDEN_01" ++ nl;
    nl;
    "(0009,xx10) GEMS_IDEN_01" ++ nl;
    "  value one" ++ nl ].

(** What the listing phase fixes of an entry: its tag, VR and keyword. *)
Definition listing_of (d : OD.t std_entry) : list (string * string * string) :=
  map (fun item => (fst item, vr (snd item), keyword (snd item))) d.

(** Sample lines of a standard-elements file without the sentinel line. *)
Definition std_unlabelled : list string :=
  [ "Standard Elements" ++ nl;
    "(0010,0010) PN PatientName" ++ nl;
    nl;
    "(0010,0010) PN PatientName" ++ nl;
    "  Doe^John" ++ nl ].

Definition std_sentinel : string := "List of Standard Elements" ++ nl.

(** An indented line of white space only. *)
Definition spaces_line : string := "    " ++ nl.

(** A text that is not empty and has no white space at either end. *)
Definition proper (x : string) : Prop := nonempty x = true /\ trimmed x.

(** A key with its values, all of them proper texts. *)
Definition proper_item (item : string * list string) : Prop :=
  proper (fst item) /\ Forall proper (snd item).

(** A field that [int] accepts. *)
Definition is_int (s : string) : Prop := exists n, int s = Ok n.

(** The numbers of the scan summary that the overview prints. *)
Definition summary_numbers (scan_summary : option (OD.t Z)) : list Z :=
  match scan_summary with
  | Some ((_ :: _) as summary) =>
      let total := summary_get summary "total_files" in
      let parsed := summary_get summary "dicom_parsed" in
      let errors := summary_get summary "parse_errors" in
      if (0 <? total)%Z
      then [total; parsed; errors; (total - parsed - errors)%Z]
      else []
  | _ => []
  end.

(** The integers that the report turns into text, given the total of the
    file counts: that total, the numbers of the scan summary, the sum of
    the hash counts and the counts of the rows of the hash table. *)
Definition printed_numbers (d : report_data) (total : Z) : list Z :=
  (total :: summary_numbers (scan_summary d))
  ++ sum_counts (large_priv d)
     :: map count (shown_hashes (large_priv d)).

(** Every one of them is within the digit limit of the conversion. *)
Definition printable (ns : list Z) : Prop :=
  Forall (fun n => within_digit_limit n = true) ns.

(** A scan-summary parser that finds no summary. *)
Definition no_summary (fs : filesystem) (path : string)
  : result (option (OD.t Z)) := Ok None.

(** A line that starts with one of the two labels the sequence parser
    skips. *)
Definition seq_labelled (raw : string) : bool :=
  startswith (text_of raw) "Standard Sequence"
  || startswith (text_of raw) "Private Sequence".

(** Sample text of a list file: a header, then one value per line. *)
Definition sop_text : string :=
  "SOP Classes" ++ nl ++ "  CT Image Storage  " ++ nl ++ nl
  ++ "MR Image Storage" ++ nl.

(** *** The markup of a document *)

(** What a reader of HTML finds in a text: a tag, with what stands between
    its angle brackets; a run of text between two tags; and, at the end, a
    tag that is never closed. *)
Inductive token : Type :=
| Tag (body : string)
| Text (body : string)
| Unclosed (body : string).

Definition text_token (run : string) : list token :=
  match run with
  | EmptyString => []
  | _ => [Text run]
  end.

Definition snoc (s : string) (c : ascii) : string :=
  s ++ String c EmptyString.

(** [cur] is what was read of the tag, or of the run of text, that the
    reader is in. *)
Fixpoint lex_from (in_tag : bool) (cur : string) (s : string) : list token :=
  match s with
  | EmptyString => if in_tag then [Unclosed cur] else text_token cur
  | String c s' =>
      if in_tag then
        if Ascii.eqb c ">"%char then Tag cur :: lex_from false "" s'
        else lex_from true (snoc cur c) s'
      else
        if Ascii.eqb c "<"%char
        then (text_token cur ++ lex_from true "" s')%list
        else lex_from false (snoc cur c) s'
  end.

Definition lex (s : string) : list token := lex_from false "" s.

(** Read after a tag, and with any text behind it, [s] gives the tokens
    [toks] and leaves the reader after a tag. *)
Definition lexes (s : string) (toks : list token) : Prop :=
  forall rest,
    lex_from false "" (s ++ rest) = (toks ++ lex_from false "" rest)%list.

(** The tags that the renderer writes itself, by what stands between their
    angle brackets. *)
Definition template_tags : list string :=
  [ "!DOCTYPE html"; "html lang=" ++ q "en"; "/html";
    "head"; "/head"; "meta charset=" ++ q "UTF-8";
    "meta name=" ++ q "viewport" ++ " content="
      ++ q "width=device-width, initial-scale=1.0";
    "title"; "/title"; "style"; "/style"; "body"; "/body";
    "h1"; "/h1"; "h2"; "/h2"; "h3"; "/h3";
    "div"; "/div";
    "div class=" ++ q "header-info"; "div class=" ++ q "metrics";
    "div class=" ++ q "metric"; "div class=" ++ q "value";
    "div class=" ++ q "label"; "div class=" ++ q "info-box";
    "div class=" ++ q "content"; "div class=" ++ q "tag-row";
    "div class=" ++ q "tag-header"; "div class=" ++ q "values";
    "div class=" ++ q "section-divider"; "div class=" ++ q "table-scroll";
    "div class=" ++ q "warning-box"; "div class=" ++ q "success-box";
    "span"; "/span"; "span class=" ++ q "tag-label";
    "span class=" ++ q "tag-vr"; "span class=" ++ q "status-review";
    "span class=" ++ q "status-clean";
    "strong"; "/strong"; "p"; "/p";
    "p style=" ++ q "color:#888; font-size:0.9em;";
    "em"; "/em"; "code"; "/code";
    "details"; "details open"; "/details"; "summary"; "/summary";
    "table"; "/table"; "tr"; "/tr"; "th"; "/th"; "td"; "/td" ].

Definition is_template (body : string) : bool :=
  existsb (String.eqb body) template_tags.

Definition template_token (t : token) : bool :=
  match t with
  | Tag body => is_template body
  | Text _ => true
  | Unclosed _ => false
  end.

(** Every tag of the text is one of the renderer's own, and the text does
    not end inside a tag. *)
Definition template_only (s : string) : bool :=
  forallb template_token (lex s).

(** The same reading without the tokens: outside a tag, inside one, or
    past a tag that is not the renderer's. *)
Inductive reading : Type :=
| Outside
| Inside (body : string)
| Broken.

Definition read_char (r : reading) (c : ascii) : reading :=
  match r with
  | Outside => if Ascii.eqb c "<"%char then Inside "" else Outside
  | Inside body =>
      if Ascii.eqb c ">"%char
      then (if is_template body then Outside else Broken)
      else Inside (snoc body c)
  | Broken => Broken
  end.

Fixpoint read (r : reading) (s : string) : reading :=
  match s with
  | EmptyString => r
  | String c s' => read (read_char r c) s'
  end.

(** A piece of text that leaves a reader who is outside a tag outside a
    tag, and shows the reader none but the renderer's tags. *)
Definition well_tagged (s : string) : Prop := read Outside s = Outside.

(** *** What the report shows of its data *)

(** The text for a value: its escaped form, or the escaped [<empty>] for a
    value of white space. *)
Definition shown_value (v : string) : string :=
  if nonempty (strip v) then escape v else "&lt;empty&gt;".

(** The tokens of the row of a tag: the tag and the keyword, the value
    representation, the number of values, and a [div] for every value. *)
Definition value_tokens (v : string) : list token :=
  [ Tag "div"; Text (shown_value v); Tag "/div" ].

Definition tag_row_tokens (tag_hex keyword vr : string)
    (values : list string) : list token :=
  ([ Tag ("div class=" ++ q "tag-row");
     Tag ("div class=" ++ q "tag-header");
     Tag "span";
     Tag ("span class=" ++ q "tag-label");
     Text ("(" ++ escape tag_hex ++ ") " ++ escape keyword);
     Tag "/span";
     Tag ("span class=" ++ q "tag-vr") ]
   ++ text_token (escape vr)
   ++ [ Tag "/span"; Tag "/span" ]
   ++ match values with
      | _ :: _ =>
          [ Tag ("span class=" ++ q "status-review");
            Text (str_nat (List.length values) ++ " value(s)");
            Tag "/span"; Tag "/div";
            Tag ("div class=" ++ q "values") ]
          ++ flat_map value_tokens values
          ++ [ Tag "/div" ]
      | [] =>
          [ Tag ("span class=" ++ q "status-clean");
            Text "Empty / Clean"; Tag "/span"; Tag "/div" ]
      end
   ++ [ Tag "/div" ])%list.

(** The tokens of a collapsible block. *)
Definition details_tokens (summary : string) (open_default : bool)
    (content : list token) : list token :=
  ([ Tag (if open_default then "details open" else "details");
     Tag "summary" ]
   ++ text_token (escape summary)
   ++ [ Tag "/summary"; Tag ("div class=" ++ q "content") ]
   ++ content
   ++ [ Tag "/div"; Tag "/details" ])%list.

(** The tokens of a group of the PHI review: the rows of its tags, with
    what the standard elements hold for them. *)
Definition phi_group_tokens (std_elements : OD.t std_entry)
    (group : string * list (string * string)) : list token :=
  details_tokens (fst group)
    (String.eqb (fst group) "Patient Demographics")
    (flat_map
       (fun ref => tag_row_tokens (fst ref) (snd ref)
                     (vr_of std_elements (fst ref))
                     (values_of std_elements (fst ref)))
       (snd group)).

(** The tokens of the row of a date or time, its values on one line. *)
Definition dt_row_tokens (item : string * list string) : list token :=
  ([ Tag ("div class=" ++ q "tag-row");
     Tag ("span class=" ++ q "tag-label") ]
   ++ text_token (escape (fst item))
   ++ [ Tag "/span"; Tag ("div class=" ++ q "values"); Tag "div";
        Text match snd item with
             | _ :: _ => join ", " (map shown_value (snd item))
             | [] => "&lt;empty&gt;"
             end;
        Tag "/div"; Tag "/div"; Tag "/div" ])%list.

Definition phi_review_tokens (std_elements : OD.t std_entry)
    (dt_elements : OD.t (list string)) : list token :=
  ([ Tag "h2"; Text "PHI Review"; Tag "/h2" ]
   ++ flat_map (phi_group_tokens std_elements) PHI_GROUPS
   ++ details_tokens "Dates & Times" false
        match dt_elements with
        | _ :: _ => flat_map dt_row_tokens dt_elements
        | [] =>
            [ Tag ("div class=" ++ q "info-box");
              Text "No date/time elements found"; Tag "/div" ]
        end)%list.

(** The texts that the document is to show for the data of a report. *)
Definition std_texts (item : string * std_entry) : list string :=
  escape (fst item) :: escape (keyword (snd item)) :: escape (vr (snd item))
  :: map shown_value (values (snd item)).

Definition keyed_texts (item : string * list string) : list string :=
  escape (fst item) :: map shown_value (snd item).

Definition count_texts (r : count_row) : list string :=
  map escape [ study_uid r; files r; over_1kb r; over_20kb r; over_50kb r ].

Definition creator_texts (c : string * string) : list string :=
  [ escape (fst c); escape (snd c) ].

Definition report_texts (d : report_data) (project_name timestamp : string)
  : list string :=
  (escape timestamp :: escape project_name
   :: flat_map std_texts (std_elements d)
   ++ flat_map keyed_texts (priv_elements d)
   ++ flat_map keyed_texts (dt_elements d)
   ++ flat_map keyed_texts
        (merge_sequences (std_sequences d) (priv_sequences d))
   ++ map escape (sop_classes d)
   ++ flat_map count_texts (counts d)
   ++ flat_map creator_texts (creators d)
   ++ map (fun r => escape (hash r)) (shown_hashes (large_priv d)))%list.

End Spec.
(* ------------------------------------------------------------------ *)
(** ** Lemmas on ordered dictionaries *)
(* ------------------------------------------------------------------ *)

Module ODFacts.
Section Facts.
Context {V : Type}.
Implicit Types (d : OD.t V) (k : string) (v : V).

Lemma mem_get_some d k : OD.mem k d = true <-> exists v, OD.get k d = Some v.
Proof.
  unfold OD.mem. destruct (OD.get k d) as [v|].
  - split; [exists v; reflexivity | reflexivity].
  - split; [discriminate | intros [v Hv]; discriminate].
Qed.

Lemma mem_false_get d k : OD.mem k d = false <-> OD.get k d = None.
Proof.
  unfold OD.mem. destruct (OD.get k d); split; congruence.
Qed.

Lemma get_set_same d k v : OD.get k (OD.set k v d) = Some v.
Proof.
  induction d as [|[k' v'] d IH]; simpl.
  - now rewrite String.eqb_refl.
  - destruct (String.eqb k k') eqn:E; simpl.
    + now rewrite String.eqb_refl.
    + now rewrite E.
Qed.

Lemma get_set_other d k k' v :
  k' <> k -> OD.get k' (OD.set k v d) = OD.get k' d.
Proof.
  intros Hne. induction d as [|[k0 v0] d IH]; simpl.
  - destruct (String.eqb k' k) eqn:E; [|reflexivity].
    apply String.eqb_eq in E. contradiction.
  - destruct (String.eqb k k0) eqn:E; simpl.
    + apply String.eqb_eq in E. subst k0.
      destruct (String.eqb k' k) eqn:E'; [|reflexivity].
      apply String.eqb_eq in E'. contradiction.
    + now rewrite IH.
Qed.

Lemma get_update_same d k (f : V -> V) :
  OD.get k (OD.update k f d) = option_map f (OD.get k d).
Proof.
  induction d as [|[k0 v0] d IH]; simpl; [reflexivity|].
  destruct (String.eqb k k0) eqn:E; simpl; now rewrite E.
Qed.

Lemma get_update_other d k k' (f : V -> V) :
  k' <> k -> OD.get k' (OD.update k f d) = OD.get k' d.
Proof.
  intros Hne. induction d as [|[k0 v0] d IH]; simpl; [reflexivity|].
  destruct (String.eqb k k0) eqn:E; simpl.
  - apply String.eqb_eq in E. subst k0.
    destruct (String.eqb k' k) eqn:E'; [|reflexivity].
    apply String.eqb_eq in E'. contradiction.
  - now rewrite IH.
Qed.

Lemma keys_update d k (f : V -> V) : OD.keys (OD.update k f d) = OD.keys d.
Proof.
  unfold OD.keys. induction d as [|[k0 v0] d IH]; simpl; [reflexivity|].
  destruct (String.eqb k k0); simpl; [reflexivity | now rewrite IH].
Qed.

Lemma update_update d k (f g : V -> V) :
  OD.update k g (OD.update k f d) = OD.update k (fun v => g (f v)) d.
Proof.
  induction d as [|[k0 v0] d IH]; simpl; [reflexivity|].
  destruct (String.eqb k k0) eqn:E; simpl; rewrite E; [reflexivity|].
  now rewrite IH.
Qed.

Lemma update_ext d k (f g : V -> V) :
  (forall v, f v = g v) -> OD.update k f d = OD.update k g d.
Proof.
  intros Hfg. induction d as [|[k0 v0] d IH]; simpl; [reflexivity|].
  destruct (String.eqb k k0); [now rewrite Hfg | now rewrite IH].
Qed.

Lemma update_id d k (f : V -> V) :
  (forall v, f v = v) -> OD.update k f d = d.
Proof.
  intros Hf. induction d as [|[k0 v0] d IH]; simpl; [reflexivity|].
  destruct (String.eqb k k0); [now rewrite Hf | now rewrite IH].
Qed.

Lemma get_keys_none d k : OD.get k d = None <-> ~ In k (OD.keys d).
Proof.
  unfold OD.keys. induction d as [|[k0 v0] d IH]; simpl.
  - tauto.
  - destruct (String.eqb k k0) eqn:E.
    + apply String.eqb_eq in E. subst. split; [discriminate | tauto].
    + apply String.eqb_neq in E. rewrite IH. split.
      * intros H [H1|H1]; [congruence | tauto].
      * tauto.
Qed.

End Facts.
End ODFacts.

(* ------------------------------------------------------------------ *)
(** ** Missing files and malformed numbers *)
(* ------------------------------------------------------------------ *)

Import Py Dashboard Html Spec ODFacts.

Lemma Ok_inj {A : Type} (a b : A) : Ok a = Ok b -> a = b.
Proof. congruence. Qed.

Lemma open_missing (fs : filesystem) (path : string) :
  exists_ fs path = false -> open_readlines fs path = Raise FileNotFoundError.
Proof.
  unfold exists_, open_readlines. destruct (fs path); [discriminate | reflexivity].
Qed.

(** C2, counterexample: on a path that does not exist the date/time parser
    raises [FileNotFoundError]; it does not return the empty mapping. *)
Lemma parse_date_time_missing_raises :
  parse_date_time no_files "date_time_elements.txt" = Raise FileNotFoundError
  /\ parse_date_time no_files "date_time_elements.txt" <> Ok [].
Proof.
  split; [reflexivity | discriminate].
Qed.

(** C2, amended: on a path that does not exist, the sequence, simple-list,
    counts, creators and large-private-elements parsers return their empty
    container; the standard-elements, private-elements and date/time
    parsers raise [FileNotFoundError], and the guarded calls of their
    callers put the empty mapping in their place. *)
Theorem missing_file_policy (fs : filesystem) (path : string) :
  exists_ fs path = false ->
  (parse_sequences fs path = Ok []
   /\ parse_simple_list fs path = Ok []
   /\ parse_counts fs path = Ok []
   /\ parse_private_creators fs path = Ok []
   /\ parse_large_private_elements fs path = Ok [])
  /\ (parse_standard_elements fs path = Raise FileNotFoundError
      /\ parse_private_elements fs path = Raise FileNotFoundError
      /\ parse_date_time fs path = Raise FileNotFoundError)
  /\ (load_std_elements fs path = Ok []
      /\ load_priv_elements fs path = Ok []
      /\ load_dt_elements fs path = Ok []).
Proof.
  intros H. repeat split.
  - unfold parse_sequences. now rewrite H.
  - unfold parse_simple_list. now rewrite H.
  - unfold parse_counts. now rewrite H.
  - unfold parse_private_creators. now rewrite H.
  - unfold parse_large_private_elements. now rewrite H.
  - unfold parse_standard_elements. now rewrite (open_missing _ _ H).
  - unfold parse_private_elements. now rewrite (open_missing _ _ H).
  - unfold parse_date_time. now rewrite (open_missing _ _ H).
  - unfold load_std_elements. now rewrite H.
  - unfold load_priv_elements. now rewrite H.
  - unfold load_dt_elements. now rewrite H.
Qed.

Lemma missing_file_policy_witness :
  exists_ no_files "counts.txt" = false
  /\ parse_counts no_files "counts.txt" = Ok []
  /\ parse_date_time no_files "counts.txt" = Raise FileNotFoundError
  /\ load_dt_elements no_files "counts.txt" = Ok [].
Proof.
  pose proof (missing_file_policy no_files "counts.txt" eq_refl)
    as [[_ [_ [Hc _]]] [[_ [_ Hd]] [_ [_ Hl]]]].
  repeat split; assumption.
Defined.

Lemma sum_files_raises (counts : list count_row) (r : count_row) :
  In r counts -> int_opt (files r) = None ->
  forall acc, sum_files acc counts = Raise ValueError.
Proof.
  intros Hin Hbad. induction counts as [|a counts IH]; [contradiction|].
  intros acc. simpl. unfold int.
  destruct (int_opt (files a)) as [n|] eqn:Ea; simpl; [|reflexivity].
  destruct Hin as [->|Hin]; [congruence | now apply IH].
Qed.

Lemma sum_files_ok (counts : list count_row) (ns : list Z) :
  map (fun r => int_opt (files r)) counts = map Some ns ->
  forall acc, sum_files acc counts = Ok (acc + Zsum ns)%Z.
Proof.
  revert ns. induction counts as [|a counts IH]; intros [|n ns] H acc;
    try discriminate; simpl.
  - now rewrite Z.add_0_r.
  - simpl in H. injection H as Ha Hrest. unfold int. rewrite Ha. simpl.
    rewrite (IH ns Hrest). f_equal. lia.
Qed.

(** C4: when the file-count field of some counts row is not an integer,
    computing the total raises [ValueError]: no total is returned, in the
    dashboard's aggregation and in the report generator alike. *)
Theorem malformed_file_count_raises (rows : list count_row) (r : count_row) :
  In r rows -> int (files r) = Raise ValueError ->
  total_files rows = Raise ValueError
  /\ (forall z, total_files rows <> Ok z)
  /\ (forall d project_name timestamp,
        counts d = rows ->
        render_report d project_name timestamp = Raise ValueError).
Proof.
  intros Hin Hbad.
  assert (Hopt : int_opt (files r) = None).
  { unfold int in Hbad. destruct (int_opt (files r)); [discriminate|reflexivity]. }
  assert (Ht : total_files rows = Raise ValueError).
  { unfold total_files. destruct rows as [|a rows]; [contradiction|].
    now apply (sum_files_raises _ r). }
  split; [exact Ht|]. split.
  - intros z. rewrite Ht. discriminate.
  - intros d p ts Hd. unfold render_report. rewrite Hd, Ht. reflexivity.
Qed.

Lemma malformed_file_count_raises_witness :
  let rows := (parse_counts_lines counts_sample ++ [bad_count_row])%list in
  In bad_count_row rows
  /\ int (files bad_count_row) = Raise ValueError
  /\ total_files rows = Raise ValueError.
Proof.
  intros rows.
  assert (Hin : In bad_count_row rows)
    by (apply in_or_app; right; left; reflexivity).
  split; [exact Hin | split; [reflexivity|]].
  exact (proj1 (malformed_file_count_raises rows bad_count_row Hin eq_refl)).
Defined.

(** C5: when every file-count field parses as an integer, the total is the
    sum of those integers; for no rows at all it is 0. *)
Theorem total_files_is_sum (rows : list count_row) (ns : list Z) :
  map (fun r => int (files r)) rows = map Ok ns ->
  total_files rows = Ok (Zsum ns)
  /\ total_files [] = Ok 0%Z.
Proof.
  intros H. split; [|reflexivity].
  assert (Hopt : map (fun r => int_opt (files r)) rows = map Some ns).
  { revert ns H. induction rows as [|a rows IH]; intros [|n ns] H;
      try discriminate; [reflexivity|].
    simpl in *. injection H as Ha Hrest. f_equal; [|now apply IH].
    unfold int in Ha. destruct (int_opt (files a)); congruence. }
  unfold total_files. destruct rows as [|a rows].
  - destruct ns; [reflexivity | discriminate].
  - now rewrite (sum_files_ok _ ns Hopt).
Qed.

Lemma total_files_is_sum_witness :
  let rows := parse_counts_lines counts_sample in
  map (fun r => int (files r)) rows = map Ok [10; 20; 30]%Z
  /\ total_files rows = Ok 60%Z.
Proof.
  intros rows. split; [reflexivity|].
  exact (proj1 (total_files_is_sum rows [10; 20; 30]%Z eq_refl)).
Defined.

(** C9, the failing input: a line with the prefix and the separator whose
    count is not an integer makes the parser raise [ValueError]; the line is
    not skipped. *)
Theorem large_bad_count_raises :
  large_step [] "Hash: abc, count: xyz" = Raise ValueError
  /\ parse_large_private_elements
       (one_file "large_private_elements.txt"
          ("Hash: 0a1b, count: 3" ++ nl ++ "Hash: abc, count: xyz" ++ nl))
       "large_private_elements.txt" = Raise ValueError.
Proof.
  split; reflexivity.
Qed.

(* ------------------------------------------------------------------ *)
(** ** Lines: headers, indented lines, blank lines *)
(* ------------------------------------------------------------------ *)

Ltac eat_char l :=
  destruct l as [|? l]; cbn [Re.run]; [intros; discriminate|];
  match goal with
  | |- context [if ?b then _ else None] =>
      destruct b eqn:?; [|intros; discriminate]
  end.

(** A line that matches the tag pattern starts with a parenthesis, and its
    first group is not empty. *)
Lemma match_tag_shape (line t v k : string) :
  Re.match_tag line = Some (t, v, k) ->
  exists s, line = String "("%char s /\ nonempty t = true.
Proof.
  unfold Re.match_tag, Re.tag_re.
  eat_char line.
  match goal with H : Ascii.eqb _ _ = true |- _ =>
    apply Ascii.eqb_eq in H; subst end.
  do 9 eat_char line.
  match goal with
  | |- context [option_map _ (option_map _ ?x)] => destruct x as [r|]
  end; cbn [option_map]; [|intros; discriminate].
  destruct r as [|ga [|gb [|gc [|gd [|? ?]]]]]; try (intros; discriminate).
  intros H. injection H as Ht _ _. eexists. split; [reflexivity|].
  subst t. unfold Re.group. cbn [String.length].
  match goal with |- context [take ?n _] => replace n with 9 by lia end.
  reflexivity.
Qed.

Lemma strip_cons_nonspace (c : ascii) (s : string) :
  isspace c = false -> exists r, strip (String c s) = String c r.
Proof.
  intros Hc. unfold strip. cbn [rstrip].
  destruct (rstrip s) as [|c' r'].
  - rewrite Hc. cbn [lstrip]. rewrite Hc. eauto.
  - cbn [lstrip]. rewrite Hc. eauto.
Qed.

Lemma indented_no_header (raw : string) :
  indented raw = true -> header_of raw = None.
Proof.
  unfold indented, header_of, startswith.
  destruct (text_of raw) as [|c s]; [discriminate|].
  cbn [String.prefix].
  destruct (ascii_dec " " c) as [<-|Hne]; [|discriminate].
  intros _. reflexivity.
Qed.

Lemma header_not_blank (raw : string) (x : string * string * string) :
  header_of raw = Some x -> blank (text_of raw) = false.
Proof.
  destruct x as [[t v] k]. unfold header_of. intros H.
  destruct (match_tag_shape _ _ _ _ H) as [s [Hs _]].
  unfold blank. rewrite Hs.
  destruct (strip_cons_nonspace "(" s eq_refl) as [r ->]. reflexivity.
Qed.

Lemma header_tag_nonempty (raw t v k : string) :
  header_of raw = Some (t, v, k) -> nonempty t = true.
Proof.
  intros H. now destruct (match_tag_shape _ _ _ _ H) as [s [_ Ht]].
Qed.

(* ------------------------------------------------------------------ *)
(** ** The standard-elements parser *)
(* ------------------------------------------------------------------ *)

Lemma add_values_nil (e : std_entry) : add_values [] e = e.
Proof. destruct e. unfold add_values. simpl. now rewrite app_nil_r. Qed.

Lemma add_values_append (x : string) (xs : list string) (e : std_entry) :
  add_values xs (append_value x e) = add_values (x :: xs) e.
Proof.
  unfold add_values, append_value. simpl. now rewrite <- app_assoc.
Qed.

Lemma add_values_add (xs ys : list string) (e : std_entry) :
  add_values ys (add_values xs e) = add_values (xs ++ ys) e.
Proof.
  unfold add_values. simpl. now rewrite <- app_assoc.
Qed.

Lemma phase2_app (st : OD.t std_entry * option string) (a b : list string) :
  phase2 st (a ++ b) = phase2 (phase2 st a) b.
Proof. apply fold_left_app. Qed.

Lemma phase2_step_keys (st : OD.t std_entry * option string) (raw : string) :
  OD.keys (fst (phase2_step st raw)) = OD.keys (fst st).
Proof.
  destruct st as [E cur]. unfold phase2_step.
  destruct (Re.match_tag (rstrip_nl raw)) as [[[t v] k]|].
  - destruct (OD.mem t E); reflexivity.
  - destruct cur as [tag|]; [|reflexivity].
    destruct (nonempty tag && startswith (rstrip_nl raw) "  ");
      [apply keys_update | reflexivity].
Qed.

Lemma phase2_keys (lines : list string) (st : OD.t std_entry * option string) :
  OD.keys (fst (phase2 st lines)) = OD.keys (fst st).
Proof.
  revert st. induction lines as [|raw lines IH]; intros st; [reflexivity|].
  unfold phase2 in *. simpl. rewrite IH. apply phase2_step_keys.
Qed.

Lemma phase2_step_header (E : OD.t std_entry) (cur : option string)
    (raw t v k : string) :
  header_of raw = Some (t, v, k) ->
  phase2_step (E, cur) raw
  = (E, if OD.mem t E then Some t else None).
Proof.
  unfold header_of, text_of, phase2_step. intros ->.
  destruct (OD.mem t E); reflexivity.
Qed.

Lemma phase2_step_stray (st : OD.t std_entry * option string) (raw : string) :
  header_of raw = None -> indented raw = false -> phase2_step st raw = st.
Proof.
  unfold header_of, indented, text_of, phase2_step. destruct st as [E cur].
  intros -> ->. destruct cur; [|reflexivity]. now rewrite andb_false_r.
Qed.

Lemma phase2_step_no_tag (E : OD.t std_entry) (raw : string) :
  header_of raw = None -> phase2_step (E, None) raw = (E, None).
Proof.
  unfold header_of, text_of, phase2_step. now intros ->.
Qed.

Lemma phase2_no_tag (E : OD.t std_entry) (body : list string) :
  Forall (fun raw => header_of raw = None) body ->
  phase2 (E, None) body = (E, None).
Proof.
  induction 1 as [|raw body Hraw _ IH]; [reflexivity|].
  unfold phase2 in *. cbn [fold_left].
  now rewrite (phase2_step_no_tag _ _ Hraw).
Qed.

Lemma phase2_step_indented (E : OD.t std_entry) (t raw : string) :
  nonempty t = true -> indented raw = true ->
  phase2_step (E, Some t) raw
  = (OD.update t (append_value (value_of raw)) E, Some t).
Proof.
  intros Ht Hraw. pose proof (indented_no_header _ Hraw) as Hnh.
  unfold header_of, indented, value_of, text_of, phase2_step in *.
  now rewrite Hnh, Ht, Hraw.
Qed.

Lemma phase2_block (ind : list string) (E : OD.t std_entry) (t : string) :
  nonempty t = true ->
  Forall (fun raw => indented raw = true) ind ->
  phase2 (E, Some t) ind
  = (OD.update t (add_values (map value_of ind)) E, Some t).
Proof.
  intros Ht Hind. revert E.
  induction Hind as [|raw ind Hraw _ IH]; intros E.
  - simpl. now rewrite (update_id _ _ _ add_values_nil).
  - unfold phase2 in *. cbn [fold_left map].
    rewrite (phase2_step_indented _ _ _ Ht Hraw), IH, update_update.
    f_equal. apply update_ext. intros e. apply add_values_append.
Qed.

Lemma phase2_get_extends (lines : list string)
    (st : OD.t std_entry * option string) (t : string) (e : std_entry) :
  OD.get t (fst st) = Some e ->
  exists more, OD.get t (fst (phase2 st lines)) = Some (add_values more e).
Proof.
  revert st e. induction lines as [|raw lines IH]; intros [E cur] e He.
  - exists []. simpl in *. now rewrite add_values_nil.
  - unfold phase2 in *. cbn [fold_left].
    assert (Hstep : exists xs,
               OD.get t (fst (phase2_step (E, cur) raw))
               = Some (add_values xs e)).
    { unfold phase2_step.
      destruct (Re.match_tag (rstrip_nl raw)) as [[[t' v'] k']|].
      - exists []. rewrite add_values_nil.
        destruct (OD.mem t' E); exact He.
      - destruct cur as [tag|]; [|exists []; now rewrite add_values_nil].
        destruct (nonempty tag && startswith (rstrip_nl raw) "  ");
          [|exists []; now rewrite add_values_nil].
        simpl in *. destruct (string_dec t tag) as [->|Hne].
        + exists [strip (rstrip_nl raw)].
          rewrite get_update_same, He. reflexivity.
        + exists []. rewrite add_values_nil.
          now rewrite get_update_other. }
    destruct Hstep as [xs Hxs].
    destruct (IH _ _ Hxs) as [more Hmore].
    exists (xs ++ more)%list. rewrite Hmore. now rewrite add_values_add.
Qed.

(** C3: a tag header of the values block whose tag the listing phase did
    not record adds no entry, and the lines below it, up to the next header,
    add no value anywhere: the catalog has the keys of the listing phase,
    and it is the catalog obtained by going from the lines before that
    header straight to the lines after its block, with no current tag. *)
Theorem unlisted_tag_leaves_no_trace
    (lines pre body rest : list string) (hdr t v k : string) :
  lines = (pre ++ hdr :: body ++ rest)%list ->
  header_of hdr = Some (t, v, k) ->
  OD.mem t (phase1 lines) = false ->
  Forall (fun raw => header_of raw = None) body ->
  OD.get t (parse_standard_elements_lines lines) = None
  /\ OD.keys (parse_standard_elements_lines lines) = OD.keys (phase1 lines)
  /\ parse_standard_elements_lines lines
     = fst (phase2 (fst (phase2 (phase1 lines, None) pre), None) rest).
Proof.
  intros Hlines Hhdr Hmem Hbody.
  assert (Hkeys : OD.keys (parse_standard_elements_lines lines)
                  = OD.keys (phase1 lines)).
  { unfold parse_standard_elements_lines. now rewrite phase2_keys. }
  split; [|split; [exact Hkeys|]].
  - apply get_keys_none. rewrite Hkeys. apply get_keys_none.
    now apply mem_false_get.
  - unfold parse_standard_elements_lines.
    set (E := phase1 lines) in *.
    rewrite Hlines at 1. rewrite phase2_app.
    destruct (phase2 (E, None) pre) as [E1 cur1] eqn:Hpre.
    assert (Hmem1 : OD.mem t E1 = false).
    { apply mem_false_get, get_keys_none.
      replace E1 with (fst (phase2 (E, None) pre)) by now rewrite Hpre.
      rewrite phase2_keys. now apply get_keys_none, mem_false_get. }
    change (hdr :: body ++ rest)%list with ([hdr] ++ body ++ rest)%list.
    rewrite !phase2_app. unfold phase2 at 3. cbn [fold_left].
    rewrite (phase2_step_header _ _ _ _ _ _ Hhdr), Hmem1.
    now rewrite (phase2_no_tag _ _ Hbody).
Qed.

Lemma unlisted_tag_leaves_no_trace_witness :
  let lines :=
    (std_listing ++ [std_name_header; std_doe]
     ++ std_id_header :: std_id_values
     ++ [std_name_header; std_roe])%list in
  OD.mem "0010,0020" (phase1 lines) = false
  /\ OD.get "0010,0020" (parse_standard_elements_lines lines) = None
  /\ OD.keys (parse_standard_elements_lines lines) = ["0010,0010"].
Proof.
  intros lines.
  assert (Hl : lines
               = ((std_listing ++ [std_name_header; std_doe])
                  ++ std_id_header :: std_id_values
                  ++ [std_name_header; std_roe])%list)
    by (unfold lines; now rewrite <- app_assoc).
  assert (Hb : Forall (fun raw => header_of raw = None) std_id_values)
    by (repeat constructor).
  destruct (unlisted_tag_leaves_no_trace lines _ _ _ _
              "0010,0020" "LO" "PatientID" Hl eq_refl eq_refl Hb)
    as [Hget [Hkeys _]].
  split; [reflexivity | split; [exact Hget | exact Hkeys]].
Defined.

(** C10: in the second pass a line that is neither a tag header nor
    indented changes nothing, so when it stands between the header of a
    listed tag and indented lines, those lines are still appended, in
    order, to the values of that tag. *)
Theorem stray_line_keeps_current_tag
    (lines pre ind rest : list string) (hdr stray t v k : string) :
  lines = (pre ++ hdr :: stray :: ind ++ rest)%list ->
  header_of hdr = Some (t, v, k) ->
  OD.mem t (phase1 lines) = true ->
  header_of stray = None ->
  indented stray = false ->
  Forall (fun raw => indented raw = true) ind ->
  (forall st, phase2_step st stray = st)
  /\ exists e more,
       OD.get t (fst (phase2 (phase1 lines, None) pre)) = Some e
       /\ phase2 (phase1 lines, None) (pre ++ hdr :: stray :: ind)
          = (OD.update t (add_values (map value_of ind))
               (fst (phase2 (phase1 lines, None) pre)), Some t)
       /\ OD.get t (parse_standard_elements_lines lines)
          = Some (add_values (map value_of ind ++ more) e).
Proof.
  intros Hlines Hhdr Hmem Hstray Hnind Hind.
  split; [intros st; now apply phase2_step_stray|].
  set (E := phase1 lines) in *.
  apply mem_get_some in Hmem. destruct Hmem as [e0 He0].
  destruct (phase2_get_extends pre (E, None) t e0 He0) as [m0 Hm0].
  destruct (phase2 (E, None) pre) as [E1 cur1] eqn:Hpre. cbn [fst] in *.
  assert (Hmem1 : OD.mem t E1 = true) by (apply mem_get_some; eauto).
  pose proof (header_tag_nonempty _ _ _ _ Hhdr) as Ht.
  assert (Hblock : phase2 (E, None) (pre ++ hdr :: stray :: ind)
                   = (OD.update t (add_values (map value_of ind)) E1, Some t)).
  { change (hdr :: stray :: ind)%list with ([hdr; stray] ++ ind)%list.
    rewrite !phase2_app, Hpre. unfold phase2 at 2. cbn [fold_left].
    rewrite (phase2_step_header _ _ _ _ _ _ Hhdr), Hmem1.
    rewrite (phase2_step_stray _ _ Hstray Hnind).
    now apply phase2_block. }
  exists (add_values m0 e0).
  assert (Hget : OD.get t (OD.update t (add_values (map value_of ind)) E1)
                 = Some (add_values (map value_of ind) (add_values m0 e0))).
  { now rewrite get_update_same, Hm0. }
  destruct (phase2_get_extends rest
              (OD.update t (add_values (map value_of ind)) E1, Some t)
              t _ Hget) as [more Hmore].
  exists more. split; [exact Hm0|]. split; [exact Hblock|].
  unfold parse_standard_elements_lines. fold E.
  rewrite Hlines at 1.
  replace (pre ++ hdr :: stray :: ind ++ rest)%list
    with ((pre ++ hdr :: stray :: ind) ++ rest)%list
    by (rewrite <- app_assoc; reflexivity).
  rewrite phase2_app, Hblock, Hmore. now rewrite add_values_add.
Qed.

Lemma stray_line_keeps_current_tag_witness :
  let lines :=
    (std_listing ++ std_name_header :: std_stray :: std_name_values
     ++ [nl])%list in
  OD.mem "0010,0010" (phase1 lines) = true
  /\ header_of std_stray = None
  /\ indented std_stray = false
  /\ phase2 (phase1 lines, None)
       (std_listing ++ std_name_header :: std_stray :: std_name_values)
     = ([("0010,0010", mk_std_entry "PN" "PatientName"
                         ["Doe^John"; "Roe^Jane"])], Some "0010,0010").
Proof.
  intros lines.
  assert (Hi : Forall (fun raw => indented raw = true) std_name_values)
    by (repeat constructor).
  destruct (stray_line_keeps_current_tag lines std_listing std_name_values
              [nl] std_name_header std_stray "0010,0010" "PN" "PatientName"
              eq_refl eq_refl eq_refl eq_refl eq_refl Hi)
    as [_ [e [more [_ [Hblock _]]]]].
  split; [reflexivity | split; [reflexivity | split; [reflexivity|]]].
  exact Hblock.
Defined.

(* ------------------------------------------------------------------ *)
(** ** The date/time parser *)
(* ------------------------------------------------------------------ *)

Lemma append_to_app (xs : list string) (x : string) (vs : list string) :
  (append_to x vs ++ xs)%list = (vs ++ x :: xs)%list.
Proof. unfold append_to. now rewrite <- app_assoc. Qed.

Lemma dt_loop_app (st : OD.t (list string) * option string)
    (a b : list string) :
  dt_loop st (a ++ b) = dt_loop (dt_loop st a) b.
Proof. apply fold_left_app. Qed.

Lemma dt_key_nonempty (t v k : string) : nonempty (dt_key t v k) = true.
Proof. reflexivity. Qed.

Lemma header_not_sentinel (raw : string) (x : string * string * string) :
  header_of raw = Some x ->
  String.eqb (text_of raw) "Date/Time Elements" = false.
Proof.
  destruct x as [[t v] k]. unfold header_of. intros H.
  destruct (match_tag_shape _ _ _ _ H) as [s [-> _]]. reflexivity.
Qed.

Lemma dt_step_header (E : OD.t (list string)) (cur : option string)
    (raw t v k : string) :
  header_of raw = Some (t, v, k) ->
  dt_step (E, cur) raw = (OD.set (dt_key t v k) [] E, Some (dt_key t v k)).
Proof.
  intros H. pose proof (header_not_sentinel _ _ H) as Hs.
  pose proof (header_not_blank _ _ H) as Hb.
  unfold header_of, text_of, dt_step in *. now rewrite Hs, Hb, H.
Qed.

Lemma dt_step_value (E : OD.t (list string)) (key raw : string) :
  nonempty key = true -> header_of raw = None ->
  dt_step (E, Some key) raw
  = (if dt_value_line raw
     then OD.update key (append_to (value_of raw)) E else E, Some key).
Proof.
  intros Hk Hh.
  unfold dt_value_line, indented, value_of, header_of, text_of, dt_step in *.
  destruct (String.eqb (rstrip_nl raw) "Date/Time Elements"
            || blank (rstrip_nl raw)); [reflexivity|].
  rewrite Hh, Hk. cbn [negb andb].
  destruct (startswith (rstrip_nl raw) "  "); reflexivity.
Qed.

Lemma dt_block (block : list string) (E : OD.t (list string)) (key : string) :
  nonempty key = true ->
  Forall (fun raw => header_of raw = None) block ->
  dt_loop (E, Some key) block
  = (OD.update key (fun vs => vs ++ dt_values block)%list E, Some key).
Proof.
  intros Hk Hblock. revert E.
  induction Hblock as [|raw block Hraw _ IH]; intros E.
  - cbn. rewrite update_id; [reflexivity | intros vs; apply app_nil_r].
  - unfold dt_loop in *. cbn [fold_left].
    rewrite (dt_step_value _ _ _ Hk Hraw). unfold dt_values. cbn [filter].
    destruct (dt_value_line raw); [|apply IH].
    rewrite IH, update_update. cbn [map]. f_equal.
    apply update_ext. intros vs. apply append_to_app.
Qed.

(** Lines that open other keys, or none, leave the list of [key] alone once
    [key] is no longer the current key. *)
Lemma dt_other_keys (rest : list string) (key : string)
    (E : OD.t (list string)) (cur : option string) :
  cur <> Some key ->
  Forall (fun raw => dt_key_of raw <> Some key) rest ->
  OD.get key (fst (dt_loop (E, cur) rest)) = OD.get key E.
Proof.
  intros Hcur Hrest. revert E cur Hcur.
  induction Hrest as [|raw rest Hraw _ IH]; intros E cur Hcur;
    [reflexivity|].
  unfold dt_loop in *. cbn [fold_left].
  unfold dt_key_of in Hraw.
  destruct (header_of raw) as [[[t v] k]|] eqn:Hh.
  - rewrite (dt_step_header _ _ _ _ _ _ Hh), IH by congruence.
    apply get_set_other. congruence.
  - destruct (dt_step (E, cur) raw) as [E' cur'] eqn:Hstep.
    assert (Hinv : cur' = cur /\ OD.get key E' = OD.get key E).
    { unfold dt_step, header_of, text_of in *.
      destruct (String.eqb (rstrip_nl raw) "Date/Time Elements"
                || blank (rstrip_nl raw));
        [injection Hstep as <- <-; now split|].
      rewrite Hh in Hstep. destruct cur as [c|];
        [|injection Hstep as <- <-; now split].
      destruct (nonempty c && startswith (rstrip_nl raw) "  ");
        injection Hstep as <- <-; split; try reflexivity.
      apply get_update_other. congruence. }
    destruct Hinv as [-> Hget]. now rewrite IH.
Qed.

(** C6: when a header opens a composite key for the last time, the result
    maps that key to the values of the block under that header, whatever
    came before it, earlier blocks of the same key included. *)
Theorem repeated_key_keeps_last_block
    (pre block rest : list string) (hdr key : string) :
  dt_key_of hdr = Some key ->
  Forall (fun raw => header_of raw = None) block ->
  ends_block rest ->
  Forall (fun raw => dt_key_of raw <> Some key) rest ->
  OD.get key (parse_date_time_lines (pre ++ hdr :: block ++ rest))
  = Some (dt_values block).
Proof.
  intros Hkey Hblock Hends Hrest.
  unfold dt_key_of in Hkey.
  destruct (header_of hdr) as [[[t v] k]|] eqn:Hh; [|discriminate].
  injection Hkey as <-.
  unfold parse_date_time_lines.
  change (hdr :: block ++ rest)%list with ([hdr] ++ block ++ rest)%list.
  rewrite !dt_loop_app.
  destruct (dt_loop ([], None) pre) as [E0 cur0].
  unfold dt_loop at 3. cbn [fold_left].
  rewrite (dt_step_header _ _ _ _ _ _ Hh).
  rewrite (dt_block _ _ _ (dt_key_nonempty t v k) Hblock).
  set (E1 := OD.update (dt_key t v k) _ _).
  assert (HE1 : OD.get (dt_key t v k) E1 = Some (dt_values block)).
  { unfold E1. now rewrite get_update_same, get_set_same. }
  destruct rest as [|raw rest]; [exact HE1|].
  cbn in Hends. inversion Hrest as [|? ? Hraw Hrest']; subst.
  unfold dt_loop. cbn [fold_left].
  destruct (header_of raw) as [[[t' v'] k']|] eqn:Hh'; [|contradiction].
  rewrite (dt_step_header _ _ _ _ _ _ Hh').
  assert (Hne : dt_key t' v' k' <> dt_key t v k).
  { unfold dt_key_of in Hraw. rewrite Hh' in Hraw. congruence. }
  fold (dt_loop (OD.set (dt_key t' v' k') [] E1, Some (dt_key t' v' k')) rest).
  rewrite dt_other_keys by (congruence || assumption).
  rewrite get_set_other by congruence. exact HE1.
Qed.

Lemma repeated_key_keeps_last_block_witness :
  OD.get "(0008,0020) DA StudyDate"
    (parse_date_time_lines
       ([dt_sentinel; dt_date_header; dt_first_value; nl]
        ++ dt_date_header :: [dt_second_value]
        ++ [dt_time_header; dt_time_value]))
  = Some ["20210101"].
Proof.
  assert (Hb : Forall (fun raw => header_of raw = None) [dt_second_value])
    by (repeat constructor).
  assert (He : ends_block [dt_time_header; dt_time_value])
    by (cbn; discriminate).
  assert (Hr : Forall (fun raw => dt_key_of raw
                                  <> Some "(0008,0020) DA StudyDate")
                 [dt_time_header; dt_time_value])
    by (repeat constructor; discriminate).
  exact (repeated_key_keeps_last_block
           [dt_sentinel; dt_date_header; dt_first_value; nl]
           [dt_second_value] [dt_time_header; dt_time_value]
           dt_date_header "(0008,0020) DA StudyDate" eq_refl Hb He Hr).
Defined.

(* ------------------------------------------------------------------ *)
(** ** The sequence parser *)
(* ------------------------------------------------------------------ *)

Lemma seq_step_skipped (st : OD.t (list string) * option string)
    (raw : string) :
  seq_skipped (text_of raw) = true -> seq_step st raw = st.
Proof.
  unfold text_of, seq_step. destruct st as [d cur]. now intros ->.
Qed.

Lemma seq_step_key (d : OD.t (list string)) (cur : option string)
    (raw : string) :
  seq_skipped (text_of raw) = false -> indented raw = false ->
  seq_step (d, cur) raw = (open_key (value_of raw) d, Some (value_of raw)).
Proof.
  unfold indented, value_of, text_of, seq_step. now intros -> ->.
Qed.

Lemma seq_key_nonempty (raw : string) :
  seq_skipped (text_of raw) = false -> nonempty (value_of raw) = true.
Proof.
  unfold seq_skipped, blank, value_of. intros H.
  apply orb_false_iff in H. destruct H as [_ H].
  destruct (strip (text_of raw)); [discriminate | reflexivity].
Qed.

Lemma seq_step_value (d : OD.t (list string)) (key raw : string) :
  nonempty key = true ->
  seq_skipped (text_of raw) = false -> indented raw = true ->
  seq_step (d, Some key) raw
  = (OD.update key (append_to (value_of raw)) d, Some key).
Proof.
  unfold indented, value_of, text_of, seq_step. now intros -> -> ->.
Qed.

Lemma seq_block (body : list string) (d : OD.t (list string)) (key : string) :
  nonempty key = true ->
  Forall seq_body_line body ->
  seq_loop (d, Some key) body
  = (OD.update key (fun vs => vs ++ seq_values body)%list d, Some key).
Proof.
  intros Hk Hbody. revert d.
  induction Hbody as [|raw body Hraw _ IH]; intros d.
  - cbn. rewrite update_id; [reflexivity | intros vs; apply app_nil_r].
  - unfold seq_loop in *. cbn [fold_left]. unfold seq_values. cbn [filter].
    destruct (seq_skipped (text_of raw)) eqn:Hs; cbn [negb].
    + rewrite (seq_step_skipped _ _ Hs). apply IH.
    + destruct Hraw as [Hraw|Hraw]; [congruence|].
      rewrite (seq_step_value _ _ _ Hk Hs Hraw), IH, update_update.
      cbn [map]. f_equal. apply update_ext. intros vs. apply append_to_app.
Qed.

Lemma open_key_get (d : OD.t (list string)) (key : string) :
  OD.get key (open_key key d) = Some (stored d key).
Proof.
  unfold open_key, stored, OD.mem.
  destruct (OD.get key d) as [vs|] eqn:E; [exact E | apply get_set_same].
Qed.

(** C8, counterexample: a line that only starts with a header label is
    skipped as well; it opens no key, and the value below it is dropped. *)
Lemma seq_prefix_line_is_skipped :
  text_of seq_other_line <> "Standard Sequence"
  /\ text_of seq_other_line <> "Private Sequence"
  /\ text_of seq_other_line <> text_of seq_header_line
  /\ blank (text_of seq_other_line) = false
  /\ indented seq_other_line = false
  /\ parse_sequences_lines [seq_header_line; seq_other_line; seq_value_a] = [].
Proof.
  repeat split; try reflexivity; discriminate.
Qed.

(** C8, amended: the sequence parser skips the lines that start with
    [Standard Sequence] or [Private Sequence] and the blank lines; every
    other line that does not start with two spaces opens the key it
    spells, and opening a key that exists keeps its list, which the
    indented lines below it extend. *)
Theorem sequence_key_line_reuses_list
    (d : OD.t (list string)) (cur : option string) (raw : string)
    (body : list string) :
  seq_skipped (text_of raw) = false ->
  indented raw = false ->
  Forall seq_body_line body ->
  (forall st raw', seq_skipped (text_of raw') = true -> seq_step st raw' = st)
  /\ seq_step (d, cur) raw = (open_key (value_of raw) d, Some (value_of raw))
  /\ (OD.mem (value_of raw) d = true -> open_key (value_of raw) d = d)
  /\ OD.get (value_of raw) (fst (seq_loop (d, cur) (raw :: body)))
     = Some (stored d (value_of raw) ++ seq_values body)%list.
Proof.
  intros Hs Hi Hbody.
  split; [intros st raw'; apply seq_step_skipped|].
  split; [now apply seq_step_key|].
  split; [unfold open_key; now intros ->|].
  unfold seq_loop. cbn [fold_left]. rewrite (seq_step_key _ _ _ Hs Hi).
  fold (seq_loop (open_key (value_of raw) d, Some (value_of raw)) body).
  rewrite (seq_block _ _ _ (seq_key_nonempty _ Hs) Hbody).
  cbn [fst]. now rewrite get_update_same, open_key_get.
Qed.

Lemma sequence_key_line_reuses_list_witness :
  seq_skipped (text_of seq_key_line) = false
  /\ indented seq_key_line = false
  /\ OD.get "(0008,1115) ReferencedSeriesSequence"
       (fst (seq_loop
               ([("(0008,1115) ReferencedSeriesSequence", ["1.2.840.1"]);
                 ("(0040,0275) RequestAttributesSequence", [])],
                Some "(0040,0275) RequestAttributesSequence")
               [seq_key_line; nl; seq_value_b]))
     = Some ["1.2.840.1"; "1.2.840.2"].
Proof.
  assert (Hb : Forall seq_body_line [nl; seq_value_b]).
  { constructor; [left; reflexivity|].
    constructor; [right; reflexivity | constructor]. }
  split; [reflexivity | split; [reflexivity|]].
  exact (proj2 (proj2 (proj2
    (sequence_key_line_reuses_list
       [("(0008,1115) ReferencedSeriesSequence", ["1.2.840.1"]);
        ("(0040,0275) RequestAttributesSequence", [])]
       (Some "(0040,0275) RequestAttributesSequence")
       seq_key_line [nl; seq_value_b] eq_refl eq_refl Hb)))).
Defined.

(* ------------------------------------------------------------------ *)
(** ** Lemmas on strings *)
(* ------------------------------------------------------------------ *)

Lemma str_app_assoc (a b c : string) : (a ++ b) ++ c = a ++ (b ++ c).
Proof.
  induction a as [|x a IH]; cbn; [reflexivity | now rewrite IH].
Qed.


(* ------------------------------------------------------------------ *)
(** ** The large-hash table *)
(* ------------------------------------------------------------------ *)

Lemma insert_desc_perm (r : hash_row) (l : list hash_row) :
  Permutation (insert_desc r l) (r :: l).
Proof.
  induction l as [|x l IH]; cbn [insert_desc]; [reflexivity|].
  destruct (count r <? count x)%Z; [|reflexivity].
  rewrite IH. apply perm_swap.
Qed.

Lemma sorted_desc_perm (rows : list hash_row) :
  Permutation (sorted_desc rows) rows.
Proof.
  induction rows as [|r rows IH]; cbn [sorted_desc]; [reflexivity|].
  rewrite insert_desc_perm. now constructor.
Qed.

Lemma insert_desc_sorted (r : hash_row) (l : list hash_row) :
  StronglySorted count_ge l -> StronglySorted count_ge (insert_desc r l).
Proof.
  induction 1 as [|x l Hl IH Hx]; cbn [insert_desc].
  - repeat constructor.
  - destruct (count r <? count x)%Z eqn:E.
    + apply Z.ltb_lt in E. constructor; [exact IH|].
      eapply Permutation_Forall;
        [apply Permutation_sym, insert_desc_perm|].
      constructor; [unfold count_ge; lia | exact Hx].
    + apply Z.ltb_ge in E. constructor; [now constructor|].
      constructor; [exact E|].
      eapply Forall_impl; [|exact Hx]. unfold count_ge. intros; lia.
Qed.

Lemma sorted_desc_sorted (rows : list hash_row) :
  StronglySorted count_ge (sorted_desc rows).
Proof.
  induction rows as [|r rows IH]; cbn [sorted_desc];
    [constructor | now apply insert_desc_sorted].
Qed.

Lemma insert_desc_stable (c : Z) (r : hash_row) (l : list hash_row) :
  with_count c (insert_desc r l) = with_count c (r :: l).
Proof.
  unfold with_count.
  induction l as [|x l IH]; cbn [insert_desc]; [reflexivity|].
  destruct (count r <? count x)%Z eqn:E; [|reflexivity].
  apply Z.ltb_lt in E. cbn [filter] in *. rewrite IH.
  destruct (count x =? c)%Z eqn:Ex, (count r =? c)%Z eqn:Er;
    try reflexivity.
  apply Z.eqb_eq in Ex, Er. lia.
Qed.

Lemma sorted_desc_stable (c : Z) (rows : list hash_row) :
  with_count c (sorted_desc rows) = with_count c rows.
Proof.
  induction rows as [|r rows IH]; cbn [sorted_desc]; [reflexivity|].
  rewrite insert_desc_stable. unfold with_count in *. cbn [filter].
  now rewrite IH.
Qed.

Lemma sorted_split_ge (n : nat) (l : list hash_row) :
  StronglySorted count_ge l ->
  forall a b, In a (firstn n l) -> In b (skipn n l) -> count_ge a b.
Proof.
  intros Hs. revert n. induction Hs as [|x l Hl IH Hx]; intros n a b Ha Hb.
  - rewrite firstn_nil in Ha. contradiction.
  - destruct n as [|n]; [contradiction|]. cbn in Ha, Hb.
    destruct Ha as [<-|Ha]; [|now apply (IH n)].
    rewrite Forall_forall in Hx. apply Hx.
    rewrite <- (firstn_skipn n l). apply in_or_app. now right.
Qed.

(** C7, counterexample: with 21 unique hashes, 11 of them are left out of
    the table, and the note, which gives the limit and the total, does not
    state that number. *)
Lemma hash_note_omits_remainder :
  List.length (sample_hashes 21) = 21
  /\ hash_note (sample_hashes 21)
     = "<p><em>Showing top 10 of 21 unique hashes. Full data available in large_private_elements.txt</em></p>"
  /\ contains (str_nat (21 - 10)) (hash_note (sample_hashes 21)) = false.
Proof.
  repeat split; vm_compute; reflexivity.
Qed.

(* ------------------------------------------------------------------ *)
(** ** Escaping *)
(* ------------------------------------------------------------------ *)

Lemma scan_done (s : string) : scan 7 s = 7.
Proof. induction s; cbn; auto. Qed.

Lemma script_step_le (n : nat) (c : ascii) : script_step n c <= 7.
Proof.
  do 7 (destruct n as [|n];
        [cbn; unfold restart;
         repeat match goal with
                | |- context [if ?b then _ else _] => destruct b
                end; lia|]).
  cbn. lia.
Qed.

(** When the reading does not reach the final state, the text has no
    [<script], and it does not begin with what was missing of it. *)
Lemma scan_sound (s : string) :
  forall n, n <= 6 -> scan n s <> 7 ->
  contains "<script" s = false
  /\ String.prefix (drop n "<script") s = false.
Proof.
  induction s as [|c s IH]; intros n Hn Hscan.
  - do 7 (destruct n as [|n]; [split; reflexivity|]). lia.
  - cbn [scan] in Hscan. cbn [contains].
    assert (Hnext : script_step n c <= 6).
    { pose proof (script_step_le n c).
      destruct (Nat.eq_dec (script_step n c) 7) as [E|E]; [|lia].
      rewrite E, scan_done in Hscan. contradiction. }
    destruct (IH _ Hnext Hscan) as [Hc Hp]. rewrite Hc.
    clear IH Hscan Hnext Hc.
    do 7 (destruct n as [|n];
      [ cbn [script_step] in Hp; unfold restart in Hp;
        cbn [drop String.prefix];
        repeat match goal with
               | |- context [ascii_dec ?a c] =>
                   destruct (ascii_dec a c) as [<-|?]
               end;
        cbn in Hp |- *;
        repeat match type of Hp with
               | context [Ascii.eqb c ?a] =>
                   rewrite (proj2 (Ascii.eqb_neq c a)) in Hp by congruence
               end;
        cbn in Hp; rewrite ?Hp; now split | ]).
    lia.
Qed.

Lemma clean_no_script (s : string) :
  clean s -> contains "<script" s = false.
Proof.
  unfold clean. intros H.
  apply (scan_sound s 0); [lia | rewrite H; discriminate].
Qed.

Lemma scan_app (a b : string) (n : nat) :
  scan n (a ++ b) = scan (scan n a) b.
Proof.
  revert n. induction a as [|c a IH]; intros n; cbn; [reflexivity | apply IH].
Qed.

Lemma clean_app (a b : string) : clean a -> clean b -> clean (a ++ b).
Proof.
  unfold clean. intros Ha Hb. now rewrite scan_app, Ha.
Qed.

Lemma all_chars_app (p : ascii -> bool) (a b : string) :
  all_chars p (a ++ b) = all_chars p a && all_chars p b.
Proof.
  induction a as [|c a IH]; cbn; [reflexivity|].
  now rewrite IH, andb_assoc.
Qed.

Lemma all_chars_impl (p p' : ascii -> bool) (s : string) :
  (forall c, p c = true -> p' c = true) ->
  all_chars p s = true -> all_chars p' s = true.
Proof.
  intros Hpp. induction s as [|c s IH]; cbn; [reflexivity|].
  intros H. apply andb_true_iff in H. destruct H as [Hc Hs].
  now rewrite (Hpp _ Hc), IH.
Qed.

Lemma all_chars_list (p : ascii -> bool) (s : string) :
  all_chars p s = forallb p (list_ascii_of_string s).
Proof.
  induction s as [|c s IH]; cbn; [reflexivity | now rewrite IH].
Qed.

Lemma no_lt_clean (s : string) : no_lt s = true -> clean s.
Proof.
  unfold no_lt, clean. induction s as [|c s IH]; cbn; [reflexivity|].
  intros H. apply andb_true_iff in H. destruct H as [Hc Hs].
  unfold restart. apply negb_true_iff in Hc. rewrite Hc. now apply IH.
Qed.

Lemma escape_char_markup_free (c : ascii) :
  markup_free (escape_char c) = true.
Proof.
  unfold escape_char.
  destruct (Ascii.eqb c "&") eqn:E1; [reflexivity|].
  destruct (Ascii.eqb c "<") eqn:E2; [reflexivity|].
  destruct (Ascii.eqb c ">") eqn:E3; [reflexivity|].
  destruct (Ascii.eqb c DQ) eqn:E4; [reflexivity|].
  destruct (Ascii.eqb c "'") eqn:E5; [reflexivity|].
  unfold markup_free, is_markup. cbn. now rewrite E2, E3, E4, E5.
Qed.

Lemma escape_markup_free (s : string) : markup_free (escape s) = true.
Proof.
  unfold markup_free. induction s as [|c s IH]; cbn; [reflexivity|].
  rewrite all_chars_app, IH. fold (markup_free (escape_char c)).
  now rewrite escape_char_markup_free.
Qed.

Lemma markup_free_no_lt (s : string) : markup_free s = true -> no_lt s = true.
Proof.
  apply all_chars_impl. intros c. unfold is_markup.
  destruct (Ascii.eqb c "<"); [discriminate | reflexivity].
Qed.

Lemma markup_free_chars (s : string) (c : ascii) :
  markup_free s = true -> In c (list_ascii_of_string s) ->
  is_markup c = false.
Proof.
  unfold markup_free. rewrite all_chars_list, forallb_forall.
  intros H Hin. apply negb_true_iff. now apply H.
Qed.

Lemma clean_esc (text : string) : clean (_esc text).
Proof.
  apply no_lt_clean, markup_free_no_lt, escape_markup_free.
Qed.

(** Numbers: digits, a sign, commas. *)
Lemma no_lt_uint (d : Decimal.uint) :
  no_lt (NilEmpty.string_of_uint d) = true.
Proof. induction d; cbn; auto. Qed.

Lemma no_lt_str_int (z : Z) : no_lt (str_int z) = true.
Proof.
  unfold str_int, NilZero.string_of_int, NilZero.string_of_uint.
  destruct (Z.to_int z) as [d|d]; destruct d; cbn;
    try reflexivity; apply no_lt_uint.
Qed.

Lemma forallb_rev {A : Type} (p : A -> bool) (l : list A) :
  forallb p (rev l) = forallb p l.
Proof.
  induction l as [|x l IH]; cbn; [reflexivity|].
  rewrite forallb_app, IH. cbn. rewrite andb_true_r. apply andb_comm.
Qed.

Lemma group3_step (a b c d : ascii) (rest : list ascii) :
  group3 (a :: b :: c :: d :: rest)
  = a :: b :: c :: ","%char :: group3 (d :: rest).
Proof. reflexivity. Qed.

Lemma forallb_group3 (p : ascii -> bool) (n : nat) :
  p ","%char = true ->
  forall l, List.length l <= n -> forallb p l = true ->
            forallb p (group3 l) = true.
Proof.
  intros Hcomma. induction n as [|n IH]; intros l Hlen Hl.
  - destruct l; [reflexivity | cbn in Hlen; lia].
  - destruct l as [|a [|b [|c [|d rest]]]]; try exact Hl.
    rewrite group3_step. cbn [forallb] in Hl |- *.
    repeat (apply andb_true_iff in Hl; destruct Hl as [? Hl]).
    repeat (apply andb_true_iff; split; try assumption).
    apply IH; [cbn in *; lia|]. cbn [forallb].
    repeat (apply andb_true_iff; split; try assumption).
Qed.

Lemma no_lt_commas (digits : string) :
  no_lt digits = true -> no_lt (commas digits) = true.
Proof.
  unfold no_lt, commas. rewrite !all_chars_list.
  rewrite list_ascii_of_string_of_list_ascii, forallb_rev. intros H.
  apply (forallb_group3 _ (List.length (rev (list_ascii_of_string digits))));
    [reflexivity | lia | now rewrite forallb_rev].
Qed.

Lemma no_lt_fmt_int (z : Z) : no_lt (fmt_int z) = true.
Proof.
  unfold fmt_int. destruct (z <? 0)%Z.
  - unfold no_lt. rewrite all_chars_app. cbn [all_chars andb negb].
    apply no_lt_commas, no_lt_str_int.
  - apply no_lt_commas, no_lt_str_int.
Qed.

Lemma clean_fmt_int (z : Z) : clean (fmt_int z).
Proof. apply no_lt_clean, no_lt_fmt_int. Qed.

Lemma clean_fmt_nat (n : nat) : clean (fmt_nat n).
Proof. apply clean_fmt_int. Qed.

Lemma clean_str_int (z : Z) : clean (str_int z).
Proof. apply no_lt_clean, no_lt_str_int. Qed.

Lemma clean_str_nat (n : nat) : clean (str_nat n).
Proof. apply clean_str_int. Qed.

(** The conversions that can raise give the text of the number when they
    do not. *)
Lemma str_of_int_ok (z : Z) (text : string) :
  str_of_int z = Ok text -> text = str_int z.
Proof.
  unfold str_of_int. destruct (within_digit_limit z); congruence.
Qed.

Lemma format_of_int_ok (z : Z) (text : string) :
  format_of_int z = Ok text -> text = fmt_int z.
Proof.
  unfold format_of_int. destruct (within_digit_limit z); congruence.
Qed.

Lemma esc_int_ok (z : Z) (text : string) :
  _esc_int z = Ok text -> text = escape (str_int z).
Proof.
  unfold _esc_int, bind. destruct (str_of_int z) as [t|] eqn:E; [|discriminate].
  apply str_of_int_ok in E. congruence.
Qed.

(** Takes apart a sequence of calls that returned: every call of it
    returned. *)
Ltac bind_inv H :=
  unfold bind in H;
  repeat match type of H with
  | match ?r with Ok _ => _ | Raise _ => _ end = Ok _ =>
      let E := fresh "E" in
      destruct r eqn:E; [|discriminate H]; try bind_inv E;
      try (match type of E with Ok _ = Ok _ =>
             apply Ok_inj in E; subst end)
  end.

Lemma clean_esc_int (z : Z) (text : string) :
  _esc_int z = Ok text -> clean text.
Proof.
  intros H. rewrite (esc_int_ok _ _ H).
  apply no_lt_clean, markup_free_no_lt, escape_markup_free.
Qed.

Lemma clean_format_of_int (z : Z) (text : string) :
  format_of_int z = Ok text -> clean text.
Proof. intros H. rewrite (format_of_int_ok _ _ H). apply clean_fmt_int. Qed.

Lemma clean_concat_map {A : Type} (f : A -> string) (xs : list A) :
  (forall x, clean (f x)) -> clean (concat_map f xs).
Proof.
  intros Hf. unfold concat_map.
  induction xs as [|x [|y xs] IH]; cbn [map String.concat].
  - reflexivity.
  - apply Hf.
  - apply clean_app; [apply Hf|]. apply clean_app; [reflexivity | exact IH].
Qed.

Lemma clean_join (sep : string) (xs : list string) :
  clean sep -> Forall clean xs -> clean (join sep xs).
Proof.
  intros Hsep Hxs. induction Hxs as [|x xs Hx Hxs IH]; [reflexivity|].
  cbn [join]. destruct xs as [|y xs]; [exact Hx|].
  apply clean_app; [exact Hx|]. apply clean_app; [exact Hsep | exact IH].
Qed.

Lemma Forall_map_clean {A : Type} (f : A -> string) (xs : list A) :
  (forall x, clean (f x)) -> Forall clean (map f xs).
Proof.
  intros Hf. induction xs; cbn; constructor; auto.
Qed.

Lemma clean_concat_mapM {A : Type} (f : A -> result string) (xs : list A) :
  (forall x text, f x = Ok text -> clean text) ->
  forall text, concat_mapM f xs = Ok text -> clean text.
Proof.
  intros Hf. induction xs as [|x xs IH]; intros text H; cbn [concat_mapM] in H.
  - apply Ok_inj in H. now subst text.
  - bind_inv H. apply Ok_inj in H. subst text.
    apply clean_app; [eapply Hf; eassumption | now apply IH].
Qed.

(* ------------------------------------------------------------------ *)
(** ** The rendered document *)
(* ------------------------------------------------------------------ *)

Create HintDb cleandb.

#[local] Hint Resolve clean_esc clean_fmt_int clean_fmt_nat
  clean_str_int clean_str_nat : cleandb.

(** Splits a text along its concatenations and branches, and closes the
    pieces: literals by evaluation, the others with the lemmas at hand. *)
Ltac clean_tac :=
  repeat match goal with
  | |- clean (_ ++ _) => apply clean_app
  | |- clean (q _) => unfold q
  | |- clean (concat_map _ _) => apply clean_concat_map; intros
  | |- clean (join _ _) => apply clean_join
  | |- Forall clean (map _ _) => apply Forall_map_clean; intros
  | |- clean (if ?b then _ else _) => destruct b
  | |- clean (match ?l with nil => _ | cons _ _ => _ end) => destruct l
  | |- clean _ => assumption
  | |- clean _ => solve [auto with cleandb]
  | |- clean _ => reflexivity
  end.

(** The text returned by a sequence of calls: takes the calls apart and
    names the text. *)
Ltac returned H text :=
  bind_inv H; cbv beta iota zeta in H; apply Ok_inj in H; subst text.

Lemma clean_value_html (v : string) : clean (value_html v).
Proof. unfold value_html. clean_tac. Qed.
#[local] Hint Resolve clean_value_html : cleandb.

Lemma clean_value_div (v : string) : clean (value_div v).
Proof. unfold value_div. clean_tac. Qed.
#[local] Hint Resolve clean_value_div : cleandb.

Lemma clean_tag_row (tag_hex keyword vr : string) (values : list string) :
  clean (_tag_row_html tag_hex keyword vr values).
Proof. unfold _tag_row_html. cbv zeta. clean_tac. Qed.
#[local] Hint Resolve clean_tag_row : cleandb.

Lemma clean_details (summary content : string) (open_default : bool) :
  clean content -> clean (_details summary content open_default).
Proof. intros H. unfold _details. cbv zeta. clean_tac. Qed.

Lemma clean_phi_tag (std : OD.t std_entry) (ref : string * string) :
  clean (phi_tag_html std ref).
Proof. destruct ref. unfold phi_tag_html. clean_tac. Qed.
#[local] Hint Resolve clean_phi_tag : cleandb.

Lemma clean_phi_group (std : OD.t std_entry)
    (group : string * list (string * string)) :
  clean (phi_group_html std group).
Proof.
  destruct group. unfold phi_group_html. apply clean_details. clean_tac.
Qed.
#[local] Hint Resolve clean_phi_group : cleandb.

Lemma clean_dt_row (item : string * list string) : clean (dt_row_html item).
Proof. destruct item. unfold dt_row_html. clean_tac. Qed.
#[local] Hint Resolve clean_dt_row : cleandb.

Lemma clean_section_phi_review (std : OD.t std_entry)
    (dt : OD.t (list string)) :
  clean (_section_phi_review std dt).
Proof.
  unfold _section_phi_review.
  apply clean_app; [reflexivity|]. apply clean_app; [clean_tac|].
  apply clean_details. clean_tac.
Qed.
#[local] Hint Resolve clean_section_phi_review : cleandb.

Lemma clean_metric (item : string * string) : clean (metric_html item).
Proof. destruct item. unfold metric_html. clean_tac. Qed.
#[local] Hint Resolve clean_metric : cleandb.

Lemma clean_code (s : string) : clean (code_html s).
Proof. unfold code_html. clean_tac. Qed.
#[local] Hint Resolve clean_code : cleandb.

Lemma clean_summary_part (n : Z) (label : string) (part : list string) :
  clean label -> summary_part n label = Ok part -> Forall clean part.
Proof.
  intros Hl. unfold summary_part. destruct (n =? 0)%Z; intros H.
  - apply Ok_inj in H. subst part. constructor.
  - bind_inv H. apply Ok_inj in H. subst part.
    constructor; [|constructor].
    apply clean_app; [eapply clean_format_of_int; eassumption | exact Hl].
Qed.

Lemma clean_summary_line (summary : OD.t Z) (html : string) :
  summary_line summary = Ok html -> clean html.
Proof.
  unfold summary_line. cbv zeta. intros H. bind_inv H.
  apply Ok_inj in H. subst html.
  apply clean_app; [reflexivity|]. apply clean_app; [clean_tac|].
  apply clean_app; [reflexivity|]. apply clean_app; [|reflexivity].
  apply clean_join; [reflexivity|].
  repeat match goal with
  | |- Forall clean (List.app _ _) => apply Forall_app; split
  | |- Forall clean [_] => constructor; [|constructor]
  | H : summary_part _ _ = Ok ?part |- Forall clean ?part =>
      eapply clean_summary_part; [|exact H]; reflexivity
  end.
  apply clean_app; [eapply clean_format_of_int; eassumption | reflexivity].
Qed.

Lemma clean_section_overview (std : OD.t std_entry)
    (priv : OD.t (list string)) (sop studies modalities : list string)
    (total : Z) (summary : option (OD.t Z)) (html : string) :
  _section_overview std priv sop studies modalities total summary = Ok html ->
  clean html.
Proof.
  unfold _section_overview. intros H. bind_inv H.
  apply Ok_inj in H. subst html.
  match goal with E : format_of_int _ = Ok ?t |- _ =>
    clear E; assert (Hm : clean (_esc t)) by apply clean_esc end.
  match goal with E : _ = Ok ?t |- _ =>
    assert (Hs : clean t)
      by (destruct summary as [[|entry summary]|];
          try (apply Ok_inj in E; subst; reflexivity);
          destruct (0 <? summary_get (entry :: summary) "total_files")%Z;
          [ eapply clean_summary_line; exact E
          | apply Ok_inj in E; subst; reflexivity ]);
    clear E
  end.
  unfold metric_html, concat_map. cbn [map String.concat].
  clean_tac.
Qed.

Lemma clean_std_row (item : string * std_entry) : clean (std_row_html item).
Proof. destruct item. unfold std_row_html. clean_tac. Qed.

Lemma clean_priv_row (item : string * list string) :
  clean (priv_row_html item).
Proof. destruct item. unfold priv_row_html. cbv zeta. clean_tac. Qed.

Lemma clean_seq_row (item : string * list string) : clean (seq_row_html item).
Proof. destruct item. unfold seq_row_html. clean_tac. Qed.
#[local] Hint Resolve clean_std_row clean_priv_row clean_seq_row : cleandb.

Lemma clean_section_tag_explorer (std : OD.t std_entry)
    (priv sseq pseq : OD.t (list string)) :
  clean (_section_tag_explorer std priv sseq pseq).
Proof.
  unfold _section_tag_explorer. cbv zeta.
  repeat first [ apply clean_details | apply clean_app ]; clean_tac.
Qed.
#[local] Hint Resolve clean_section_tag_explorer : cleandb.

Lemma clean_count_row (r : count_row) : clean (count_row_html r).
Proof. unfold count_row_html. clean_tac. Qed.

Lemma clean_hash_row (r : hash_row) (html : string) :
  hash_row_html r = Ok html -> clean html.
Proof.
  unfold hash_row_html. intros H. bind_inv H. apply Ok_inj in H. subst html.
  match goal with E : _esc_int _ = Ok _ |- _ => apply clean_esc_int in E end.
  clean_tac.
Qed.
#[local] Hint Resolve clean_count_row : cleandb.

Lemma clean_hash_note (rows : list hash_row) : clean (hash_note rows).
Proof. unfold hash_note. clean_tac. Qed.
#[local] Hint Resolve clean_hash_note : cleandb.

Lemma clean_large_hashes (rows : list hash_row) (html : string) :
  large_hashes_html rows = Ok html -> clean html.
Proof.
  unfold large_hashes_html. destruct rows as [|r rows]; intros H.
  - apply Ok_inj in H. subst html. clean_tac.
  - bind_inv H. apply Ok_inj in H. subst html.
    match goal with E : format_of_int _ = Ok _ |- _ =>
      apply clean_format_of_int in E end.
    match goal with E : concat_mapM _ _ = Ok _ |- _ =>
      apply (clean_concat_mapM _ _ clean_hash_row) in E end.
    clean_tac.
Qed.

Lemma clean_section_study_summary (rows : list count_row)
    (hashes : list hash_row) (html : string) :
  _section_study_summary rows hashes = Ok html -> clean html.
Proof.
  unfold _section_study_summary. intros H. unfold bind at 1 in H.
  destruct rows as [|r rows].
  - bind_inv H. apply Ok_inj in H. subst html.
    match goal with E : large_hashes_html _ = Ok _ |- _ =>
      apply clean_large_hashes in E end.
    clean_tac.
  - bind_inv H. apply Ok_inj in H. subst html.
    match goal with E : large_hashes_html _ = Ok _ |- _ =>
      apply clean_large_hashes in E end.
    match goal with E : format_of_int _ = Ok _ |- _ =>
      apply clean_format_of_int in E end.
    clean_tac.
Qed.

Lemma clean_section_private_creators (creators : list (string * string)) :
  clean (_section_private_creators creators).
Proof.
  unfold _section_private_creators.
  assert (forall c, clean (creator_row_html c))
    by (intros c; unfold creator_row_html; clean_tac).
  clean_tac.
Qed.
#[local] Hint Resolve clean_section_private_creators : cleandb.

Lemma clean_CSS : clean _CSS.
Proof. vm_compute. reflexivity. Qed.
#[local] Hint Resolve clean_CSS : cleandb.

Lemma clean_render_report (d : report_data)
    (project_name timestamp doc : string) :
  render_report d project_name timestamp = Ok doc -> clean doc.
Proof.
  unfold render_report. cbv zeta. intros H. bind_inv H.
  apply Ok_inj in H. subst doc.
  match goal with E : _section_study_summary _ _ = Ok _ |- _ =>
    rename E into Hs; apply clean_section_study_summary in Hs end.
  match goal with E : _section_overview _ _ _ _ _ _ _ = Ok _ |- _ =>
    apply clean_section_overview in E end.
  match goal with E : format_of_int _ = Ok _ |- _ =>
    apply clean_format_of_int in E end.
  assert (Htitle : clean
            (_esc (if nonempty project_name
                   then "PHI Report " ++ em_dash ++ " " ++ project_name
                   else "PHI Report"))) by apply clean_esc.
  repeat match goal with
  | |- clean (_esc _) => apply clean_esc
  | |- clean (_ ++ _) => apply clean_app
  | |- clean _ => assumption
  | |- clean (if ?b then _ else _) => destruct b
  | |- clean _ => solve [auto with cleandb]
  | |- clean _ => reflexivity
  end.
Qed.

(* ------------------------------------------------------------------ *)
(** ** Trimming, numbers and their text *)
(* ------------------------------------------------------------------ *)

Lemma lstrip_idem (s : string) : lstrip (lstrip s) = lstrip s.
Proof.
  induction s as [|c s IH]; cbn; [reflexivity|].
  destruct (isspace c) eqn:E; [exact IH | cbn; now rewrite E].
Qed.

Lemma rstrip_idem (s : string) : rstrip (rstrip s) = rstrip s.
Proof.
  induction s as [|c s IH]; cbn [rstrip]; [reflexivity|].
  destruct (rstrip s) as [|c' r] eqn:E.
  - destruct (isspace c) eqn:Ec; [reflexivity|]. cbn. now rewrite Ec.
  - cbn [rstrip]. cbn [rstrip] in IH. now rewrite IH.
Qed.

Lemma rstrip_lstrip (r : string) : rstrip r = r -> rstrip (lstrip r) = lstrip r.
Proof.
  induction r as [|c r IH]; [reflexivity|]. intros H.
  cbn [lstrip]. destruct (isspace c) eqn:Ec; [|exact H].
  apply IH. cbn [rstrip] in H. destruct (rstrip r) as [|c' r'].
  - rewrite Ec in H. discriminate.
  - now injection H.
Qed.

Lemma strip_idem (s : string) : trimmed (strip s).
Proof.
  unfold trimmed, strip.
  rewrite (rstrip_lstrip _ (rstrip_idem s)). apply lstrip_idem.
Qed.

Lemma spaceless_rstrip (s : string) : spaceless s = true -> rstrip s = s.
Proof.
  unfold spaceless. induction s as [|c s IH]; [reflexivity|].
  cbn [all_chars rstrip]. intros H. apply andb_true_iff in H.
  destruct H as [Hc Hs]. rewrite (IH Hs). apply negb_true_iff in Hc.
  destruct s; [now rewrite Hc | reflexivity].
Qed.

Lemma spaceless_trimmed (s : string) : spaceless s = true -> trimmed s.
Proof.
  intros H. unfold trimmed, strip. rewrite (spaceless_rstrip _ H).
  destruct s as [|c s]; [reflexivity|]. cbn in *.
  apply andb_true_iff in H. destruct H as [Hc _].
  apply negb_true_iff in Hc. now rewrite Hc.
Qed.

Lemma digits_uint (d : Decimal.uint) :
  all_chars isdigit (NilEmpty.string_of_uint d) = true.
Proof. induction d; cbn; auto. Qed.

Lemma int_digits_acc (d : Decimal.uint) (acc : positive) :
  int_digits (Z.pos acc) true (NilEmpty.string_of_uint d)
  = Some (Z.pos (Pos.of_uint_acc d acc)).
Proof.
  revert acc.
  induction d; intros acc;
    cbn [NilEmpty.string_of_uint int_digits Pos.of_uint_acc];
    [reflexivity | ..];
    (replace (isdigit _) with true by reflexivity);
    rewrite <- IHd; f_equal;
    match goal with
    | |- context [digit_val ?c] =>
        let v := eval vm_compute in (digit_val c) in
        change (digit_val c) with v
    end; lia.
Qed.

Lemma int_digits_uint (d : Decimal.uint) :
  int_digits 0 true (NilEmpty.string_of_uint d)
  = Some (Z.of_N (Pos.of_uint d)).
Proof.
  induction d; cbn [NilEmpty.string_of_uint int_digits Pos.of_uint];
    [reflexivity | ..];
    (replace (isdigit _) with true by reflexivity);
    try exact IHd;
    match goal with
    | |- context [digit_val ?c] =>
        let v := eval vm_compute in (digit_val c) in
        change (digit_val c) with v
    end; cbn [Z.mul Z.add Z.of_N]; apply int_digits_acc.
Qed.

Lemma int_digits_first (d : Decimal.uint) (b : bool) :
  d <> Decimal.Nil ->
  int_digits 0 b (NilEmpty.string_of_uint d)
  = int_digits 0 true (NilEmpty.string_of_uint d).
Proof.
  destruct d; [congruence | ..]; reflexivity.
Qed.

Lemma isdigit_not_space (c : ascii) :
  isdigit c = true -> negb (isspace c) = true.
Proof.
  unfold isdigit, isspace. set (n := nat_of_ascii c). intros H.
  apply andb_true_iff in H. destruct H as [H1 H2].
  apply Nat.leb_le in H1, H2. apply negb_true_iff.
  repeat (apply orb_false_iff; split);
    try (apply andb_false_iff);
    try (apply Nat.eqb_neq; lia).
  - right. apply Nat.leb_gt. lia.
  - right. apply Nat.leb_gt. lia.
Qed.

Lemma spaceless_uint (d : Decimal.uint) :
  spaceless (NilEmpty.string_of_uint d) = true.
Proof.
  eapply all_chars_impl; [apply isdigit_not_space | apply digits_uint].
Qed.

Lemma spaceless_nilzero (d : Decimal.uint) :
  spaceless (NilZero.string_of_uint d) = true.
Proof.
  unfold NilZero.string_of_uint.
  destruct d; try reflexivity; apply (spaceless_uint (_ d)).
Qed.

Lemma int_digits_nilzero (d : Decimal.uint) :
  int_digits 0 false (NilZero.string_of_uint d) = Some (Z.of_uint d).
Proof.
  unfold NilZero.string_of_uint, Z.of_uint.
  destruct d; try reflexivity;
    rewrite int_digits_first by discriminate; apply int_digits_uint.
Qed.

Lemma isdigit_not_int_space (c : ascii) :
  isdigit c = true -> negb (int_space c) = true.
Proof.
  unfold isdigit, int_space. set (n := nat_of_ascii c). intros H.
  apply andb_true_iff in H. destruct H as [H1 H2].
  apply Nat.leb_le in H1, H2. apply negb_true_iff.
  repeat (apply orb_false_iff; split);
    try (apply andb_false_iff);
    try (apply Nat.eqb_neq; lia).
  right. apply Nat.leb_gt. lia.
Qed.

Lemma rstrip_by_none (p : ascii -> bool) (s : string) :
  all_chars (fun c => negb (p c)) s = true -> rstrip_by p s = s.
Proof.
  induction s as [|c s IH]; [reflexivity|].
  cbn [all_chars rstrip_by]. intros H. apply andb_true_iff in H.
  destruct H as [Hc Hs]. rewrite (IH Hs). apply negb_true_iff in Hc.
  destruct s; [now rewrite Hc | reflexivity].
Qed.

Lemma lstrip_by_first (p : ascii -> bool) (c : ascii) (s : string) :
  p c = false -> lstrip_by p (String c s) = String c s.
Proof. intros H. cbn. now rewrite H. Qed.

Lemma ndigits_all (s : string) :
  all_chars isdigit s = true -> ndigits s = String.length s.
Proof.
  induction s as [|c s IH]; [reflexivity|]. cbn [all_chars ndigits].
  intros H. apply andb_true_iff in H. destruct H as [-> Hs].
  cbn [String.length]. now rewrite IH.
Qed.

Lemma digits_nilzero (d : Decimal.uint) :
  all_chars isdigit (NilZero.string_of_uint d) = true.
Proof.
  unfold NilZero.string_of_uint.
  destruct d; try reflexivity; apply (digits_uint (_ d)).
Qed.

Lemma nilzero_not_space (d : Decimal.uint) :
  all_chars (fun c => negb (int_space c)) (NilZero.string_of_uint d) = true.
Proof.
  eapply all_chars_impl; [apply isdigit_not_int_space | apply digits_nilzero].
Qed.

Lemma int_body_nilzero (d : Decimal.uint) :
  String.length (NilZero.string_of_uint d) <= int_max_str_digits ->
  int_body (NilZero.string_of_uint d) = Some (Z.of_uint d).
Proof.
  intros H. unfold int_body.
  rewrite (ndigits_all _ (digits_nilzero d)).
  destruct (Nat.ltb_spec int_max_str_digits
              (String.length (NilZero.string_of_uint d))); [lia|].
  apply int_digits_nilzero.
Qed.

Lemma int_strip_nilzero (d : Decimal.uint) :
  lstrip_by int_space (rstrip_by int_space (NilZero.string_of_uint d))
  = NilZero.string_of_uint d.
Proof.
  rewrite (rstrip_by_none _ _ (nilzero_not_space d)).
  pose proof (nilzero_not_space d) as H.
  destruct (NilZero.string_of_uint d) as [|c s]; [reflexivity|].
  cbn [all_chars] in H. apply andb_true_iff in H. destruct H as [Hc _].
  apply negb_true_iff in Hc. now apply lstrip_by_first.
Qed.

Lemma int_opt_uint (d : Decimal.uint) :
  String.length (NilZero.string_of_uint d) <= int_max_str_digits ->
  int_opt (NilZero.string_of_uint d) = Some (Z.of_uint d).
Proof.
  intros H. unfold int_opt. rewrite int_strip_nilzero.
  rewrite <- (int_body_nilzero d H).
  unfold NilZero.string_of_uint. destruct d; reflexivity.
Qed.

Lemma int_opt_neg_uint (d : Decimal.uint) :
  String.length (NilZero.string_of_uint d) <= int_max_str_digits ->
  int_opt (String "-" (NilZero.string_of_uint d)) = Some (- Z.of_uint d)%Z.
Proof.
  intros H. unfold int_opt.
  assert (Hs : lstrip_by int_space
                 (rstrip_by int_space (String "-" (NilZero.string_of_uint d)))
               = String "-" (NilZero.string_of_uint d)).
  { rewrite rstrip_by_none.
    - now apply lstrip_by_first.
    - cbn [all_chars]. apply andb_true_iff.
      split; [reflexivity | apply nilzero_not_space]. }
  rewrite Hs, (int_body_nilzero d H). reflexivity.
Qed.

(** The digits of the text of [Z.abs z] are those of [Z.to_int z]. *)
Lemma str_int_abs (z : Z) :
  str_int (Z.abs z)
  = NilZero.string_of_uint
      (match Z.to_int z with Decimal.Pos d | Decimal.Neg d => d end).
Proof. destruct z; reflexivity. Qed.

(** Within the digit limit, [int] reads the text of an integer back. *)
Lemma int_str_int (z : Z) :
  within_digit_limit z = true -> int (str_int z) = Ok z.
Proof.
  unfold within_digit_limit. rewrite str_int_abs. intros Hlim.
  apply Nat.leb_le in Hlim. unfold int.
  assert (H : int_opt (str_int z) = Some z); [|now rewrite H].
  rewrite <- (DecimalZ.of_to z) at 2. unfold str_int.
  destruct (Z.to_int z) as [d|d]; cbn [NilZero.string_of_int Z.of_int].
  - now apply int_opt_uint.
  - now apply int_opt_neg_uint.
Qed.

Lemma remove_char_list (c : ascii) (s : string) :
  list_ascii_of_string (remove_char c s)
  = filter (fun d => negb (Ascii.eqb d c)) (list_ascii_of_string s).
Proof.
  induction s as [|d s IH]; cbn; [reflexivity|].
  destruct (Ascii.eqb d c); cbn; now rewrite IH.
Qed.

Lemma remove_char_of_list (c : ascii) (l : list ascii) :
  remove_char c (string_of_list_ascii l)
  = string_of_list_ascii (filter (fun d => negb (Ascii.eqb d c)) l).
Proof.
  rewrite <- (string_of_list_ascii_of_string
                (remove_char c (string_of_list_ascii l))).
  now rewrite remove_char_list, list_ascii_of_string_of_list_ascii.
Qed.

Lemma filter_group3 (p : ascii -> bool) (n : nat) :
  p ","%char = false ->
  forall l, List.length l <= n -> filter p (group3 l) = filter p l.
Proof.
  intros Hcomma. induction n as [|n IH]; intros l Hlen.
  - destruct l; [reflexivity | cbn in Hlen; lia].
  - destruct l as [|a [|b [|c [|d rest]]]]; try reflexivity.
    rewrite group3_step. cbn [filter]. rewrite Hcomma.
    rewrite IH by (cbn in *; lia). reflexivity.
Qed.

Lemma filter_all {A : Type} (p : A -> bool) (l : list A) :
  forallb p l = true -> filter p l = l.
Proof.
  induction l as [|x l IH]; cbn; [reflexivity|].
  intros H. apply andb_true_iff in H. destruct H as [Hx Hl].
  now rewrite Hx, IH.
Qed.

Lemma remove_commas_commas (digits : string) :
  all_chars isdigit digits = true ->
  remove_char "," (commas digits) = digits.
Proof.
  intros H. unfold commas. rewrite remove_char_of_list, filter_rev.
  rewrite (filter_group3 _ (List.length (rev (list_ascii_of_string digits))))
    by (reflexivity || lia).
  rewrite <- filter_rev, rev_involutive, filter_all.
  - apply string_of_list_ascii_of_string.
  - rewrite <- all_chars_list. eapply all_chars_impl; [|exact H].
    intros c Hc. apply negb_true_iff.
    destruct (Ascii.eqb c ",") eqn:E; [|reflexivity].
    apply Ascii.eqb_eq in E. subst c. discriminate.
Qed.

Lemma fmt_int_without_commas (z : Z) :
  remove_char "," (fmt_int z) = str_int z.
Proof.
  unfold fmt_int, str_int. destruct z as [|p|p]; cbn [Z.ltb Z.compare Z.opp].
  - reflexivity.
  - apply remove_commas_commas. apply digits_nilzero.
  - cbn [append remove_char]. change (Ascii.eqb "-" ",") with false.
    cbn iota. cbn [Z.to_int NilZero.string_of_int].
    f_equal. apply remove_commas_commas. apply digits_nilzero.
Qed.

(* ------------------------------------------------------------------ *)
(** ** The large-hash table, rendered *)
(* ------------------------------------------------------------------ *)

Lemma str_app_nil_r (s : string) : s ++ "" = s.
Proof. induction s as [|c s IH]; cbn; [reflexivity | now rewrite IH]. Qed.

Lemma concat_map_cons {A : Type} (f : A -> string) (x : A) (xs : list A) :
  concat_map f (x :: xs) = f x ++ concat_map f xs.
Proof.
  unfold concat_map. destruct xs as [|y xs]; cbn [map String.concat].
  - now rewrite str_app_nil_r.
  - reflexivity.
Qed.

Lemma concat_mapM_ok {A : Type} (f : A -> result string) (g : A -> string)
    (xs : list A) :
  (forall x text, f x = Ok text -> text = g x) ->
  forall html, concat_mapM f xs = Ok html -> html = concat_map g xs.
Proof.
  intros Hf. induction xs as [|x xs IH]; intros html H;
    cbn [concat_mapM] in H.
  - apply Ok_inj in H. now subst html.
  - bind_inv H. apply Ok_inj in H. subst html. rewrite concat_map_cons.
    f_equal; [eapply Hf; eassumption | now apply IH].
Qed.

Lemma digit_not_special (c : ascii) :
  isdigit c = true -> negb (is_special c) = true.
Proof.
  intros H. apply negb_true_iff. unfold is_special, is_markup.
  repeat match goal with
  | |- context [Ascii.eqb c ?x] =>
      let E := fresh "E" in
      destruct (Ascii.eqb c x) eqn:E;
      [apply Ascii.eqb_eq in E; subst c; discriminate H|]
  end.
  reflexivity.
Qed.

Lemma plain_str_int (z : Z) : plain (str_int z) = true.
Proof.
  assert (Hd : forall d, plain (NilZero.string_of_uint d) = true).
  { intros d. eapply all_chars_impl; [apply digit_not_special|].
    apply digits_nilzero. }
  unfold str_int. destruct (Z.to_int z) as [d|d]; cbn [NilZero.string_of_int].
  - apply Hd.
  - unfold plain. cbn [all_chars]. apply (Hd d).
Qed.

Lemma escape_plain (s : string) : plain s = true -> escape s = s.
Proof.
  unfold plain. induction s as [|c s IH]; [reflexivity|].
  cbn [all_chars escape]. intros H. apply andb_true_iff in H.
  destruct H as [Hc Hs]. rewrite (IH Hs). clear IH Hs.
  apply negb_true_iff in Hc. unfold is_special, is_markup in Hc.
  unfold escape_char.
  destruct (Ascii.eqb c "&"); [discriminate|].
  destruct (Ascii.eqb c "<"); [discriminate|].
  destruct (Ascii.eqb c ">"); [discriminate|].
  destruct (Ascii.eqb c DQ); [discriminate|].
  destruct (Ascii.eqb c "'"); [discriminate|].
  reflexivity.
Qed.

Lemma hash_row_html_ok (r : hash_row) (html : string) :
  hash_row_html r = Ok html -> html = hash_table_row r.
Proof.
  unfold hash_row_html. intros H. bind_inv H. apply Ok_inj in H. subst html.
  match goal with E : _esc_int _ = Ok _ |- _ =>
    apply esc_int_ok in E; subst end.
  unfold hash_table_row, _esc. now rewrite (escape_plain _ (plain_str_int _)).
Qed.

Lemma nodup_length_le {A : Type} (dec : forall x y : A, {x = y} + {x <> y})
    (l : list A) :
  List.length (nodup dec l) <= List.length l.
Proof.
  induction l as [|x l IH]; cbn [nodup List.length]; [lia|].
  destruct (in_dec dec x l); cbn [List.length]; lia.
Qed.

Lemma section_study_summary_ok (counts : list count_row)
    (large : list hash_row) (section : string) :
  _section_study_summary counts large = Ok section ->
  exists total hashes_html,
    total_files counts = Ok total
    /\ large_hashes_html large = Ok hashes_html
    /\ section
       = "<h2>Study Summary</h2>" ++ counts_part counts total ++ hashes_html.
Proof.
  unfold _section_study_summary, counts_part, total_files. intros H.
  unfold bind at 1 in H. destruct counts as [|r rows].
  - bind_inv H. apply Ok_inj in H. subst section.
    exists 0%Z. eexists. split; [reflexivity|]. split; reflexivity.
  - bind_inv H. apply Ok_inj in H. subst section.
    match goal with E : format_of_int _ = Ok _ |- _ =>
      apply format_of_int_ok in E; subst end.
    eexists. eexists. split; [reflexivity|]. split; reflexivity.
Qed.

Lemma hash_row_html_limit (r : hash_row) :
  within_digit_limit (count r) = true ->
  hash_row_html r = Ok (hash_table_row r).
Proof.
  intros H. unfold hash_row_html, _esc_int, str_of_int. rewrite H.
  cbn [bind]. unfold hash_table_row, _esc.
  now rewrite (escape_plain _ (plain_str_int _)).
Qed.

Lemma concat_mapM_all {A : Type} (f : A -> result string) (g : A -> string)
    (xs : list A) :
  Forall (fun x => f x = Ok (g x)) xs ->
  concat_mapM f xs = Ok (concat_map g xs).
Proof.
  induction 1 as [|x xs Hx _ IH]; [reflexivity|].
  cbn [concat_mapM]. rewrite Hx, IH. cbn [bind].
  now rewrite concat_map_cons.
Qed.

Lemma hash_rows_limit (rows : list hash_row) :
  printable (map count rows) ->
  concat_mapM hash_row_html rows = Ok (concat_map hash_table_row rows).
Proof.
  intros H. apply concat_mapM_all. unfold printable in H.
  rewrite Forall_map in H. revert H. apply Forall_impl.
  intros r. apply hash_row_html_limit.
Qed.

Lemma large_hashes_top_ten (large_priv : list hash_row) :
  display_limit < List.length large_priv ->
  printable (sum_counts large_priv :: map count (shown_hashes large_priv)) ->
  large_hashes_html large_priv = Ok (top_ten_text large_priv).
Proof.
  intros Hlen Hp. unfold printable in Hp. apply Forall_cons_iff in Hp.
  destruct Hp as [Hsum Hrows]. unfold large_hashes_html.
  destruct large_priv as [|r rows]; [cbn in Hlen; lia|].
  unfold format_of_int. rewrite Hsum. cbn [bind].
  rewrite (hash_rows_limit _ Hrows). cbn [bind].
  unfold hash_note, top_ten_text, shown_hashes.
  apply Nat.ltb_lt in Hlen. rewrite Hlen.
  rewrite !str_app_assoc. reflexivity.
Qed.

(* ------------------------------------------------------------------ *)
(** ** The markup of the document *)
(* ------------------------------------------------------------------ *)

Lemma read_app (a b : string) (r : reading) :
  read r (a ++ b) = read (read r a) b.
Proof.
  revert r. induction a as [|c a IH]; intros r; cbn; [reflexivity | apply IH].
Qed.

Lemma read_broken (s : string) : read Broken s = Broken.
Proof. induction s; cbn; auto. Qed.

(** A reading that ends outside a tag saw only the renderer's tags. *)
Lemma read_sound (s : string) :
  forall r, read r s = Outside ->
  match r with
  | Outside => forall cur, forallb template_token (lex_from false cur s) = true
  | Inside body => forallb template_token (lex_from true body s) = true
  | Broken => False
  end.
Proof.
  induction s as [|c s IH]; intros r H.
  - cbn in H. subst r. intros cur. now destruct cur.
  - cbn [read] in H. specialize (IH _ H).
    destruct r as [|body|]; cbn [read_char] in IH.
    + intros cur. cbn [lex_from]. destruct (Ascii.eqb c "<").
      * rewrite forallb_app. rewrite IH. now destruct cur.
      * apply IH.
    + cbn [lex_from]. destruct (Ascii.eqb c ">"); [|exact IH].
      destruct (is_template body) eqn:E; [|contradiction].
      cbn [forallb template_token]. rewrite E. apply IH.
    + rewrite read_broken in H. discriminate.
Qed.

Lemma well_tagged_template_only (s : string) :
  well_tagged s -> template_only s = true.
Proof. intros H. exact (read_sound s Outside H ""). Qed.

Lemma well_tagged_app (a b : string) :
  well_tagged a -> well_tagged b -> well_tagged (a ++ b).
Proof. unfold well_tagged. intros Ha Hb. now rewrite read_app, Ha. Qed.

Lemma no_lt_well_tagged (s : string) : no_lt s = true -> well_tagged s.
Proof.
  unfold no_lt, well_tagged. induction s as [|c s IH]; cbn; [reflexivity|].
  intros H. apply andb_true_iff in H. destruct H as [Hc Hs].
  apply negb_true_iff in Hc. rewrite Hc. now apply IH.
Qed.

Lemma well_tagged_esc (text : string) : well_tagged (_esc text).
Proof. apply no_lt_well_tagged, markup_free_no_lt, escape_markup_free. Qed.

Lemma well_tagged_fmt_int (z : Z) : well_tagged (fmt_int z).
Proof. apply no_lt_well_tagged, no_lt_fmt_int. Qed.

Lemma well_tagged_fmt_nat (n : nat) : well_tagged (fmt_nat n).
Proof. apply well_tagged_fmt_int. Qed.

Lemma well_tagged_str_int (z : Z) : well_tagged (str_int z).
Proof. apply no_lt_well_tagged, no_lt_str_int. Qed.

Lemma well_tagged_str_nat (n : nat) : well_tagged (str_nat n).
Proof. apply well_tagged_str_int. Qed.

Lemma well_tagged_format_of_int (z : Z) (text : string) :
  format_of_int z = Ok text -> well_tagged text.
Proof.
  intros H. rewrite (format_of_int_ok _ _ H). apply well_tagged_fmt_int.
Qed.

Lemma well_tagged_concat_map {A : Type} (f : A -> string) (xs : list A) :
  (forall x, well_tagged (f x)) -> well_tagged (concat_map f xs).
Proof.
  intros Hf. induction xs as [|x xs IH]; [reflexivity|].
  rewrite concat_map_cons. apply well_tagged_app; [apply Hf | exact IH].
Qed.

Lemma well_tagged_join (sep : string) (xs : list string) :
  well_tagged sep -> Forall well_tagged xs -> well_tagged (join sep xs).
Proof.
  intros Hsep Hxs. induction Hxs as [|x xs Hx Hxs IH]; [reflexivity|].
  cbn [join]. destruct xs as [|y xs]; [exact Hx|].
  apply well_tagged_app; [exact Hx|].
  apply well_tagged_app; [exact Hsep | exact IH].
Qed.

Lemma Forall_map_well_tagged {A : Type} (f : A -> string) (xs : list A) :
  (forall x, well_tagged (f x)) -> Forall well_tagged (map f xs).
Proof. intros Hf. induction xs; cbn; constructor; auto. Qed.

Create HintDb tagdb.

#[local] Hint Resolve well_tagged_esc well_tagged_fmt_int well_tagged_fmt_nat
  well_tagged_str_int well_tagged_str_nat : tagdb.

(** Splits a text along its concatenations and branches into pieces that
    are well tagged: a piece that ends inside a tag is taken together with
    the piece that follows it. *)
Ltac tagged_atom :=
  solve [ assumption | auto with tagdb | apply well_tagged_esc
        | apply well_tagged_concat_map; intros; auto with tagdb
        | apply well_tagged_join;
          [ vm_compute; reflexivity
          | apply Forall_map_well_tagged; intros; auto with tagdb ]
        | vm_compute; reflexivity ].

Ltac tagged_tac :=
  repeat match goal with
  | |- well_tagged (concat_map _ _) => apply well_tagged_concat_map; intros
  | |- well_tagged (join _ _) => apply well_tagged_join
  | |- Forall well_tagged (map _ _) => apply Forall_map_well_tagged; intros
  | |- well_tagged (if ?b then _ else _) => destruct b
  | |- well_tagged (match ?l with nil => _ | cons _ _ => _ end) => destruct l
  | |- well_tagged (?a ++ ?b) =>
      first [ apply well_tagged_app; [tagged_atom|]
            | match b with
              | ?b1 ++ ?b2 => rewrite <- (str_app_assoc a b1 b2)
              end ]
  | |- well_tagged _ => tagged_atom
  end.

Lemma well_tagged_value_html (v : string) : well_tagged (value_html v).
Proof. unfold value_html. tagged_tac. Qed.
#[local] Hint Resolve well_tagged_value_html : tagdb.

Lemma well_tagged_value_div (v : string) : well_tagged (value_div v).
Proof. unfold value_div. tagged_tac. Qed.
#[local] Hint Resolve well_tagged_value_div : tagdb.

Lemma well_tagged_tag_row (tag_hex keyword vr : string)
    (values : list string) :
  well_tagged (_tag_row_html tag_hex keyword vr values).
Proof.
  unfold _tag_row_html. cbv zeta.
  destruct values; rewrite ?str_app_assoc; tagged_tac.
Qed.
#[local] Hint Resolve well_tagged_tag_row : tagdb.

Lemma well_tagged_details (summary content : string) (open_default : bool) :
  well_tagged content -> well_tagged (_details summary content open_default).
Proof.
  intros H. unfold _details. cbv zeta.
  destruct open_default; rewrite ?str_app_assoc; tagged_tac.
Qed.

Lemma well_tagged_phi_tag (std : OD.t std_entry) (ref : string * string) :
  well_tagged (phi_tag_html std ref).
Proof. destruct ref. unfold phi_tag_html. tagged_tac. Qed.
#[local] Hint Resolve well_tagged_phi_tag : tagdb.

Lemma well_tagged_phi_group (std : OD.t std_entry)
    (group : string * list (string * string)) :
  well_tagged (phi_group_html std group).
Proof.
  destruct group. unfold phi_group_html. apply well_tagged_details.
  tagged_tac.
Qed.
#[local] Hint Resolve well_tagged_phi_group : tagdb.

Lemma well_tagged_dt_row (item : string * list string) :
  well_tagged (dt_row_html item).
Proof.
  destruct item as [key values]. unfold dt_row_html.
  destruct values; rewrite ?str_app_assoc; tagged_tac.
Qed.
#[local] Hint Resolve well_tagged_dt_row : tagdb.

Lemma well_tagged_section_phi_review (std : OD.t std_entry)
    (dt : OD.t (list string)) :
  well_tagged (_section_phi_review std dt).
Proof.
  unfold _section_phi_review.
  apply well_tagged_app; [reflexivity|].
  apply well_tagged_app; [tagged_tac|].
  apply well_tagged_details. tagged_tac.
Qed.
#[local] Hint Resolve well_tagged_section_phi_review : tagdb.

Lemma well_tagged_metric (item : string * string) :
  well_tagged (metric_html item).
Proof.
  destruct item. unfold metric_html. rewrite ?str_app_assoc. tagged_tac.
Qed.
#[local] Hint Resolve well_tagged_metric : tagdb.

Lemma well_tagged_code (s : string) : well_tagged (code_html s).
Proof. unfold code_html. tagged_tac. Qed.
#[local] Hint Resolve well_tagged_code : tagdb.

Lemma well_tagged_summary_part (n : Z) (label : string) (part : list string) :
  well_tagged label -> summary_part n label = Ok part ->
  Forall well_tagged part.
Proof.
  intros Hl. unfold summary_part. destruct (n =? 0)%Z; intros H.
  - apply Ok_inj in H. subst part. constructor.
  - bind_inv H. apply Ok_inj in H. subst part.
    constructor; [|constructor].
    apply well_tagged_app;
      [eapply well_tagged_format_of_int; eassumption | exact Hl].
Qed.

Lemma well_tagged_summary_line (summary : OD.t Z) (html : string) :
  summary_line summary = Ok html -> well_tagged html.
Proof.
  unfold summary_line. cbv zeta. intros H. bind_inv H.
  apply Ok_inj in H. subst html.
  assert (Hparts : forall parts, Forall well_tagged parts ->
            well_tagged ("<p style=" ++ q "color:#888; font-size:0.9em;"
                         ++ ">" ++ join " &bull; " parts ++ "</p>")).
  { intros parts Hparts. rewrite ?str_app_assoc.
    assert (well_tagged (join " &bull; " parts))
      by (apply well_tagged_join; [reflexivity | exact Hparts]).
    tagged_tac. }
  apply Hparts.
  repeat match goal with
  | |- Forall well_tagged (List.app _ _) => apply Forall_app; split
  | |- Forall well_tagged [_] => constructor; [|constructor]
  | H : summary_part _ _ = Ok ?part |- Forall well_tagged ?part =>
      eapply well_tagged_summary_part; [|exact H]; reflexivity
  end.
  apply well_tagged_app;
    [eapply well_tagged_format_of_int; eassumption | reflexivity].
Qed.

Lemma well_tagged_section_overview (std : OD.t std_entry)
    (priv : OD.t (list string)) (sop studies modalities : list string)
    (total : Z) (summary : option (OD.t Z)) (html : string) :
  _section_overview std priv sop studies modalities total summary = Ok html ->
  well_tagged html.
Proof.
  unfold _section_overview. intros H. bind_inv H.
  apply Ok_inj in H. subst html.
  match goal with E : format_of_int _ = Ok ?t |- _ => clear E end.
  match goal with E : _ = Ok ?t |- _ =>
    assert (Hs : well_tagged t)
      by (destruct summary as [[|entry summary]|];
          try (apply Ok_inj in E; subst; reflexivity);
          destruct (0 <? summary_get (entry :: summary) "total_files")%Z;
          [ eapply well_tagged_summary_line; exact E
          | apply Ok_inj in E; subst; reflexivity ]);
    clear E
  end.
  destruct modalities; destruct sop; rewrite ?str_app_assoc; tagged_tac.
Qed.

Lemma well_tagged_std_row (item : string * std_entry) :
  well_tagged (std_row_html item).
Proof. destruct item. unfold std_row_html. tagged_tac. Qed.

Lemma well_tagged_priv_row (item : string * list string) :
  well_tagged (priv_row_html item).
Proof.
  destruct item as [key values]. unfold priv_row_html. cbv zeta.
  destruct values; rewrite ?str_app_assoc; tagged_tac.
Qed.

Lemma well_tagged_seq_row (item : string * list string) :
  well_tagged (seq_row_html item).
Proof.
  destruct item as [key values]. unfold seq_row_html.
  destruct values; rewrite ?str_app_assoc; tagged_tac.
Qed.
#[local] Hint Resolve well_tagged_std_row well_tagged_priv_row
  well_tagged_seq_row : tagdb.

Lemma well_tagged_section_tag_explorer (std : OD.t std_entry)
    (priv sseq pseq : OD.t (list string)) :
  well_tagged (_section_tag_explorer std priv sseq pseq).
Proof.
  unfold _section_tag_explorer. cbv zeta.
  repeat first [ apply well_tagged_details | apply well_tagged_app ];
    tagged_tac.
Qed.
#[local] Hint Resolve well_tagged_section_tag_explorer : tagdb.

Lemma well_tagged_count_row (r : count_row) : well_tagged (count_row_html r).
Proof. unfold count_row_html. rewrite ?str_app_assoc. tagged_tac. Qed.
#[local] Hint Resolve well_tagged_count_row : tagdb.

Lemma well_tagged_hash_table_row (r : hash_row) :
  well_tagged (hash_table_row r).
Proof. unfold hash_table_row. tagged_tac. Qed.
#[local] Hint Resolve well_tagged_hash_table_row : tagdb.

Lemma well_tagged_hash_note (rows : list hash_row) :
  well_tagged (hash_note rows).
Proof. unfold hash_note. tagged_tac. Qed.
#[local] Hint Resolve well_tagged_hash_note : tagdb.

Lemma large_hashes_html_ok (rows : list hash_row) (html : string) :
  large_hashes_html rows = Ok html ->
  html
  = "<h3>Large Private Elements</h3>"
    ++ match rows with
       | _ :: _ =>
           "<div class=" ++ q "warning-box"
           ++ ">Large private elements detected. These are SHA-256 hashes of private data elements exceeding size thresholds.</div>"
           ++ "<div class=" ++ q "metrics" ++ "><div class=" ++ q "metric"
           ++ "><div class=" ++ q "value" ++ ">"
           ++ fmt_nat (List.length rows)
           ++ "</div><div class=" ++ q "label"
           ++ ">Unique hashes</div></div>"
           ++ "<div class=" ++ q "metric" ++ "><div class=" ++ q "value"
           ++ ">" ++ fmt_int (sum_counts rows)
           ++ "</div><div class=" ++ q "label"
           ++ ">Total occurrences</div></div></div>"
           ++ "<div class=" ++ q "table-scroll"
           ++ "><table><tr><th>SHA-256 Hash</th><th>Occurrences</th></tr>"
           ++ concat_map hash_table_row (shown_hashes rows)
           ++ "</table></div>"
           ++ hash_note rows
       | [] =>
           "<div class=" ++ q "success-box"
           ++ ">No large private elements detected</div>"
       end.
Proof.
  unfold large_hashes_html. destruct rows as [|r rows]; intros H.
  - apply Ok_inj in H. now subst html.
  - bind_inv H. apply Ok_inj in H. subst html.
    match goal with E : format_of_int _ = Ok _ |- _ =>
      apply format_of_int_ok in E; subst end.
    match goal with E : concat_mapM _ _ = Ok _ |- _ =>
      apply (concat_mapM_ok _ hash_table_row _ hash_row_html_ok) in E;
      subst end.
    rewrite !str_app_assoc. reflexivity.
Qed.

Lemma well_tagged_large_hashes (rows : list hash_row) (html : string) :
  large_hashes_html rows = Ok html -> well_tagged html.
Proof.
  intros H. rewrite (large_hashes_html_ok _ _ H).
  destruct rows; rewrite ?str_app_assoc; tagged_tac.
Qed.

Lemma well_tagged_counts_part (counts : list count_row) (total : Z) :
  well_tagged (counts_part counts total).
Proof.
  unfold counts_part. destruct counts; rewrite ?str_app_assoc; tagged_tac.
Qed.
#[local] Hint Resolve well_tagged_counts_part : tagdb.

Lemma well_tagged_section_study_summary (rows : list count_row)
    (hashes : list hash_row) (html : string) :
  _section_study_summary rows hashes = Ok html -> well_tagged html.
Proof.
  intros H.
  destruct (section_study_summary_ok _ _ _ H) as [total [h [_ [Hh ->]]]].
  apply well_tagged_large_hashes in Hh. tagged_tac.
Qed.

Lemma well_tagged_section_private_creators
    (creators : list (string * string)) :
  well_tagged (_section_private_creators creators).
Proof.
  unfold _section_private_creators.
  assert (forall c, well_tagged (creator_row_html c))
    by (intros c; unfold creator_row_html; tagged_tac).
  destruct creators; rewrite ?str_app_assoc; tagged_tac.
Qed.
#[local] Hint Resolve well_tagged_section_private_creators : tagdb.

Lemma well_tagged_CSS : well_tagged _CSS.
Proof. vm_compute. reflexivity. Qed.
#[local] Hint Resolve well_tagged_CSS : tagdb.

Lemma well_tagged_render_report (d : report_data)
    (project_name timestamp doc : string) :
  render_report d project_name timestamp = Ok doc -> well_tagged doc.
Proof.
  unfold render_report. cbv zeta. intros H. bind_inv H.
  apply Ok_inj in H. subst doc.
  match goal with E : _section_study_summary _ _ = Ok _ |- _ =>
    rename E into Hs; apply well_tagged_section_study_summary in Hs end.
  match goal with E : _section_overview _ _ _ _ _ _ _ = Ok _ |- _ =>
    apply well_tagged_section_overview in E end.
  match goal with E : format_of_int _ = Ok _ |- _ =>
    apply well_tagged_format_of_int in E end.
  generalize (_esc (if nonempty project_name
                    then "PHI Report " ++ em_dash ++ " " ++ project_name
                    else "PHI Report")), (well_tagged_esc
                   (if nonempty project_name
                    then "PHI Report " ++ em_dash ++ " " ++ project_name
                    else "PHI Report")).
  intros title Htitle.
  destruct (nonempty project_name); rewrite ?str_app_assoc; tagged_tac.
Qed.

(** *** The tokens of a tag row and of the PHI review *)

Lemma snoc_app (cur : string) (c : ascii) (t : string) :
  snoc cur c ++ t = cur ++ String c t.
Proof. unfold snoc. now rewrite str_app_assoc. Qed.

Lemma lex_from_text (t : string) :
  no_lt t = true ->
  forall cur rest,
    lex_from false cur (t ++ rest) = lex_from false (cur ++ t) rest.
Proof.
  unfold no_lt. induction t as [|c t IH]; intros H cur rest.
  - now rewrite str_app_nil_r.
  - cbn [all_chars] in H. apply andb_true_iff in H. destruct H as [Hc Ht].
    apply negb_true_iff in Hc. cbn [append lex_from]. rewrite Hc.
    now rewrite (IH Ht), snoc_app.
Qed.

Lemma no_lt_escape (s : string) : no_lt (escape s) = true.
Proof. apply markup_free_no_lt, escape_markup_free. Qed.

Lemma no_lt_shown_value (v : string) : no_lt (shown_value v) = true.
Proof.
  unfold shown_value. destruct (nonempty (strip v));
    [apply no_lt_escape | reflexivity].
Qed.

Lemma no_lt_join (sep : string) (xs : list string) :
  no_lt sep = true -> Forall (fun x => no_lt x = true) xs ->
  no_lt (join sep xs) = true.
Proof.
  intros Hsep Hxs. induction Hxs as [|x xs Hx Hxs IH]; [reflexivity|].
  cbn [join]. destruct xs as [|y xs]; [exact Hx|].
  unfold no_lt in *. now rewrite !all_chars_app, Hx, Hsep, IH.
Qed.

Lemma escape_nonempty (c : ascii) (s : string) :
  nonempty (escape (String c s)) = true.
Proof.
  cbn [escape]. unfold escape_char.
  repeat match goal with
  | |- context [if ?b then _ else _] => destruct b
  end; reflexivity.
Qed.

Lemma shown_value_nonempty (v : string) : nonempty (shown_value v) = true.
Proof.
  unfold shown_value. destruct v as [|c v]; [reflexivity|].
  destruct (nonempty (strip (String c v))); [apply escape_nonempty|].
  reflexivity.
Qed.

Lemma text_token_nonempty (s : string) :
  nonempty s = true -> text_token s = [Text s].
Proof. destruct s; [discriminate | reflexivity]. Qed.

Lemma nonempty_app_l (a b : string) :
  nonempty a = true -> nonempty (a ++ b) = true.
Proof. destruct a; [discriminate | reflexivity]. Qed.

Lemma lexes_lex (s : string) (toks : list token) :
  lexes s toks -> lex s = toks.
Proof.
  intros H. specialize (H ""). rewrite str_app_nil_r in H.
  unfold lex. rewrite H. cbn [lex_from text_token]. apply app_nil_r.
Qed.

Lemma lexes_nil : lexes "" [].
Proof. intros rest. reflexivity. Qed.

Lemma lexes_app (a b : string) (ta tb : list token) :
  lexes a ta -> lexes b tb -> lexes (a ++ b) (ta ++ tb).
Proof.
  intros Ha Hb rest. now rewrite str_app_assoc, Ha, Hb, app_assoc.
Qed.

Lemma lexes_concat_map {A : Type} (f : A -> string) (g : A -> list token)
    (xs : list A) :
  (forall x, lexes (f x) (g x)) -> lexes (concat_map f xs) (flat_map g xs).
Proof.
  intros Hf. induction xs as [|x xs IH]; [apply lexes_nil|].
  rewrite concat_map_cons. cbn [flat_map]. apply lexes_app; [apply Hf | exact IH].
Qed.

Lemma text_token_snoc (a : string) (c : ascii) (b : string) :
  text_token (a ++ String c b) = [Text (a ++ String c b)].
Proof. apply text_token_nonempty. destruct a; reflexivity. Qed.

(** Closes an equation of token lists that differ in their grouping. *)
Ltac same_tokens :=
  repeat (rewrite <- ?app_assoc; cbn [List.app]);
  rewrite ?str_app_assoc; reflexivity.

(** Reads on through the literal text, and through the text of a value. *)
Ltac lex_steps :=
  repeat first
    [ progress cbn [lex_from append Ascii.eqb Bool.eqb text_token snoc
                    List.app q dq DQ]
    | rewrite lex_from_text by
        first [ apply no_lt_escape | apply no_lt_shown_value
              | apply no_lt_str_int | assumption ]
    | rewrite text_token_snoc ].

Lemma lexes_value_div (v : string) : lexes (value_div v) (value_tokens v).
Proof.
  intros rest. unfold value_div, value_tokens.
  change (value_html v) with (shown_value v).
  rewrite ?str_app_assoc. lex_steps.
  now rewrite (text_token_nonempty _ (shown_value_nonempty v)).
Qed.

Lemma lexes_tag_row (tag_hex keyword vr : string) (values : list string) :
  lexes (_tag_row_html tag_hex keyword vr values)
        (tag_row_tokens tag_hex keyword vr values).
Proof.
  intros rest. unfold _tag_row_html, tag_row_tokens, _esc. cbv zeta.
  assert (Hn : no_lt (str_nat (List.length values)) = true)
    by apply no_lt_str_int.
  revert Hn. generalize (str_nat (List.length values)). intros n Hn.
  destruct values as [|v values]; rewrite ?str_app_assoc; lex_steps.
  - same_tokens.
  - rewrite (lexes_concat_map _ _ _ lexes_value_div). lex_steps.
    same_tokens.
Qed.

Lemma lexes_details (summary content : string) (open_default : bool)
    (toks : list token) :
  lexes content toks ->
  lexes (_details summary content open_default)
        (details_tokens summary open_default toks).
Proof.
  intros Hc rest. unfold _details, details_tokens, _esc. cbv zeta.
  destruct open_default; rewrite ?str_app_assoc; lex_steps;
    rewrite Hc; lex_steps; same_tokens.
Qed.

Lemma lexes_phi_tag (std : OD.t std_entry) (ref : string * string) :
  lexes (phi_tag_html std ref)
        (tag_row_tokens (fst ref) (snd ref) (vr_of std (fst ref))
                        (values_of std (fst ref))).
Proof. destruct ref. apply lexes_tag_row. Qed.

Lemma lexes_phi_group (std : OD.t std_entry)
    (group : string * list (string * string)) :
  lexes (phi_group_html std group) (phi_group_tokens std group).
Proof.
  destruct group as [name tags]. unfold phi_group_html, phi_group_tokens.
  apply lexes_details. apply lexes_concat_map. intros ref.
  apply lexes_phi_tag.
Qed.

Lemma join_shown_nonempty (v : string) (values : list string) :
  nonempty (join ", " (map shown_value (v :: values))) = true.
Proof.
  cbn [map join]. destruct (map shown_value values);
    [|apply nonempty_app_l]; apply shown_value_nonempty.
Qed.

Lemma no_lt_join_shown (values : list string) :
  no_lt (join ", " (map shown_value values)) = true.
Proof.
  apply no_lt_join; [reflexivity|]. apply Forall_map, Forall_forall.
  intros v _. apply no_lt_shown_value.
Qed.

Lemma lexes_dt_row (item : string * list string) :
  lexes (dt_row_html item) (dt_row_tokens item).
Proof.
  destruct item as [key values]. intros rest.
  unfold dt_row_html, dt_row_tokens, _esc. cbn [fst snd].
  change (map value_html values) with (map shown_value values).
  destruct values as [|v values]; rewrite ?str_app_assoc; lex_steps.
  - same_tokens.
  - rewrite lex_from_text by apply no_lt_join_shown. lex_steps.
    rewrite (text_token_nonempty _ (join_shown_nonempty v values)).
    same_tokens.
Qed.

Lemma lexes_section_phi_review (std : OD.t std_entry)
    (dt : OD.t (list string)) :
  lexes (_section_phi_review std dt) (phi_review_tokens std dt).
Proof.
  unfold _section_phi_review, phi_review_tokens.
  apply (lexes_app "<h2>PHI Review</h2>" _
           [Tag "h2"; Text "PHI Review"; Tag "/h2"]);
    [intros rest; reflexivity|].
  apply lexes_app; [apply lexes_concat_map, lexes_phi_group|].
  apply lexes_details. destruct dt as [|item dt].
  - intros rest. reflexivity.
  - apply lexes_concat_map, lexes_dt_row.
Qed.


(** *** What the document shows *)

Lemma prefix_app (x rest : string) : String.prefix x (x ++ rest) = true.
Proof.
  induction x as [|c x IH]; cbn; [now destruct rest|].
  destruct (ascii_dec c c); [exact IH | contradiction].
Qed.

Lemma prefix_app_l (x a b : string) :
  String.prefix x a = true -> String.prefix x (a ++ b) = true.
Proof.
  revert a. induction x as [|c x IH]; intros a H; [now destruct (a ++ b)|].
  destruct a as [|d a]; [discriminate|]. cbn in H |- *.
  destruct (ascii_dec c d); [now apply IH | discriminate].
Qed.

Lemma contains_prefix (x s : string) :
  String.prefix x s = true -> contains x s = true.
Proof. intros H. destruct s; cbn [contains]; now rewrite H. Qed.

Lemma contains_here (x rest : string) : contains x (x ++ rest) = true.
Proof. apply contains_prefix, prefix_app. Qed.

Lemma contains_refl (x : string) : contains x x = true.
Proof. rewrite <- (str_app_nil_r x) at 2. apply contains_here. Qed.

Lemma contains_app_r (x a b : string) :
  contains x b = true -> contains x (a ++ b) = true.
Proof.
  intros H. induction a as [|c a IH]; [exact H|].
  cbn [append contains]. rewrite IH. apply orb_true_r.
Qed.

Lemma contains_app_l (x a b : string) :
  contains x a = true -> contains x (a ++ b) = true.
Proof.
  induction a as [|c a IH]; intros H.
  - cbn [contains] in H. rewrite orb_false_r in H.
    apply contains_prefix. now apply (prefix_app_l x "" b).
  - cbn [contains] in H. apply orb_true_iff in H. destruct H as [H|H].
    + apply contains_prefix. now apply prefix_app_l.
    + cbn [append contains]. rewrite (IH H). apply orb_true_r.
Qed.

Lemma contains_concat_map {A : Type} (f : A -> string) (xs : list A)
    (x : string) (a : A) :
  In a xs -> contains x (f a) = true -> contains x (concat_map f xs) = true.
Proof.
  intros Hin Hx. induction xs as [|y xs IH]; [contradiction|].
  rewrite concat_map_cons. destruct Hin as [->|Hin].
  - now apply contains_app_l.
  - now apply contains_app_r, IH.
Qed.

Lemma contains_join (sep : string) (xs : list string) (x a : string) :
  In a xs -> contains x a = true -> contains x (join sep xs) = true.
Proof.
  intros Hin Hx. induction xs as [|y xs IH]; [contradiction|].
  cbn [join]. destruct Hin as [->|Hin].
  - destruct xs; [exact Hx | now apply contains_app_l].
  - destruct xs as [|z xs]; [contradiction|].
    now apply contains_app_r, contains_app_r, IH.
Qed.

(** Looks for the text along the concatenations. *)
Ltac shown :=
  solve [ assumption | apply contains_refl | apply contains_here
        | apply contains_app_l; shown | apply contains_app_r; shown ].

Lemma values_shown (values : list string) (x : string) :
  In x (map shown_value values) ->
  contains x (concat_map value_div values) = true.
Proof.
  intros H. apply in_map_iff in H. destruct H as [v [<- Hv]].
  apply (contains_concat_map _ _ _ v Hv). unfold value_div.
  change (value_html v) with (shown_value v). shown.
Qed.

Lemma tag_row_shows (tag_hex keyword vr : string) (values : list string)
    (x : string) :
  In x (escape tag_hex :: escape keyword :: escape vr
        :: map shown_value values) ->
  contains x (_tag_row_html tag_hex keyword vr values) = true.
Proof.
  unfold _tag_row_html, _esc. cbv zeta.
  intros [<-|[<-|[<-|H]]]; try shown.
  destruct values as [|v values]; [contradiction|].
  apply values_shown in H. shown.
Qed.

Lemma details_shows (summary content : string) (open_default : bool)
    (x : string) :
  contains x content = true ->
  contains x (_details summary content open_default) = true.
Proof. intros H. unfold _details. cbv zeta. shown. Qed.

Lemma std_row_shows (item : string * std_entry) (x : string) :
  In x (std_texts item) -> contains x (std_row_html item) = true.
Proof. destruct item. apply tag_row_shows. Qed.

Lemma priv_row_shows (item : string * list string) (x : string) :
  In x (keyed_texts item) -> contains x (priv_row_html item) = true.
Proof.
  destruct item as [key values]. unfold keyed_texts, priv_row_html, _esc.
  cbv zeta. cbn [fst snd]. intros [<-|H]; [shown|].
  destruct values as [|v values]; [contradiction|].
  apply values_shown in H. shown.
Qed.

Lemma seq_row_shows (item : string * list string) (x : string) :
  In x (keyed_texts item) -> contains x (seq_row_html item) = true.
Proof.
  destruct item as [key values]. unfold keyed_texts, seq_row_html, _esc.
  cbn [fst snd]. intros [<-|H]; [shown|].
  destruct values as [|v values]; [contradiction|].
  apply values_shown in H. shown.
Qed.

Lemma dt_row_shows (item : string * list string) (x : string) :
  In x (keyed_texts item) -> contains x (dt_row_html item) = true.
Proof.
  destruct item as [key values]. unfold keyed_texts, dt_row_html, _esc.
  cbn [fst snd]. intros [<-|H]; [shown|].
  destruct values as [|v values]; [contradiction|].
  assert (contains x (join ", " (map value_html (v :: values))) = true)
    by (apply (contains_join _ _ _ x H), contains_refl).
  shown.
Qed.

Lemma rows_shown {A : Type} (f : A -> string) (texts : A -> list string)
    (xs : list A) (x : string) :
  (forall a, In x (texts a) -> contains x (f a) = true) ->
  In x (flat_map texts xs) -> contains x (concat_map f xs) = true.
Proof.
  intros Hf H. apply in_flat_map in H. destruct H as [a [Ha Hx]].
  exact (contains_concat_map _ _ _ a Ha (Hf a Hx)).
Qed.

Lemma section_phi_review_shows (std : OD.t std_entry)
    (dt : OD.t (list string)) (x : string) :
  In x (flat_map keyed_texts dt) ->
  contains x (_section_phi_review std dt) = true.
Proof.
  intros H. unfold _section_phi_review.
  destruct dt as [|item dt]; [contradiction|].
  apply contains_app_r, contains_app_r, details_shows.
  apply (rows_shown _ keyed_texts); [intros a; apply dt_row_shows | exact H].
Qed.

Lemma section_tag_explorer_shows (std : OD.t std_entry)
    (priv sseq pseq : OD.t (list string)) (x : string) :
  In x (flat_map std_texts std ++ flat_map keyed_texts priv
        ++ flat_map keyed_texts (merge_sequences sseq pseq))%list ->
  contains x (_section_tag_explorer std priv sseq pseq) = true.
Proof.
  intros H. unfold _section_tag_explorer. cbv zeta.
  apply in_app_or in H. destruct H as [H|H].
  - apply contains_app_r, contains_app_l, details_shows.
    apply (rows_shown _ std_texts); [intros a; apply std_row_shows | exact H].
  - apply in_app_or in H. destruct H as [H|H].
    + apply contains_app_r, contains_app_r, contains_app_l, details_shows.
      apply (rows_shown _ keyed_texts); [intros a; apply priv_row_shows | exact H].
    + apply contains_app_r, contains_app_r, contains_app_r, details_shows.
      destruct (merge_sequences sseq pseq) as [|item all_seq];
        [contradiction|].
      apply (rows_shown _ keyed_texts); [intros a; apply seq_row_shows | exact H].
Qed.

Lemma section_overview_shows (std : OD.t std_entry)
    (priv : OD.t (list string)) (sop studies modalities : list string)
    (total : Z) (summary : option (OD.t Z)) (html x : string) :
  _section_overview std priv sop studies modalities total summary = Ok html ->
  In x (map escape sop) -> contains x html = true.
Proof.
  unfold _section_overview. intros H Hx. bind_inv H.
  apply Ok_inj in H. subst html.
  destruct sop as [|s sop]; [contradiction|].
  apply in_map_iff in Hx. destruct Hx as [v [<- Hv]].
  assert (contains (escape v) (join ", " (map code_html (s :: sop))) = true).
  { apply (contains_join _ _ _ (code_html v)); [now apply in_map|].
    unfold code_html, _esc. shown. }
  shown.
Qed.

Lemma counts_part_shows (counts : list count_row) (total : Z) (x : string) :
  In x (flat_map count_texts counts) ->
  contains x (counts_part counts total) = true.
Proof.
  intros H. unfold counts_part. destruct counts as [|r counts];
    [contradiction|].
  assert (contains x (concat_map count_row_html (r :: counts)) = true).
  { apply (rows_shown _ count_texts); [|exact H].
    intros a. unfold count_texts, count_row_html, _esc. cbn [map].
    intros [<-|[<-|[<-|[<-|[<-|[]]]]]]; shown. }
  shown.
Qed.

Lemma large_hashes_shows (rows : list hash_row) (html x : string) :
  large_hashes_html rows = Ok html ->
  In x (map (fun r => escape (hash r)) (shown_hashes rows)) ->
  contains x html = true.
Proof.
  intros H Hx. rewrite (large_hashes_html_ok _ _ H).
  destruct rows as [|r rows]; [contradiction|].
  apply in_map_iff in Hx. destruct Hx as [a [<- Ha]].
  assert (contains (escape (hash a))
            (concat_map hash_table_row (shown_hashes (r :: rows))) = true).
  { apply (contains_concat_map _ _ _ a Ha). unfold hash_table_row. shown. }
  shown.
Qed.

Lemma section_study_summary_shows (counts : list count_row)
    (rows : list hash_row) (html x : string) :
  _section_study_summary counts rows = Ok html ->
  In x (flat_map count_texts counts
        ++ map (fun r => escape (hash r)) (shown_hashes rows))%list ->
  contains x html = true.
Proof.
  intros H Hx.
  destruct (section_study_summary_ok _ _ _ H) as [total [h [_ [Hh ->]]]].
  apply in_app_or in Hx. destruct Hx as [Hx|Hx].
  - apply (counts_part_shows _ total) in Hx. shown.
  - apply (large_hashes_shows _ _ _ Hh) in Hx. shown.
Qed.

Lemma section_private_creators_shows (creators : list (string * string))
    (x : string) :
  In x (flat_map creator_texts creators) ->
  contains x (_section_private_creators creators) = true.
Proof.
  intros H. unfold _section_private_creators.
  destruct creators as [|c creators]; [contradiction|].
  assert (contains x (concat_map creator_row_html (c :: creators)) = true).
  { apply (rows_shown _ creator_texts); [|exact H].
    intros a. unfold creator_texts, creator_row_html, _esc.
    intros [<-|[<-|[]]]; shown. }
  shown.
Qed.

Lemma escape_app (a b : string) : escape (a ++ b) = escape a ++ escape b.
Proof.
  induction a as [|c a IH]; [reflexivity|].
  cbn [append escape]. now rewrite IH, str_app_assoc.
Qed.

(** Looks for a text that a section shows, with the section as a whole. *)
Ltac section_shown H :=
  match type of H with
  | contains _ ?t = true =>
      first [ is_var t | generalize dependent t; intros ]
  end;
  shown.

Lemma render_report_shows (d : report_data)
    (project_name timestamp doc : string) :
  render_report d project_name timestamp = Ok doc ->
  Forall (fun x => contains x doc = true)
         (report_texts d project_name timestamp).
Proof.
  unfold render_report. cbv zeta. intros H. bind_inv H.
  apply Ok_inj in H. subst doc.
  match goal with E : _section_study_summary _ _ = Ok _ |- _ =>
    rename E into Hs end.
  match goal with E : _section_overview _ _ _ _ _ _ _ = Ok _ |- _ =>
    rename E into Ho end.
  generalize _CSS. intros css.
  apply Forall_forall. intros x Hx. unfold report_texts in Hx.
  destruct Hx as [<-|[<-|Hx]].
  - unfold _esc. shown.
  - unfold _esc. destruct project_name as [|c p]; [reflexivity|].
    cbn [nonempty]. shown.
  - repeat (apply in_app_or in Hx; destruct Hx as [Hx|Hx]).
    + pose proof (section_tag_explorer_shows (std_elements d)
                    (priv_elements d) (std_sequences d) (priv_sequences d) x
                    (in_or_app _ _ _ (or_introl Hx))) as Hsec.
      section_shown Hsec.
    + pose proof (section_tag_explorer_shows (std_elements d)
                    (priv_elements d) (std_sequences d) (priv_sequences d) x
                    (in_or_app _ _ _
                       (or_intror (in_or_app _ _ _ (or_introl Hx))))) as Hsec.
      section_shown Hsec.
    + pose proof (section_phi_review_shows (std_elements d) (dt_elements d)
                    x Hx) as Hsec.
      section_shown Hsec.
    + pose proof (section_tag_explorer_shows (std_elements d)
                    (priv_elements d) (std_sequences d) (priv_sequences d) x
                    (in_or_app _ _ _
                       (or_intror (in_or_app _ _ _ (or_intror Hx))))) as Hsec.
      section_shown Hsec.
    + pose proof (section_overview_shows _ _ _ _ _ _ _ _ x Ho Hx) as Hsec.
      section_shown Hsec.
    + pose proof (section_study_summary_shows _ _ _ x Hs
                    (in_or_app _ _ _ (or_introl Hx))) as Hsec.
      section_shown Hsec.
    + pose proof (section_private_creators_shows (creators d) x Hx) as Hsec.
      section_shown Hsec.
    + pose proof (section_study_summary_shows _ _ _ x Hs
                    (in_or_app _ _ _ (or_intror Hx))) as Hsec.
      section_shown Hsec.
Qed.

(** *** Every value is escaped *)

(** C1: every value of the report reaches the document through [_esc].
    [_esc] replaces the ampersand, the angle brackets and the two quotes by
    their entities, character by character, and leaves the other characters
    as they are, so that its text has no angle bracket and no quote.  Read
    as markup, the row of a tag and the PHI review section are exactly the
    renderer's own tags around the escaped values, each value in a run of
    text: no value opens or closes a tag.  In the whole document every tag
    is one of the renderer's own, every value of the report stands in its
    escaped form, and there is no [<script]; a value [<script>] is there as
    [&lt;script&gt;]. *)
Theorem rendered_values_are_escaped :
  (forall text c,
     In c (list_ascii_of_string (_esc text)) -> is_markup c = false)
  /\ (forall a b, _esc (a ++ b) = _esc a ++ _esc b)
  /\ (_esc "&" = "&amp;" /\ _esc "<" = "&lt;" /\ _esc ">" = "&gt;"
      /\ _esc dq = "&quot;" /\ _esc "'" = "&#x27;")
  /\ (forall c, is_special c = false -> _esc (String c "") = String c "")
  /\ _esc "<script>" = "&lt;script&gt;"
  /\ (forall tag_hex keyword vr values,
        lex (_tag_row_html tag_hex keyword vr values)
        = tag_row_tokens tag_hex keyword vr values
        /\ template_only (_tag_row_html tag_hex keyword vr values) = true
        /\ contains "<script" (_tag_row_html tag_hex keyword vr values)
           = false)
  /\ (forall std dt,
        lex (_section_phi_review std dt) = phi_review_tokens std dt
        /\ template_only (_section_phi_review std dt) = true
        /\ contains "<script" (_section_phi_review std dt) = false)
  /\ (forall d project_name timestamp doc,
        render_report d project_name timestamp = Ok doc ->
        template_only doc = true
        /\ Forall (fun x => contains x doc = true)
                  (report_texts d project_name timestamp)
        /\ contains "<script" doc = false)
  /\ (forall parse_scan_summary fs output_dir project_name timestamp d doc,
        load_report parse_scan_summary fs output_dir = Ok d ->
        generate_html_report parse_scan_summary fs output_dir project_name
                             timestamp = Ok doc ->
        template_only doc = true
        /\ Forall (fun x => contains x doc = true)
                  (report_texts d project_name timestamp)
        /\ contains "<script" doc = false)
  /\ (exists doc,
        render_report hostile_report hostile "2026-01-01 00:00:00" = Ok doc
        /\ contains "&lt;script&gt;alert(1)&lt;/script&gt;" doc = true
        /\ contains "<script" doc = false).
Proof.
  assert (Hdoc : forall d project_name timestamp doc,
            render_report d project_name timestamp = Ok doc ->
            template_only doc = true
            /\ Forall (fun x => contains x doc = true)
                      (report_texts d project_name timestamp)
            /\ contains "<script" doc = false).
  { intros d p ts doc H.
    split; [exact (well_tagged_template_only _
                     (well_tagged_render_report _ _ _ _ H))|].
    split; [exact (render_report_shows _ _ _ _ H)|].
    exact (clean_no_script _ (clean_render_report _ _ _ _ H)). }
  split; [intros text c; apply markup_free_chars, escape_markup_free|].
  split; [exact escape_app|].
  split; [repeat split; reflexivity|].
  split.
  { intros c Hc. unfold _esc. cbn [escape]. rewrite str_app_nil_r.
    unfold is_special, is_markup in Hc. unfold escape_char.
    destruct (Ascii.eqb c "&"); [discriminate|].
    destruct (Ascii.eqb c "<"); [discriminate|].
    destruct (Ascii.eqb c ">"); [discriminate|].
    destruct (Ascii.eqb c DQ); [discriminate|].
    destruct (Ascii.eqb c "'"); [discriminate|].
    reflexivity. }
  split; [reflexivity|].
  split.
  { intros tag_hex keyword vr values.
    split; [apply lexes_lex, lexes_tag_row|].
    split; [apply well_tagged_template_only, well_tagged_tag_row|].
    apply clean_no_script, clean_tag_row. }
  split.
  { intros std dt.
    split; [apply lexes_lex, lexes_section_phi_review|].
    split; [apply well_tagged_template_only,
              well_tagged_section_phi_review|].
    apply clean_no_script, clean_section_phi_review. }
  split; [exact Hdoc|].
  split.
  - intros pss fs dir p ts d doc Hd. unfold generate_html_report, bind.
    rewrite Hd. apply Hdoc.
  - eexists. split; [vm_compute; reflexivity|].
    split; vm_compute; reflexivity.
Qed.
(* ------------------------------------------------------------------ *)
(** ** Splitting and folding *)
(* ------------------------------------------------------------------ *)

Lemma prefix_drop (a s : string) :
  String.prefix a s = true -> a ++ drop (String.length a) s = s.
Proof.
  revert s. induction a as [|x a IH]; intros s H; [reflexivity|].
  destruct s as [|y s]; [discriminate|]. cbn in *.
  destruct (ascii_dec x y) as [->|]; [|discriminate]. now rewrite IH.
Qed.

Lemma drop_app (a b : string) : drop (String.length a) (a ++ b) = b.
Proof. induction a; cbn; auto. Qed.

Lemma split_once_nonempty (sep s : string) : split_once sep s <> [].
Proof.
  induction s as [|c s IH]; cbn [split_once].
  - destruct (String.prefix sep ""); discriminate.
  - destruct (String.prefix sep (String c s)); [discriminate|].
    destruct (split_once sep s) as [|a [|b rest]]; congruence.
Qed.

(** Joining the parts of [s.split(sep, 1)] with [sep] gives [s] back. *)
Lemma join_split_once (sep s : string) : join sep (split_once sep s) = s.
Proof.
  induction s as [|c s IH]; cbn [split_once].
  - destruct (String.prefix sep "") eqn:E; [|reflexivity].
    cbn [join]. apply (prefix_drop _ _ E).
  - destruct (String.prefix sep (String c s)) eqn:E.
    + cbn [join]. apply (prefix_drop _ _ E).
    + pose proof (split_once_nonempty sep s) as Hne.
      destruct (split_once sep s) as [|a [|b rest]]; [congruence | |].
      * cbn in *. now rewrite IH.
      * cbn [join] in *. cbn. now rewrite IH.
Qed.

Lemma split_once_found (c : ascii) (sep a b : string) :
  all_chars (fun d => negb (Ascii.eqb d c)) a = true ->
  split_once (String c sep) (a ++ String c sep ++ b) = [a; b].
Proof.
  induction a as [|x a IH]; intros H.
  - change ("" ++ String c sep ++ b) with (String c (sep ++ b)).
    cbn [split_once].
    change (String c (sep ++ b)) with (String c sep ++ b).
    now rewrite prefix_app, drop_app.
  - cbn [all_chars] in H. apply andb_true_iff in H. destruct H as [Hx Ha].
    apply negb_true_iff, Ascii.eqb_neq in Hx.
    change (String x a ++ String c sep ++ b)
      with (String x (a ++ String c sep ++ b)).
    cbn [split_once String.prefix].
    destruct (ascii_dec c x) as [->|_]; [congruence|].
    now rewrite (IH Ha).
Qed.

Lemma split_once_two (c : ascii) (s a b : string) :
  split_once (String c "") s = [a; b] ->
  s = a ++ String c "" ++ b
  /\ all_chars (fun d => negb (Ascii.eqb d c)) a = true.
Proof.
  revert a. induction s as [|x s IH]; intros a H.
  - cbn in H. discriminate.
  - cbn [split_once String.prefix] in H.
    destruct (ascii_dec c x) as [->|Hne].
    + replace (String.prefix "" s) with true in H by (now destruct s).
      cbn [String.length drop] in H. injection H as Ha Hb. subst a b.
      split; reflexivity.
    + destruct (split_once (String c "") s) as [|a' [|b' rest]] eqn:E;
        try discriminate.
      injection H as Ha Hb Hr. subst a b rest.
      destruct (IH a' eq_refl) as [-> Ha]. split; [reflexivity|].
      cbn [all_chars]. rewrite Ha.
      assert (Ascii.eqb x c = false) as ->
          by (apply Ascii.eqb_neq; congruence).
      reflexivity.
Qed.

Lemma fold_append {A B : Type} (step : list B -> A -> list B) :
  (forall acc a, step acc a = (acc ++ step [] a)%list) ->
  forall l acc, fold_left step l acc = (acc ++ flat_map (step []) l)%list.
Proof.
  intros Hstep. induction l as [|a l IH]; intros acc; cbn.
  - now rewrite app_nil_r.
  - rewrite IH, Hstep, <- app_assoc. reflexivity.
Qed.

(** Flat record parsers *)

Lemma creators_step_app (cs : list (string * string)) (raw : string) :
  creators_step cs raw = (cs ++ creators_step [] raw)%list.
Proof.
  unfold creators_step.
  destruct (nonempty (strip raw) && _ && _); [|now rewrite app_nil_r].
  destruct (split_once TAB (strip raw)) as [|a [|b [|c r]]];
    try (now rewrite app_nil_r). reflexivity.
Qed.

Lemma tab_free_with_tab (a b : string) : tab_free (a ++ TAB ++ b) = false.
Proof.
  unfold tab_free. rewrite all_chars_app. cbn. apply andb_false_r.
Qed.

(** X3: the loop of [parse_private_creators] gives a row for a line exactly
    when the stripped line has a tab: the tag is the text before its first
    tab, the creator the text after it, further tabs included; lines
    without a tab, the title line among them, give no row. *)
Theorem creator_rows_are_tab_lines
    (lines : list string) (tag creator : string) :
  In (tag, creator) (fold_left creators_step lines [])
  <-> exists raw, In raw lines
                  /\ strip raw = tag ++ TAB ++ creator
                  /\ tab_free tag = true.
Proof.
  rewrite (fold_append _ creators_step_app). cbn [app].
  rewrite in_flat_map. split.
  - intros [raw [Hin Hrow]]. exists raw. split; [exact Hin|].
    unfold creators_step in Hrow.
    destruct (nonempty (strip raw) && _ && _); [|contradiction].
    destruct (split_once TAB (strip raw)) as [|a [|b [|c r]]] eqn:E;
      try contradiction.
    cbn in Hrow. destruct Hrow as [Hrow|[]]. injection Hrow as -> ->.
    apply split_once_two in E. exact E.
  - intros [raw [Hin [Hline Hfree]]]. exists raw. split; [exact Hin|].
    unfold creators_step. rewrite Hline.
    assert (Hne : nonempty (tag ++ TAB ++ creator) = true)
      by (destruct tag; reflexivity).
    assert (Hhdr : String.eqb (tag ++ TAB ++ creator) "Private Creators"
                   = false).
    { apply String.eqb_neq. intros Heq.
      pose proof (tab_free_with_tab tag creator) as Ht.
      rewrite Heq in Ht. discriminate. }
    assert (Hemp : String.eqb (tag ++ TAB ++ creator) "" = false)
      by (destruct tag; reflexivity).
    rewrite Hne, Hhdr, Hemp. cbn [negb andb].
    unfold TAB. rewrite (split_once_found _ _ _ _ Hfree). now left.
Qed.

Lemma simple_step_app (items : list string) (line : string) :
  simple_step items line = (items ++ simple_step [] line)%list.
Proof.
  unfold simple_step. destruct (nonempty (strip line));
    [reflexivity | now rewrite app_nil_r].
Qed.

Lemma simple_fold (lines : list string) :
  fold_left simple_step lines [] = filter nonempty (map strip lines).
Proof.
  rewrite (fold_append _ simple_step_app). cbn [app].
  induction lines as [|l lines IH]; [reflexivity|].
  cbn [flat_map map filter]. rewrite IH. unfold simple_step.
  destruct (nonempty (strip l)); reflexivity.
Qed.

(** X1: on a file that exists, [parse_simple_list] returns the stripped
    lines after the first line, in order, without the lines that are empty
    once stripped; so no item is empty or has white space at either end,
    and the first line is never an item, whatever it holds. *)
Theorem simple_list_items (fs : filesystem) (path text : string) :
  fs path = Some text ->
  parse_simple_list fs path
  = Ok (filter nonempty (map strip (skipn 1 (readlines text))))
  /\ forall items, parse_simple_list fs path = Ok items ->
       Forall (fun x => nonempty x = true /\ trimmed x) items.
Proof.
  intros Hfs.
  assert (H : parse_simple_list fs path
              = Ok (filter nonempty (map strip (skipn 1 (readlines text))))).
  { unfold parse_simple_list, exists_, open_readlines, bind. rewrite Hfs.
    cbn [negb]. now rewrite simple_fold. }
  split; [exact H|]. intros items Hitems. rewrite H in Hitems.
  apply Ok_inj in Hitems. subst items. apply Forall_forall. intros x Hx.
  apply filter_In in Hx. destruct Hx as [Hx Hne]. split; [exact Hne|].
  apply in_map_iff in Hx. destruct Hx as [l [<- _]]. apply strip_idem.
Qed.

Lemma simple_list_items_witness :
  parse_simple_list (one_file "sop_classes.txt" sop_text) "sop_classes.txt"
  = Ok [ "CT Image Storage"; "MR Image Storage" ].
Proof.
  destruct (simple_list_items (one_file "sop_classes.txt" sop_text)
              "sop_classes.txt" sop_text eq_refl) as [H _].
  rewrite H. reflexivity.
Defined.

Lemma split_ws_aux_fields (s cur : string) :
  spaceless cur = true ->
  Forall (fun f => nonempty f = true /\ spaceless f = true)
         (split_ws_aux cur s).
Proof.
  revert cur. induction s as [|c s IH]; intros cur Hcur; cbn [split_ws_aux].
  - destruct (nonempty cur) eqn:E; repeat constructor; assumption.
  - destruct (isspace c) eqn:Ec.
    + destruct (nonempty cur) eqn:E.
      * constructor; [now split | now apply IH].
      * now apply IH.
    + apply IH. unfold spaceless in *. rewrite all_chars_app, Hcur.
      cbn. now rewrite Ec.
Qed.

Lemma split_ws_fields (s : string) :
  Forall (fun f => nonempty f = true /\ spaceless f = true) (split_ws s).
Proof. now apply split_ws_aux_fields. Qed.

Lemma counts_step_app (rows : list count_row) (raw : string) :
  counts_step rows raw = (rows ++ counts_step [] raw)%list.
Proof.
  unfold counts_step. destruct (negb (nonempty (strip raw)));
    [now rewrite app_nil_r|].
  destruct (split_ws (strip raw)) as [|p0 [|p1 [|p2 [|p3 [|p4 [|p5 r]]]]]];
    try (now rewrite app_nil_r). reflexivity.
Qed.

Lemma counts_step_row (raw : string) (r : count_row) :
  In r (counts_step [] raw)
  <-> exists p1 rest,
        split_ws (strip raw)
        = study_uid r :: p1 :: files r :: over_1kb r :: over_20kb r
            :: over_50kb r :: rest.
Proof.
  unfold counts_step. split.
  - destruct (negb (nonempty (strip raw))); [contradiction|].
    destruct (split_ws (strip raw))
      as [|p0 [|p1 [|p2 [|p3 [|p4 [|p5 rest]]]]]]; try contradiction.
    cbn [app In]. intros [<-|[]]. now exists p1, rest.
  - intros [p1 [rest H]].
    destruct (strip raw) as [|c s] eqn:E; [discriminate|].
    cbn [nonempty negb]. rewrite H. left. now destruct r.
Qed.

(** X2: the rows of [parse_counts] are exactly the lines after the first
    line that have at least six fields separated by white space: the study
    UID is the first field, the file count the third, the three size
    counts the fourth to sixth; the second field and any field after the
    sixth are not kept.  No field of a row is empty or holds white space. *)
Theorem count_rows_have_clean_fields (lines : list string) (r : count_row) :
  (In r (parse_counts_lines lines)
   <-> exists raw p1 rest,
         In raw (skipn 1 lines)
         /\ split_ws (strip raw)
            = study_uid r :: p1 :: files r :: over_1kb r :: over_20kb r
                :: over_50kb r :: rest)
  /\ (In r (parse_counts_lines lines) ->
      Forall (fun f => nonempty f = true /\ spaceless f = true)
        [study_uid r; files r; over_1kb r; over_20kb r; over_50kb r]).
Proof.
  assert (H : In r (parse_counts_lines lines)
              <-> exists raw p1 rest,
                    In raw (skipn 1 lines)
                    /\ split_ws (strip raw)
                       = study_uid r :: p1 :: files r :: over_1kb r
                           :: over_20kb r :: over_50kb r :: rest).
  { unfold parse_counts_lines.
    rewrite (fold_append _ counts_step_app). cbn [app].
    rewrite in_flat_map. split.
    - intros [raw [Hin Hrow]]. apply counts_step_row in Hrow.
      destruct Hrow as [p1 [rest Hrow]]. now exists raw, p1, rest.
    - intros [raw [p1 [rest [Hin Hrow]]]]. exists raw. split; [exact Hin|].
      apply counts_step_row. now exists p1, rest. }
  split; [exact H|]. intros Hin. apply H in Hin.
  destruct Hin as [raw [p1 [rest [_ Hrow]]]].
  pose proof (split_ws_fields (strip raw)) as Hf. rewrite Hrow in Hf.
  inversion Hf as [|? ? H0 Hf1]; subst. inversion Hf1 as [|? ? H1 Hf2]; subst.
  inversion Hf2 as [|? ? H2 Hf3]; subst. inversion Hf3 as [|? ? H3 Hf4]; subst.
  inversion Hf4 as [|? ? H4 Hf5]; subst. inversion Hf5 as [|? ? H5 Hf6]; subst.
  repeat constructor; tauto.
Qed.

Lemma count_rows_have_clean_fields_witness :
  In (mk_count_row "1.2.5" "30" "1" "2" "3") (parse_counts_lines counts_sample)
  /\ Forall (fun f => nonempty f = true /\ spaceless f = true)
       [ "1.2.5"; "30"; "1"; "2"; "3" ].
Proof.
  assert (H : In (mk_count_row "1.2.5" "30" "1" "2" "3")
                 (parse_counts_lines counts_sample)).
  { apply (proj1 (count_rows_have_clean_fields counts_sample _)).
    exists ("1.2.5 7 30 1 2 3" ++ nl), "7", [].
    split; [right; right; right; left|]; reflexivity. }
  split; [exact H|].
  exact (proj2 (count_rows_have_clean_fields counts_sample _) H).
Defined.

(* ------------------------------------------------------------------ *)
(** ** The large-private-elements parser *)
(* ------------------------------------------------------------------ *)

Lemma rstrip_spaces (b : string) :
  all_chars isspace b = true -> rstrip b = "".
Proof.
  induction b as [|c b IH]; [reflexivity|]. cbn [all_chars rstrip].
  intros H. apply andb_true_iff in H. destruct H as [Hc Hb].
  now rewrite (IH Hb), Hc.
Qed.

Lemma rstrip_app_spaces (a b : string) :
  all_chars isspace b = true -> rstrip (a ++ b) = rstrip a.
Proof.
  intros Hb. induction a as [|c a IH]; [now apply rstrip_spaces|].
  cbn [append rstrip]. now rewrite IH.
Qed.

Lemma rstrip_app_kept (a b : string) :
  nonempty b = true -> rstrip b = b -> rstrip (a ++ b) = a ++ b.
Proof.
  intros Hne Hb. induction a as [|c a IH]; [exact Hb|].
  cbn [append rstrip]. rewrite IH.
  destruct (a ++ b) eqn:E; [|reflexivity].
  destruct a; [cbn in E; subst b|]; discriminate.
Qed.

Lemma nonempty_nilzero (d : Decimal.uint) :
  nonempty (NilZero.string_of_uint d) = true.
Proof. unfold NilZero.string_of_uint. destruct d; reflexivity. Qed.

Lemma str_int_shape (z : Z) :
  nonempty (str_int z) = true /\ spaceless (str_int z) = true
  /\ line_free (str_int z) = true /\ cr_free (str_int z) = true.
Proof.
  assert (Hd : forall d, line_free (NilZero.string_of_uint d) = true).
  { intros d. eapply all_chars_impl; [|apply digits_nilzero].
    intros c Hc. apply negb_true_iff.
    destruct (Ascii.eqb c LF) eqn:E; [|reflexivity].
    apply Ascii.eqb_eq in E. subst c. discriminate. }
  assert (Hr : forall d, cr_free (NilZero.string_of_uint d) = true).
  { intros d. eapply all_chars_impl; [|apply digits_nilzero].
    intros c Hc. apply negb_true_iff.
    destruct (Ascii.eqb c CR) eqn:E; [|reflexivity].
    apply Ascii.eqb_eq in E. subst c. discriminate. }
  unfold str_int. destruct (Z.to_int z) as [d|d]; cbn [NilZero.string_of_int].
  - split; [apply nonempty_nilzero|]. split; [apply spaceless_nilzero|].
    split; [apply Hd | apply Hr].
  - split; [reflexivity|]. split; [|split].
    + unfold spaceless. cbn [all_chars]. apply (spaceless_nilzero d).
    + unfold line_free. cbn [all_chars]. apply (Hd d).
    + unfold cr_free. cbn [all_chars]. apply (Hr d).
Qed.

Lemma strip_hash_line (r : hash_row) : strip (hash_line r) = hash_text r.
Proof.
  destruct (str_int_shape (count r)) as [Hne [Hsp _]].
  unfold strip, hash_line. rewrite rstrip_app_spaces by reflexivity.
  unfold hash_text.
  rewrite <- !str_app_assoc.
  rewrite rstrip_app_kept by (auto using spaceless_rstrip).
  reflexivity.
Qed.

Lemma comma_free_prefixed (h : string) :
  comma_free h = true ->
  all_chars (fun d => negb (Ascii.eqb d ",")) ("Hash: " ++ h) = true.
Proof. intros H. rewrite all_chars_app. exact H. Qed.

Lemma large_step_line (rows : list hash_row) (raw h : string) (n : Z) :
  comma_free h = true -> within_digit_limit n = true ->
  strip raw = "Hash: " ++ h ++ ", count: " ++ str_int n ->
  large_step rows raw = Ok (rows ++ [ {| hash := h; count := n |} ])%list.
Proof.
  intros Hh Hn Hraw. unfold large_step. rewrite Hraw.
  unfold startswith. rewrite prefix_app.
  rewrite <- str_app_assoc.
  change ", count: " with (String "," " count: ").
  rewrite (split_once_found _ _ _ _ (comma_free_prefixed _ Hh)).
  rewrite (int_str_int _ Hn). unfold bind.
  change 6 with (String.length "Hash: ").
  now rewrite (drop_app "Hash: " h).
Qed.

Lemma large_loop_lines (rows acc : list hash_row) :
  Forall writable rows ->
  large_loop acc (map hash_line rows) = Ok (acc ++ rows)%list.
Proof.
  intros H. revert acc.
  induction H as [|r rows [Hr [_ [_ Hn]]] _ IH]; intros acc.
  - cbn. now rewrite app_nil_r.
  - cbn [map large_loop].
    rewrite (large_step_line acc _ (hash r) (count r) Hr Hn
               (strip_hash_line r)).
    unfold bind. rewrite IH, <- app_assoc. now destruct r.
Qed.

Lemma readlines_aux_line (s cur rest : string) :
  line_free s = true ->
  readlines_aux cur (s ++ nl ++ rest)
  = (cur ++ s ++ nl) :: readlines_aux "" rest.
Proof.
  revert cur. induction s as [|c s IH]; intros cur H.
  - reflexivity.
  - cbn [line_free all_chars] in H. apply andb_true_iff in H.
    destruct H as [Hc Hs]. apply negb_true_iff in Hc.
    change (String c s ++ nl ++ rest) with (String c (s ++ nl ++ rest)).
    cbn [readlines_aux]. rewrite Hc, (IH _ Hs), str_app_assoc. reflexivity.
Qed.

Lemma readlines_text_of_lines (bodies : list string) :
  Forall (fun s => line_free s = true) bodies ->
  readlines (text_of_lines (map (fun s => s ++ nl) bodies))
  = map (fun s => s ++ nl) bodies.
Proof.
  unfold readlines. induction 1 as [|s bodies Hs _ IH]; [reflexivity|].
  cbn [map text_of_lines]. rewrite str_app_assoc.
  rewrite (readlines_aux_line _ _ _ Hs), IH. reflexivity.
Qed.

Lemma hash_text_line_free (r : hash_row) :
  line_free (hash r) = true -> line_free (hash_text r) = true.
Proof.
  intros H. destruct (str_int_shape (count r)) as [_ [_ [Hn _]]].
  unfold line_free, hash_text in *.
  rewrite !all_chars_app, H, Hn. reflexivity.
Qed.

Lemma hash_line_cr_free (r : hash_row) :
  cr_free (hash r) = true -> cr_free (hash_line r) = true.
Proof.
  intros H. destruct (str_int_shape (count r)) as [_ [_ [_ Hn]]].
  unfold cr_free, hash_line, hash_text in *.
  rewrite !all_chars_app, H, Hn. reflexivity.
Qed.

Lemma cr_free_text_of_lines (lines : list string) :
  Forall (fun l => cr_free l = true) lines ->
  cr_free (text_of_lines lines) = true.
Proof.
  induction 1 as [|l lines Hl _ IH]; [reflexivity|].
  cbn [text_of_lines]. unfold cr_free in *. now rewrite all_chars_app, Hl, IH.
Qed.

(** A text without a carriage return is its own translation. *)
Lemma universal_newlines_id (s : string) :
  cr_free s = true -> universal_newlines s = s.
Proof.
  unfold cr_free. induction s as [|c s IH]; [reflexivity|].
  cbn [all_chars universal_newlines]. intros H.
  apply andb_true_iff in H. destruct H as [Hc Hs].
  apply negb_true_iff in Hc. now rewrite Hc, (IH Hs).
Qed.

(** X4: a large-private-elements file written in the documented format,
    one [Hash: <hex>, count: <N>] line per row, is read back as those rows,
    in order, when no hash has a comma, a line feed or a carriage return
    and every count is within the digit limit of [int]. *)
Theorem large_rows_round_trip (path : string) (rows : list hash_row) :
  Forall writable rows ->
  parse_large_private_elements
    (one_file path
       (universal_newlines (text_of_lines (map hash_line rows)))) path
  = Ok rows.
Proof.
  intros H.
  rewrite universal_newlines_id.
  2:{ apply cr_free_text_of_lines, Forall_forall. intros l Hl.
      apply in_map_iff in Hl. destruct Hl as [r [<- Hr]].
      apply hash_line_cr_free. rewrite Forall_forall in H.
      now destruct (H r Hr) as [_ [_ [Hc _]]]. }
  unfold parse_large_private_elements, exists_, open_readlines,
    one_file, bind.
  rewrite String.eqb_refl. cbn [negb].
  unfold hash_line. rewrite <- (map_map hash_text (fun s => s ++ nl)).
  rewrite readlines_text_of_lines.
  - rewrite map_map. exact (large_loop_lines rows [] H).
  - apply Forall_forall. intros s Hs. apply in_map_iff in Hs.
    destruct Hs as [r [<- Hr]]. apply hash_text_line_free.
    rewrite Forall_forall in H. now destruct (H r Hr) as [_ [Hl _]].
Qed.

Lemma large_rows_round_trip_witness :
  Forall writable large_sample
  /\ parse_large_private_elements
       (one_file "large_private_elements.txt"
          (universal_newlines (text_of_lines (map hash_line large_sample))))
       "large_private_elements.txt"
     = Ok large_sample.
Proof.
  assert (H : Forall writable large_sample)
    by (repeat constructor).
  split; [exact H|].
  exact (large_rows_round_trip "large_private_elements.txt" large_sample H).
Defined.
(* ------------------------------------------------------------------ *)
(** ** The private-elements parser *)
(* ------------------------------------------------------------------ *)

Lemma find_sep_step (i : nat) (raw : string) (rest : list string) :
  find_sep i (raw :: rest)
  = if blank raw && (2 <? i) then Some i else find_sep (S i) rest.
Proof.
  cbn [find_sep]. unfold blank.
  destruct (String.eqb (strip raw) "Private Elements"),
    (String.eqb (strip raw) "List of Element Keys"),
    (String.eqb (strip raw) ""); reflexivity.
Qed.

Lemma find_sep_none (lines : list string) (i : nat) :
  Forall (fun raw => blank raw = false) lines -> find_sep i lines = None.
Proof.
  intros H. revert i. induction H as [|raw lines Hraw _ IH]; intros i.
  - reflexivity.
  - rewrite find_sep_step, Hraw. cbn [andb]. apply IH.
Qed.

Lemma find_sep_early (lines : list string) (i : nat) :
  i + List.length lines <= 3 -> find_sep i lines = None.
Proof.
  revert i. induction lines as [|raw lines IH]; intros i H; [reflexivity|].
  rewrite find_sep_step. cbn [List.length] in H.
  destruct (Nat.ltb_spec 2 i); [lia|]. rewrite andb_false_r.
  apply IH. lia.
Qed.

Lemma find_sep_listing (listing rest : list string) (s : string) (i : nat) :
  2 < i ->
  Forall (fun raw => blank raw = false) listing -> blank s = true ->
  find_sep i (listing ++ s :: rest) = Some (i + List.length listing).
Proof.
  intros Hi H Hs. revert i Hi.
  induction H as [|raw listing Hraw _ IH]; intros i Hi.
  - cbn [app List.length]. rewrite find_sep_step, Hs.
    destruct (Nat.ltb_spec 2 i); [|lia]. now rewrite Nat.add_0_r.
  - cbn [app List.length]. rewrite find_sep_step, Hraw. cbn [andb].
    rewrite IH by lia. f_equal. lia.
Qed.

Lemma find_sep_head (l0 l1 l2 : string) (lines : list string) :
  find_sep 0 (l0 :: l1 :: l2 :: lines) = find_sep 3 lines.
Proof.
  rewrite !find_sep_step. cbn [Nat.ltb Nat.leb]. now rewrite !andb_false_r.
Qed.

(** X5: the values section of a private-elements file starts after the
    first blank line that is not among the first three lines.  The first
    three lines are never the separator, whatever they hold, and the lines
    of the key listing before the separator add nothing: the result is the
    same without them. *)
Theorem private_values_start_after_separator
    (l0 l1 l2 s : string) (listing rest : list string) :
  Forall (fun raw => blank raw = false) listing -> blank s = true ->
  parse_private_elements_lines (l0 :: l1 :: l2 :: listing ++ s :: rest)
  = fst (fold_left private_step rest ([], None))
  /\ parse_private_elements_lines (l0 :: l1 :: l2 :: listing ++ s :: rest)
     = parse_private_elements_lines (l0 :: l1 :: l2 :: s :: rest).
Proof.
  intros Hl Hs.
  assert (H : forall listing', Forall (fun raw => blank raw = false) listing' ->
            parse_private_elements_lines
              (l0 :: l1 :: l2 :: listing' ++ s :: rest)
            = fst (fold_left private_step rest ([], None))).
  { intros listing' Hl'. unfold parse_private_elements_lines.
    rewrite find_sep_head, (find_sep_listing _ _ _ 3 (le_n 3) Hl' Hs).
    replace (3 + List.length listing' + 1)
      with (3 + (List.length listing' + 1)) by lia.
    cbn [Nat.add skipn].
    replace (List.length listing' + 1)
      with (List.length (listing' ++ [s])) by (rewrite length_app; reflexivity).
    replace (listing' ++ s :: rest)%list with ((listing' ++ [s]) ++ rest)%list
      by (now rewrite <- app_assoc).
    rewrite skipn_app, skipn_all, Nat.sub_diag. reflexivity. }
  split; [exact (H listing Hl)|].
  rewrite (H listing Hl). symmetry. exact (H [] (Forall_nil _)).
Qed.

Lemma private_values_start_after_separator_witness :
  parse_private_elements_lines priv_sample
  = [ ("(0009,xx10) GEMS_IDEN_01", ["value one"]) ].
Proof.
  assert (Hl : Forall (fun raw => blank raw = false)
                 [ "(0009,xx10) GEMS_IDEN_01" ++ nl ])
    by (repeat constructor).
  exact (proj1 (private_values_start_after_separator
                  ("Private Elements" ++ nl) nl
                  ("List of Element Keys" ++ nl) nl
                  [ "(0009,xx10) GEMS_IDEN_01" ++ nl ]
                  [ "(0009,xx10) GEMS_IDEN_01" ++ nl; "  value one" ++ nl ]
                  Hl eq_refl)).
Defined.

(** X6: a private-elements file without a blank line after its first three
    lines has no values section: the parser returns the empty mapping, even
    when the file has key lines and indented values. *)
Theorem private_without_separator_is_empty (lines : list string) :
  Forall (fun raw => blank raw = false) (skipn 3 lines) ->
  parse_private_elements_lines lines = [].
Proof.
  intros H. unfold parse_private_elements_lines.
  assert (Hn : find_sep 0 lines = None).
  { destruct lines as [|l0 [|l1 [|l2 lines]]];
      try (apply find_sep_early; cbn; lia).
    rewrite find_sep_head. now apply find_sep_none. }
  now rewrite Hn.
Qed.

Lemma private_without_separator_is_empty_witness :
  parse_private_elements_lines
    [ "Private Elements" ++ nl; nl; nl;
      "(0009,xx10) GEMS_IDEN_01" ++ nl; "  value one" ++ nl ] = [].
Proof.
  apply private_without_separator_is_empty. repeat constructor.
Defined.

(* ------------------------------------------------------------------ *)
(** ** The listing of the standard-elements parser *)
(* ------------------------------------------------------------------ *)

Lemma phase1_step_off (st : phase1_state) (raw : string) :
  in_listing st = false -> is_sentinel raw = false -> phase1_step st raw = st.
Proof.
  unfold is_sentinel, text_of, phase1_step. now intros -> ->.
Qed.

Lemma phase1_off (lines : list string) (st : phase1_state) :
  in_listing st = false ->
  Forall (fun raw => is_sentinel raw = false) lines ->
  fold_left phase1_step lines st = st.
Proof.
  intros Hst H. induction H as [|raw lines Hraw _ IH]; [reflexivity|].
  cbn [fold_left]. now rewrite (phase1_step_off _ _ Hst Hraw).
Qed.

Lemma keys_nil {V : Type} (d : OD.t V) : OD.keys d = [] -> d = [].
Proof. destruct d; [reflexivity | discriminate]. Qed.

(** X8: a standard-elements file without the line
    [List of Standard Elements] gives the empty catalog, whatever tag lines
    and values it holds: only the listing under that line creates
    entries. *)
Theorem no_sentinel_no_catalog (lines : list string) :
  Forall (fun raw => is_sentinel raw = false) lines ->
  parse_standard_elements_lines lines = [].
Proof.
  intros H. apply keys_nil. unfold parse_standard_elements_lines.
  rewrite phase2_keys. cbn [fst]. unfold phase1.
  now rewrite (phase1_off lines (mk_phase1 false [] []) eq_refl H).
Qed.

Lemma no_sentinel_no_catalog_witness :
  Forall (fun raw => is_sentinel raw = false) std_unlabelled
  /\ parse_standard_elements_lines std_unlabelled = [].
Proof.
  assert (H : Forall (fun raw => is_sentinel raw = false) std_unlabelled)
    by (repeat constructor).
  split; [exact H | exact (no_sentinel_no_catalog std_unlabelled H)].
Defined.

Lemma sentinel_no_header (raw : string) :
  is_sentinel raw = true -> header_of raw = None.
Proof.
  unfold is_sentinel, header_of. intros H. apply String.eqb_eq in H.
  now rewrite H.
Qed.

Lemma blank_not_sentinel (raw : string) :
  blank (text_of raw) = true -> is_sentinel raw = false.
Proof.
  unfold blank, is_sentinel. intros H.
  destruct (String.eqb (text_of raw) "List of Standard Elements") eqn:E;
    [|reflexivity].
  apply String.eqb_eq in E. rewrite E in H. discriminate.
Qed.

Lemma blank_no_header (raw : string) :
  blank (text_of raw) = true -> header_of raw = None.
Proof.
  intros H. destruct (header_of raw) as [x|] eqn:E; [|reflexivity].
  rewrite (header_not_blank _ _ E) in H. discriminate.
Qed.

(** The headers among the lines, as the listing phase appends them to
    [tag_list]. *)
Lemma phase1_step_listing (st : phase1_state) (raw : string) :
  in_listing st = true -> blank (text_of raw) = false ->
  in_listing (phase1_step st raw) = true
  /\ listed (phase1_step st raw) = add_listed (listed st) raw
  /\ (tag_list st <> [] \/ header_of raw <> None ->
      tag_list (phase1_step st raw) <> []).
Proof.
  intros Hst Hb. unfold phase1_step, add_listed, listed_entry.
  fold (text_of raw).
  destruct (String.eqb (text_of raw) "List of Standard Elements") eqn:Es.
  - fold (is_sentinel raw) in Es. rewrite (sentinel_no_header _ Es).
    cbn. split; [reflexivity|]. split; [reflexivity|].
    intros [H|H]; [exact H | congruence].
  - rewrite Hst. fold (header_of raw).
    destruct (header_of raw) as [[[t v] k]|].
    + cbn. split; [reflexivity|]. split; [reflexivity|].
      intros _. now destruct (tag_list st).
    + rewrite Hb. split; [exact Hst|]. split; [reflexivity|].
      intros [H|H]; [exact H | congruence].
Qed.

Lemma phase1_listing (hdrs : list string) (st : phase1_state) :
  in_listing st = true ->
  Forall (fun raw => blank (text_of raw) = false) hdrs ->
  in_listing (fold_left phase1_step hdrs st) = true
  /\ listed (fold_left phase1_step hdrs st)
     = fold_left add_listed hdrs (listed st)
  /\ (tag_list st <> [] \/ Exists (fun raw => header_of raw <> None) hdrs ->
      tag_list (fold_left phase1_step hdrs st) <> []).
Proof.
  intros Hst H. revert st Hst.
  induction H as [|raw hdrs Hraw _ IH]; intros st Hst.
  - cbn. split; [exact Hst|]. split; [reflexivity|].
    intros [Ht|He]; [exact Ht | inversion He].
  - destruct (phase1_step_listing st raw Hst Hraw) as [H1 [H2 H3]].
    destruct (IH _ H1) as [G1 [G2 G3]]. cbn [fold_left].
    split; [exact G1|]. split; [now rewrite G2, H2|].
    intros [Ht|He]; apply G3.
    + left. apply H3. now left.
    + inversion He as [? ? Hh|? ? Hh]; subst.
      * left. apply H3. now right.
      * now right.
Qed.

Lemma phase1_step_close (st : phase1_state) (raw : string) :
  in_listing st = true -> blank (text_of raw) = true -> tag_list st <> [] ->
  in_listing (phase1_step st raw) = false
  /\ listed (phase1_step st raw) = listed st.
Proof.
  intros Hst Hb Ht. unfold phase1_step. fold (text_of raw).
  pose proof (blank_not_sentinel _ Hb) as Hs. unfold is_sentinel in Hs.
  rewrite Hs, Hst. fold (header_of raw). rewrite (blank_no_header _ Hb), Hb.
  destruct (tag_list st); [congruence|]. now split.
Qed.

(** X9: the catalog is made from the listing block alone: the lines
    between the sentinel and the first blank line after a tag line, added
    one after the other to the empty catalog, a line that is no tag line
    adding nothing.  The lines before the sentinel and after that blank
    line add no entry, and the value phase leaves the keys as they are. *)
Theorem catalog_is_the_listing_block
    (before hdrs rest : list string) (sentinel b : string) :
  Forall (fun raw => is_sentinel raw = false) before ->
  is_sentinel sentinel = true ->
  Forall (fun raw => blank (text_of raw) = false) hdrs ->
  Exists (fun raw => header_of raw <> None) hdrs ->
  blank (text_of b) = true ->
  Forall (fun raw => is_sentinel raw = false) rest ->
  phase1 (before ++ sentinel :: hdrs ++ b :: rest)
  = fold_left add_listed hdrs []
  /\ OD.keys (parse_standard_elements_lines
                (before ++ sentinel :: hdrs ++ b :: rest))
     = OD.keys (fold_left add_listed hdrs []).
Proof.
  intros Hbefore Hs Hh He Hb Hrest.
  assert (H1 : phase1 (before ++ sentinel :: hdrs ++ b :: rest)
               = fold_left add_listed hdrs []).
  { unfold phase1. rewrite fold_left_app.
    rewrite (phase1_off before (mk_phase1 false [] []) eq_refl Hbefore).
    cbn [fold_left]. rewrite fold_left_app. cbn [fold_left].
    set (st1 := phase1_step _ sentinel).
    assert (Hst1 : in_listing st1 = true /\ listed st1 = []).
    { unfold st1, phase1_step. unfold is_sentinel, text_of in Hs.
      now rewrite Hs. }
    destruct Hst1 as [Hin1 Hl1].
    destruct (phase1_listing hdrs st1 Hin1 Hh) as [G1 [G2 G3]].
    destruct (phase1_step_close _ b G1 Hb (G3 (or_intror He))) as [K1 K2].
    rewrite (phase1_off rest _ K1 Hrest), K2, G2, Hl1. reflexivity. }
  split; [exact H1|].
  unfold parse_standard_elements_lines. rewrite phase2_keys. cbn [fst].
  now rewrite H1.
Qed.

Lemma catalog_is_the_listing_block_witness :
  parse_standard_elements_lines
    ([ "Standard Elements" ++ nl ]
       ++ std_sentinel
       :: [ std_name_header; std_id_header ]
       ++ nl :: [ std_name_header; std_doe ])
  = [ ("0010,0010", mk_std_entry "PN" "PatientName" ["Doe^John"]);
      ("0010,0020", mk_std_entry "LO" "PatientID" []) ]
  /\ OD.keys (fold_left add_listed [ std_name_header; std_id_header ] [])
     = [ "0010,0010"; "0010,0020" ].
Proof.
  assert (H1 : Forall (fun raw => is_sentinel raw = false)
                 [ "Standard Elements" ++ nl ]) by (repeat constructor).
  assert (H2 : Forall (fun raw => blank (text_of raw) = false)
                 [ std_name_header; std_id_header ]) by (repeat constructor).
  assert (H3 : Exists (fun raw => header_of raw <> None)
                 [ std_name_header; std_id_header ])
    by (left; vm_compute; discriminate).
  assert (H4 : Forall (fun raw => is_sentinel raw = false)
                 [ std_name_header; std_doe ]) by (repeat constructor).
  pose proof (catalog_is_the_listing_block
                [ "Standard Elements" ++ nl ]
                [ std_name_header; std_id_header ]
                [ std_name_header; std_doe ]
                std_sentinel nl H1 eq_refl H2 H3 eq_refl H4) as [_ Hk].
  split; [vm_compute; reflexivity|].
  rewrite <- Hk. vm_compute. reflexivity.
Defined.

(* ------------------------------------------------------------------ *)
(** ** The values of the standard-elements parser *)
(* ------------------------------------------------------------------ *)

Lemma Forall_set {V : Type} (P : string * V -> Prop) (d : OD.t V)
    (k : string) (v : V) :
  Forall P d -> P (k, v) -> Forall P (OD.set k v d).
Proof.
  intros Hd Hv. induction Hd as [|[k' v'] d Hx Hd IH]; cbn [OD.set].
  - repeat constructor. exact Hv.
  - destruct (String.eqb k k'); constructor; assumption.
Qed.

Lemma Forall_update {V : Type} (P : string * V -> Prop) (d : OD.t V)
    (k : string) (f : V -> V) :
  Forall P d -> (forall k' v, P (k', v) -> P (k', f v)) ->
  Forall P (OD.update k f d).
Proof.
  intros Hd Hf. induction Hd as [|[k' v'] d Hx Hd IH]; cbn [OD.update].
  - constructor.
  - destruct (String.eqb k k'); constructor; auto.
Qed.

Lemma phase1_values_nil (lines : list string) (st : phase1_state) :
  Forall (fun item => values (snd item) = []) (listed st) ->
  Forall (fun item => values (snd item) = [])
         (listed (fold_left phase1_step lines st)).
Proof.
  revert st. induction lines as [|raw lines IH]; intros st H; [exact H|].
  cbn [fold_left]. apply IH. unfold phase1_step.
  destruct (String.eqb (rstrip_nl raw) "List of Standard Elements");
    [exact H|].
  destruct (in_listing st); [|exact H].
  destruct (Re.match_tag (rstrip_nl raw)) as [[[t v] k]|].
  - cbn [listed]. now apply Forall_set.
  - destruct (blank (rstrip_nl raw)); [|exact H].
    destruct (tag_list st); exact H.
Qed.

Lemma listing_of_update (E : OD.t std_entry) (t x : string) :
  listing_of (OD.update t (append_value x) E) = listing_of E.
Proof.
  unfold listing_of. induction E as [|[k e] E IH]; [reflexivity|].
  cbn [OD.update]. destruct (String.eqb t k); cbn [map]; [reflexivity|].
  now rewrite IH.
Qed.

Lemma phase2_step_listing (st : OD.t std_entry * option string)
    (raw : string) :
  listing_of (fst (phase2_step st raw)) = listing_of (fst st).
Proof.
  destruct st as [E cur]. unfold phase2_step.
  destruct (Re.match_tag (rstrip_nl raw)) as [[[t v] k]|].
  - destruct (OD.mem t E); reflexivity.
  - destruct cur as [tag|]; [|reflexivity].
    destruct (nonempty tag && startswith (rstrip_nl raw) "  ");
      [apply listing_of_update | reflexivity].
Qed.

Lemma phase2_listing (lines : list string)
    (st : OD.t std_entry * option string) :
  listing_of (fst (phase2 st lines)) = listing_of (fst st).
Proof.
  revert st. induction lines as [|raw lines IH]; intros st; [reflexivity|].
  unfold phase2 in *. cbn [fold_left]. rewrite IH. apply phase2_step_listing.
Qed.

Lemma phase2_values_from (lines done : list string)
    (st : OD.t std_entry * option string) :
  incl done lines ->
  Forall (fun item => Forall (from_indented_line lines) (values (snd item)))
         (fst st) ->
  Forall (fun item => Forall (from_indented_line lines) (values (snd item)))
         (fst (phase2 st done)).
Proof.
  revert st. induction done as [|raw done IH]; intros st Hincl H; [exact H|].
  unfold phase2 in *. cbn [fold_left]. apply IH.
  - intros x Hx. apply Hincl. now right.
  - destruct st as [E cur]. unfold phase2_step.
    destruct (Re.match_tag (rstrip_nl raw)) as [[[t v] k]|].
    + destruct (OD.mem t E); exact H.
    + destruct cur as [tag|]; [|exact H].
      destruct (nonempty tag && startswith (rstrip_nl raw) "  ") eqn:E1;
        [|exact H].
      apply andb_true_iff in E1. destruct E1 as [_ Hind].
      cbn [fst] in *. apply Forall_update; [exact H|].
      intros k' e He. cbn [snd append_value values] in *.
      apply Forall_app. split; [exact He|].
      repeat constructor. exists raw.
      split; [apply Hincl; now left|]. split; [exact Hind | reflexivity].
Qed.

(** X10: the value phase of the standard-elements parser changes no tag,
    VR or keyword and keeps the order of the listing; the listing phase
    records no value; and every value of the result is the stripped text of
    some line of the file that starts with two spaces. *)
Theorem standard_values_come_from_indented_lines (lines : list string) :
  listing_of (parse_standard_elements_lines lines)
  = listing_of (phase1 lines)
  /\ Forall (fun item => values (snd item) = []) (phase1 lines)
  /\ Forall (fun item =>
               Forall (from_indented_line lines) (values (snd item)))
            (parse_standard_elements_lines lines).
Proof.
  assert (Hnil : Forall (fun item => values (snd item) = []) (phase1 lines))
    by (apply phase1_values_nil; constructor).
  split; [apply phase2_listing|]. split; [exact Hnil|].
  apply phase2_values_from; [apply incl_refl|]. cbn [fst].
  eapply Forall_impl; [|exact Hnil]. intros item ->. constructor.
Qed.

(** X11: a line of white space that starts with two spaces is a value for
    the standard-elements parser, the empty text, under a listed current
    tag; the private-elements, sequence and date/time parsers skip the same
    line. *)
Theorem blank_indented_line_is_an_empty_standard_value
    (raw t : string) (E : OD.t std_entry)
    (st : OD.t (list string) * option string) :
  nonempty t = true -> indented raw = true -> blank (text_of raw) = true ->
  phase2_step (E, Some t) raw = (OD.update t (append_value "") E, Some t)
  /\ private_step st raw = st
  /\ seq_step st raw = st
  /\ dt_step st raw = st.
Proof.
  intros Ht Hind Hb. split.
  - rewrite (phase2_step_indented _ _ _ Ht Hind). unfold value_of.
    unfold blank in Hb. apply String.eqb_eq in Hb. now rewrite Hb.
  - unfold text_of in Hb. destruct st as [d cur].
    unfold private_step, seq_step, seq_skipped, dt_step.
    rewrite Hb, !orb_true_r. repeat split.
Qed.

Lemma blank_indented_line_is_an_empty_standard_value_witness :
  values_of
    (parse_standard_elements_lines
       (std_listing ++ [ std_name_header; spaces_line ]))
    "0010,0010" = [ "" ]
  /\ phase2_step (phase1 std_listing, Some "0010,0010") spaces_line
     = (OD.update "0010,0010" (append_value "") (phase1 std_listing),
        Some "0010,0010")
  /\ dt_step ([], Some "key") spaces_line = ([], Some "key").
Proof.
  pose proof (blank_indented_line_is_an_empty_standard_value
                spaces_line "0010,0010" (phase1 std_listing)
                ([], Some "key") eq_refl eq_refl eq_refl)
    as [H1 [_ [_ H4]]].
  split; [vm_compute; reflexivity|]. split; [exact H1 | exact H4].
Defined.

(* ------------------------------------------------------------------ *)
(** ** What the block parsers store *)
(* ------------------------------------------------------------------ *)

Lemma strip_proper (line : string) : blank line = false -> proper (strip line).
Proof.
  unfold blank. intros H. split; [|apply strip_idem].
  destruct (strip line); [discriminate | reflexivity].
Qed.

Lemma proper_open_key (d : OD.t (list string)) (key : string) :
  proper key -> Forall proper_item d -> Forall proper_item (open_key key d).
Proof.
  intros Hk Hd. unfold open_key. destruct (OD.mem key d); [exact Hd|].
  apply Forall_set; [exact Hd|]. split; [exact Hk | constructor].
Qed.

Lemma proper_append (d : OD.t (list string)) (key x : string) :
  proper x -> Forall proper_item d ->
  Forall proper_item (OD.update key (append_to x) d).
Proof.
  intros Hx Hd. apply Forall_update; [exact Hd|].
  intros k vs [Hk Hvs]. split; [exact Hk|]. cbn [snd] in *.
  unfold append_to. apply Forall_app. split; [exact Hvs|].
  constructor; [exact Hx | constructor].
Qed.

Lemma private_step_proper (st : OD.t (list string) * option string)
    (raw : string) :
  Forall proper_item (fst st) ->
  Forall proper_item (fst (private_step st raw)).
Proof.
  destruct st as [d cur]. unfold private_step. intros H.
  destruct (blank (rstrip_nl raw)) eqn:Hb; [exact H|].
  destruct (negb (startswith (rstrip_nl raw) "  ")).
  - cbn [fst]. apply proper_open_key; [now apply strip_proper | exact H].
  - destruct cur as [key|]; [|exact H].
    destruct (nonempty key); [|exact H].
    cbn [fst]. apply proper_append; [now apply strip_proper | exact H].
Qed.

Lemma seq_step_proper (st : OD.t (list string) * option string)
    (raw : string) :
  Forall proper_item (fst st) -> Forall proper_item (fst (seq_step st raw)).
Proof.
  destruct st as [d cur]. unfold seq_step. intros H.
  destruct (seq_skipped (rstrip_nl raw)) eqn:Hs; [exact H|].
  unfold seq_skipped in Hs. apply orb_false_iff in Hs. destruct Hs as [_ Hb].
  destruct (startswith (rstrip_nl raw) "  ").
  - destruct cur as [key|]; [|exact H].
    destruct (nonempty key); [|exact H].
    cbn [fst]. apply proper_append; [now apply strip_proper | exact H].
  - cbn [fst]. apply proper_open_key; [now apply strip_proper | exact H].
Qed.

Lemma dt_step_proper (st : OD.t (list string) * option string)
    (raw : string) :
  Forall (fun item => Forall proper (snd item)) (fst st) ->
  Forall (fun item => Forall proper (snd item)) (fst (dt_step st raw)).
Proof.
  destruct st as [d cur]. unfold dt_step. intros H.
  destruct (String.eqb (rstrip_nl raw) "Date/Time Elements"
            || blank (rstrip_nl raw)) eqn:Hs; [exact H|].
  apply orb_false_iff in Hs. destruct Hs as [_ Hb].
  destruct (Re.match_tag (rstrip_nl raw)) as [[[t v] k]|].
  - cbn [fst]. apply Forall_set; [exact H | constructor].
  - destruct cur as [key|]; [|exact H].
    destruct (nonempty key && startswith (rstrip_nl raw) "  "); [|exact H].
    cbn [fst]. apply Forall_update; [exact H|].
    intros k vs Hvs. cbn [snd] in *. unfold append_to.
    apply Forall_app. split; [exact Hvs|].
    constructor; [now apply strip_proper | constructor].
Qed.

Lemma fold_invariant {S A : Type} (P : S -> Prop) (step : S -> A -> S) :
  (forall st a, P st -> P (step st a)) ->
  forall l st, P st -> P (fold_left step l st).
Proof.
  intros Hstep. induction l as [|a l IH]; intros st H; [exact H|].
  cbn [fold_left]. apply IH, Hstep, H.
Qed.

Lemma private_items_proper (lines : list string) :
  Forall proper_item (parse_private_elements_lines lines).
Proof.
  unfold parse_private_elements_lines.
  destruct (find_sep 0 lines); [|constructor].
  apply (fold_invariant (fun st => Forall proper_item (fst st))
           private_step private_step_proper). constructor.
Qed.

Lemma sequence_items_proper (lines : list string) :
  Forall proper_item (parse_sequences_lines lines).
Proof.
  apply (fold_invariant (fun st => Forall proper_item (fst st))
           seq_step seq_step_proper). constructor.
Qed.

Lemma date_time_values_proper (lines : list string) :
  Forall (fun item => Forall proper (snd item)) (parse_date_time_lines lines).
Proof.
  apply (fold_invariant
           (fun st => Forall (fun item => Forall proper (snd item)) (fst st))
           dt_step dt_step_proper). constructor.
Qed.

(** X12: the private-elements and sequence parsers store no empty key, the
    private-elements, sequence and date/time parsers store no empty value,
    and none of these texts has white space at either end. *)
Theorem block_parsers_store_proper_texts (lines : list string) :
  Forall proper_item (parse_private_elements_lines lines)
  /\ Forall proper_item (parse_sequences_lines lines)
  /\ Forall (fun item => Forall proper (snd item))
            (parse_date_time_lines lines).
Proof.
  split; [apply private_items_proper|].
  split; [apply sequence_items_proper | apply date_time_values_proper].
Qed.

Lemma value_html_proper (v : string) : proper v -> value_html v = _esc v.
Proof.
  intros [Hne Ht]. unfold value_html. unfold trimmed in Ht. now rewrite Ht, Hne.
Qed.

Lemma shown_as_escaped (d : OD.t (list string)) :
  Forall (fun item => Forall proper (snd item)) d ->
  forall key vs v, In (key, vs) d -> In v vs -> value_html v = _esc v.
Proof.
  intros H key vs v Hitem Hv. apply value_html_proper.
  rewrite Forall_forall in H. specialize (H _ Hitem). cbn [snd] in H.
  rewrite Forall_forall in H. now apply H.
Qed.

Lemma proper_item_values (d : OD.t (list string)) :
  Forall proper_item d -> Forall (fun item => Forall proper (snd item)) d.
Proof. apply Forall_impl. now intros item [_ H]. Qed.

(** X22: the report shows the placeholder [<empty>] for no value of the
    private-elements, sequence and date/time parsers: each of their values
    is shown as its escaped text.  A value of the standard-elements parser
    gets the placeholder exactly when it is the empty text. *)
Theorem empty_placeholder_only_for_empty_standard_values
    (lines : list string) (key v : string) :
  (forall vs, In (key, vs) (parse_private_elements_lines lines) -> In v vs ->
              value_html v = _esc v)
  /\ (forall vs, In (key, vs) (parse_sequences_lines lines) -> In v vs ->
                 value_html v = _esc v)
  /\ (forall vs, In (key, vs) (parse_date_time_lines lines) -> In v vs ->
                 value_html v = _esc v)
  /\ (forall e, In (key, e) (parse_standard_elements_lines lines) ->
                In v (values e) ->
                value_html v = if nonempty v then _esc v else "&lt;empty&gt;").
Proof.
  split; [|split; [|split]].
  - intros vs. apply shown_as_escaped, proper_item_values, private_items_proper.
  - intros vs. apply shown_as_escaped, proper_item_values, sequence_items_proper.
  - intros vs. apply shown_as_escaped, date_time_values_proper.
  - intros e Hitem Hv.
    assert (H : Forall (fun item => Forall (from_indented_line lines)
                                      (values (snd item)))
                  (parse_standard_elements_lines lines)).
    { apply phase2_values_from; [apply incl_refl|]. cbn [fst].
      eapply Forall_impl; [|apply (phase1_values_nil lines); constructor].
      intros item ->. constructor. }
    rewrite Forall_forall in H. specialize (H _ Hitem). cbn [snd] in H.
    rewrite Forall_forall in H. destruct (H _ Hv) as [raw [_ [_ ->]]].
    unfold value_html, value_of. now rewrite strip_idem.
Qed.

(* ------------------------------------------------------------------ *)
(** ** The keys of the sequence and date/time parsers *)
(* ------------------------------------------------------------------ *)

Lemma keys_set {V : Type} (d : OD.t V) (k : string) (v : V) (x : string) :
  In x (OD.keys (OD.set k v d)) <-> x = k \/ In x (OD.keys d).
Proof.
  induction d as [|[k' v'] d IH]; cbn [OD.set OD.keys map In fst].
  - intuition.
  - destruct (String.eqb k k') eqn:E; cbn [map In fst].
    + apply String.eqb_eq in E. subst k'. intuition.
    + unfold OD.keys in IH. rewrite IH. intuition.
Qed.

Lemma keys_open_key (d : OD.t (list string)) (key x : string) :
  In x (OD.keys (open_key key d)) <-> x = key \/ In x (OD.keys d).
Proof.
  unfold open_key. destruct (OD.mem key d) eqn:E; [|apply keys_set].
  split; [now right|]. intros [->|H]; [|exact H].
  apply mem_get_some in E. destruct E as [v Hv].
  clear -Hv. induction d as [|[k' v'] d IH]; [discriminate|].
  cbn [OD.get] in Hv. cbn. destruct (String.eqb key k') eqn:E.
  - apply String.eqb_eq in E. now left.
  - right. now apply IH.
Qed.

Lemma seq_step_keys (st : OD.t (list string) * option string) (raw x : string) :
  In x (OD.keys (fst (seq_step st raw)))
  <-> In x (OD.keys (fst st))
      \/ (seq_key_line_b raw = true /\ x = value_of raw).
Proof.
  destruct st as [d cur].
  unfold seq_step, seq_key_line_b, indented, value_of, text_of.
  destruct (seq_skipped (rstrip_nl raw)); cbn [negb andb fst].
  - intuition discriminate.
  - destruct (startswith (rstrip_nl raw) "  "); cbn [negb].
    + destruct cur as [key|]; [|intuition discriminate].
      destruct (nonempty key); cbn [fst]; [rewrite keys_update|];
        intuition discriminate.
    + cbn [fst]. rewrite keys_open_key. intuition.
Qed.

Lemma dt_step_keys (st : OD.t (list string) * option string) (raw x : string) :
  In x (OD.keys (fst (dt_step st raw)))
  <-> In x (OD.keys (fst st)) \/ dt_key_of raw = Some x.
Proof.
  destruct st as [d cur].
  destruct (header_of raw) as [[[t v] k]|] eqn:Hh.
  - rewrite (dt_step_header _ _ _ _ _ _ Hh). unfold dt_key_of. rewrite Hh.
    cbn [fst]. rewrite keys_set. split.
    + intros [->|H]; [now right | now left].
    + intros [H|H]; [now right | left; congruence].
  - unfold dt_key_of. rewrite Hh. unfold header_of, text_of in Hh.
    unfold dt_step. rewrite Hh.
    destruct (String.eqb (rstrip_nl raw) "Date/Time Elements"
              || blank (rstrip_nl raw)); [intuition discriminate|].
    destruct cur as [key|]; [|intuition discriminate].
    destruct (nonempty key && startswith (rstrip_nl raw) "  "); cbn [fst];
      [rewrite keys_update|]; intuition discriminate.
Qed.

Lemma fold_keys {S : Type} (keys_of : S -> list string)
    (step : S -> string -> S) (opens : string -> string -> Prop) :
  (forall st raw x, In x (keys_of (step st raw))
                    <-> In x (keys_of st) \/ opens raw x) ->
  forall lines st x,
    In x (keys_of (fold_left step lines st))
    <-> In x (keys_of st) \/ exists raw, In raw lines /\ opens raw x.
Proof.
  intros Hstep. induction lines as [|raw lines IH]; intros st x.
  - cbn. split; [now left|]. intros [H|[raw [[] _]]]. exact H.
  - cbn [fold_left]. rewrite IH, Hstep. split.
    + intros [[H|H]|[r [Hr Ho]]].
      * now left.
      * right. exists raw. split; [now left | exact H].
      * right. exists r. split; [now right | exact Ho].
    + intros [H|[r [[<-|Hr] Ho]]].
      * left. now left.
      * left. now right.
      * right. exists r. now split.
Qed.

(** X13: the keys of the sequence parser are exactly the stripped texts of
    the lines that are neither skipped nor start with two spaces; the keys
    of the date/time parser are exactly the composite keys of the lines that
    match the tag pattern. *)
Theorem keys_are_the_key_lines (lines : list string) (x : string) :
  (In x (OD.keys (parse_sequences_lines lines))
   <-> exists raw, In raw lines /\ seq_key_line_b raw = true
                   /\ x = value_of raw)
  /\ (In x (OD.keys (parse_date_time_lines lines))
      <-> exists raw, In raw lines /\ dt_key_of raw = Some x).
Proof.
  split.
  - unfold parse_sequences_lines, seq_loop.
    rewrite (fold_keys (fun st => OD.keys (fst st)) seq_step
               (fun raw x => seq_key_line_b raw = true /\ x = value_of raw)
               seq_step_keys).
    cbn. intuition.
  - unfold parse_date_time_lines, dt_loop.
    rewrite (fold_keys (fun st => OD.keys (fst st)) dt_step
               (fun raw x => dt_key_of raw = Some x) dt_step_keys).
    cbn. intuition.
Qed.

(* ------------------------------------------------------------------ *)
(** ** The merged sequence collection of the report *)
(* ------------------------------------------------------------------ *)

Lemma set_fresh {V : Type} (d : OD.t V) (k : string) (v : V) :
  OD.get k d = None -> OD.set k v d = (d ++ [(k, v)])%list.
Proof.
  induction d as [|[k' v'] d IH]; cbn [OD.get OD.set app]; [reflexivity|].
  destruct (String.eqb k k'); [discriminate|]. intros H. now rewrite IH.
Qed.

Lemma NoDup_snoc {A : Type} (l : list A) (x : A) :
  NoDup l -> ~ In x l -> NoDup (l ++ [x]).
Proof.
  intros Hl Hx. apply (Permutation_NoDup (Permutation_cons_append l x)).
  now constructor.
Qed.

Lemma keys_app {V : Type} (a b : OD.t V) :
  OD.keys (a ++ b)%list = (OD.keys a ++ OD.keys b)%list.
Proof. apply map_app. Qed.

Lemma distinct_open_key (d : OD.t (list string)) (key : string) :
  distinct_keys d -> distinct_keys (open_key key d).
Proof.
  unfold distinct_keys, open_key. intros H.
  destruct (OD.mem key d) eqn:E; [exact H|].
  apply mem_false_get in E. rewrite (set_fresh _ _ _ E), keys_app.
  apply NoDup_snoc; [exact H | now apply get_keys_none].
Qed.

Lemma seq_step_distinct (st : OD.t (list string) * option string)
    (raw : string) :
  distinct_keys (fst st) -> distinct_keys (fst (seq_step st raw)).
Proof.
  destruct st as [d cur]. unfold seq_step. intros H.
  destruct (seq_skipped (rstrip_nl raw)); [exact H|].
  destruct (startswith (rstrip_nl raw) "  ").
  - destruct cur as [key|]; [|exact H].
    destruct (nonempty key); [|exact H].
    unfold distinct_keys. cbn [fst]. now rewrite keys_update.
  - cbn [fst]. now apply distinct_open_key.
Qed.

Lemma parse_sequences_distinct (lines : list string) :
  distinct_keys (parse_sequences_lines lines).
Proof.
  apply (fold_invariant (fun st => distinct_keys (fst st))
           seq_step seq_step_distinct). constructor.
Qed.

Lemma app_inj_tail_string (label a b : string) :
  label ++ a = label ++ b -> a = b.
Proof.
  induction label as [|c label IH]; cbn; [auto|].
  intros H. injection H as H. auto.
Qed.

Lemma fold_add_prefixed (label : string) (items acc : OD.t (list string)) :
  distinct_keys items ->
  (forall k, In k (OD.keys items) -> ~ In (label ++ k) (OD.keys acc)) ->
  fold_left (add_prefixed label) items acc
  = (acc ++ map (prefixed label) items)%list.
Proof.
  unfold distinct_keys. revert acc.
  induction items as [|[k v] items IH]; intros acc Hnd Hacc.
  - cbn. now rewrite app_nil_r.
  - cbn [fold_left map]. unfold add_prefixed at 2. cbn [fst snd].
    cbn [OD.keys map fst] in Hnd. inversion Hnd as [|? ? Hk Hnd']; subst.
    rewrite set_fresh by (apply get_keys_none, Hacc; now left).
    rewrite IH.
    + rewrite <- app_assoc. reflexivity.
    + exact Hnd'.
    + intros k' Hk'. rewrite keys_app. intros Hin.
      apply in_app_or in Hin. destruct Hin as [Hin|[Heq|[]]].
      * apply (Hacc k'); [now right | exact Hin].
      * cbn [fst] in Heq. apply app_inj_tail_string in Heq. subst k'.
        exact (Hk Hk').
Qed.

Lemma merge_sequences_distinct (std priv : OD.t (list string)) :
  distinct_keys std -> distinct_keys priv ->
  merge_sequences std priv
  = (map (prefixed "[Std] ") std ++ map (prefixed "[Priv] ") priv)%list.
Proof.
  intros Hs Hp. unfold merge_sequences.
  rewrite (fold_add_prefixed "[Std] " std [] Hs) by (intros k _ []).
  cbn [app]. apply fold_add_prefixed; [exact Hp|].
  intros k _ Hin. unfold OD.keys in Hin. rewrite map_map in Hin.
  apply in_map_iff in Hin. destruct Hin as [[k' v'] [Heq _]].
  cbn in Heq. discriminate.
Qed.

(** X15: the sequence section of the report holds every key of the two
    sequence files, none lost and none overwritten: the entries of the
    standard file under [[Std] ] and their key, then the entries of the
    private file under [[Priv] ] and their key, each with its values, so
    the count in the section title is the sum of the two. *)
Theorem merged_sequences_keep_every_entry (std_lines priv_lines : list string) :
  let std := parse_sequences_lines std_lines in
  let priv := parse_sequences_lines priv_lines in
  merge_sequences std priv
  = (map (prefixed "[Std] ") std ++ map (prefixed "[Priv] ") priv)%list
  /\ List.length (merge_sequences std priv)
     = List.length std + List.length priv.
Proof.
  intros std priv.
  assert (H : merge_sequences std priv
              = (map (prefixed "[Std] ") std
                   ++ map (prefixed "[Priv] ") priv)%list)
    by (apply merge_sequences_distinct; apply parse_sequences_distinct).
  split; [exact H|]. now rewrite H, length_app, !length_map.
Qed.

(* ------------------------------------------------------------------ *)
(** ** When the report is produced *)
(* ------------------------------------------------------------------ *)

Lemma int_cases (s : string) : is_int s \/ int s = Raise ValueError.
Proof.
  unfold is_int, int. destruct (int_opt s) as [n|]; [left; eauto | now right].
Qed.

Lemma sum_files_defined (counts : list count_row) (acc : Z) :
  Forall (fun r => is_int (files r)) counts ->
  exists z, sum_files acc counts = Ok z.
Proof.
  intros H. revert acc. induction H as [|r counts [n Hn] _ IH]; intros acc.
  - now exists acc.
  - cbn [sum_files]. rewrite Hn. cbn [bind]. apply IH.
Qed.

Lemma sum_files_exn (counts : list count_row) (acc : Z) (e : exn) :
  sum_files acc counts = Raise e ->
  e = ValueError
  /\ Exists (fun r => int (files r) = Raise ValueError) counts.
Proof.
  revert acc. induction counts as [|r counts IH]; intros acc H;
    [discriminate|].
  cbn [sum_files] in H. destruct (int_cases (files r)) as [[n Hn]|Hn].
  - rewrite Hn in H. cbn [bind] in H.
    destruct (IH _ H) as [He Hex]. split; [exact He | now right].
  - rewrite Hn in H. cbn [bind] in H. split; [congruence | now left].
Qed.

(** A call returns, or it raises [ValueError]. *)
Lemma format_of_int_cases (z : Z) :
  (within_digit_limit z = true /\ format_of_int z = Ok (fmt_int z))
  \/ (within_digit_limit z = false /\ format_of_int z = Raise ValueError).
Proof.
  unfold format_of_int. destruct (within_digit_limit z); [left | right];
    now split.
Qed.

Lemma str_of_int_cases (z : Z) :
  (within_digit_limit z = true /\ str_of_int z = Ok (str_int z))
  \/ (within_digit_limit z = false /\ str_of_int z = Raise ValueError).
Proof.
  unfold str_of_int. destruct (within_digit_limit z); [left | right];
    now split.
Qed.

Lemma hash_row_html_cases (r : hash_row) :
  (within_digit_limit (count r) = true /\ exists html, hash_row_html r = Ok html)
  \/ (within_digit_limit (count r) = false
      /\ hash_row_html r = Raise ValueError).
Proof.
  unfold hash_row_html, _esc_int.
  destruct (str_of_int_cases (count r)) as [[Hw ->]|[Hw ->]]; cbn [bind].
  - left. split; [exact Hw | eexists; reflexivity].
  - right. now split.
Qed.

Lemma hash_rows_cases (rows : list hash_row) :
  (printable (map count rows)
   /\ exists html, concat_mapM hash_row_html rows = Ok html)
  \/ (~ printable (map count rows)
      /\ concat_mapM hash_row_html rows = Raise ValueError).
Proof.
  unfold printable. induction rows as [|r rows IH]; cbn [map concat_mapM].
  - left. split; [constructor | eexists; reflexivity].
  - destruct (hash_row_html_cases r) as [[Hw [h ->]]|[Hw ->]]; cbn [bind].
    + destruct IH as [[Hp [t ->]]|[Hp ->]]; cbn [bind].
      * left. split; [now constructor | eexists; reflexivity].
      * right. split; [|reflexivity]. intros H. inversion H; subst.
        now apply Hp.
    + right. split; [|reflexivity]. intros H. inversion H; subst. congruence.
Qed.

Lemma summary_part_cases (n : Z) (label : string) :
  (within_digit_limit n = true /\ exists part, summary_part n label = Ok part)
  \/ (within_digit_limit n = false
      /\ summary_part n label = Raise ValueError).
Proof.
  unfold summary_part. destruct (Z.eqb_spec n 0) as [->|_].
  - left. split; [reflexivity | eexists; reflexivity].
  - destruct (format_of_int_cases n) as [[Hw ->]|[Hw ->]]; cbn [bind].
    + left. split; [exact Hw | eexists; reflexivity].
    + right. now split.
Qed.

Ltac printable_inv H :=
  unfold printable in H;
  repeat match type of H with
  | Forall _ (_ :: _) =>
      let Hx := fresh "Hx" in
      apply Forall_cons_iff in H; destruct H as [Hx H]
  end.

Lemma summary_line_cases (summary : OD.t Z) :
  let total := summary_get summary "total_files" in
  let parsed := summary_get summary "dicom_parsed" in
  let errors := summary_get summary "parse_errors" in
  (printable [total; parsed; errors; (total - parsed - errors)%Z]
   /\ exists html, summary_line summary = Ok html)
  \/ (~ printable [total; parsed; errors; (total - parsed - errors)%Z]
      /\ summary_line summary = Raise ValueError).
Proof.
  intros total parsed errors. unfold summary_line. fold total parsed errors.
  cbv zeta.
  destruct (format_of_int_cases total) as [[H1 ->]|[H1 ->]]; cbn [bind];
    [|right; split; [intros H; printable_inv H; congruence | reflexivity]].
  destruct (summary_part_cases parsed " DICOM files parsed")
    as [[H2 [p2 ->]]|[H2 ->]]; cbn [bind];
    [|right; split; [intros H; printable_inv H; congruence | reflexivity]].
  destruct (summary_part_cases errors " could not be parsed")
    as [[H3 [p3 ->]]|[H3 ->]]; cbn [bind];
    [|right; split; [intros H; printable_inv H; congruence | reflexivity]].
  destruct (summary_part_cases (total - parsed - errors) " non-DICOM skipped")
    as [[H4 [p4 ->]]|[H4 ->]]; cbn [bind];
    [|right; split; [intros H; printable_inv H; congruence | reflexivity]].
  left. split; [repeat constructor; assumption | eexists; reflexivity].
Qed.

Lemma section_overview_cases (std : OD.t std_entry)
    (priv : OD.t (list string)) (sop studies modalities : list string)
    (total : Z) (summary : option (OD.t Z)) :
  (printable (total :: summary_numbers summary)
   /\ exists html,
        _section_overview std priv sop studies modalities total summary
        = Ok html)
  \/ (~ printable (total :: summary_numbers summary)
      /\ _section_overview std priv sop studies modalities total summary
         = Raise ValueError).
Proof.
  unfold _section_overview.
  destruct (format_of_int_cases total) as [[H1 ->]|[H1 ->]]; cbn [bind];
    [|right; split; [intros H; printable_inv H; congruence | reflexivity]].
  unfold summary_numbers.
  destruct summary as [[|entry summary]|];
    try (left; split; [repeat constructor; assumption
                      | cbn [bind]; eexists; reflexivity]).
  cbv zeta.
  destruct (0 <? summary_get (entry :: summary) "total_files")%Z;
    [|left; split; [repeat constructor; assumption
                   | cbn [bind]; eexists; reflexivity]].
  destruct (summary_line_cases (entry :: summary)) as [[Hp [h ->]]|[Hp ->]];
    cbn [bind].
  - left. split; [now constructor | eexists; reflexivity].
  - right. split; [|reflexivity]. intros H. apply Hp.
    unfold printable in H. now inversion H.
Qed.

Lemma large_hashes_cases (large : list hash_row) :
  (printable (sum_counts large :: map count (shown_hashes large))
   /\ exists html, large_hashes_html large = Ok html)
  \/ (~ printable (sum_counts large :: map count (shown_hashes large))
      /\ large_hashes_html large = Raise ValueError).
Proof.
  unfold large_hashes_html. destruct large as [|r rows].
  - left. split; [repeat constructor | eexists; reflexivity].
  - destruct (format_of_int_cases (sum_counts (r :: rows)))
      as [[H1 ->]|[H1 ->]]; cbn [bind];
      [|right; split; [intros H; printable_inv H; congruence | reflexivity]].
    destruct (hash_rows_cases (shown_hashes (r :: rows)))
      as [[Hp [h ->]]|[Hp ->]]; cbn [bind].
    + left. split; [now constructor | eexists; reflexivity].
    + right. split; [|reflexivity]. intros H. apply Hp.
      unfold printable in H. now inversion H.
Qed.

Lemma section_study_summary_cases (counts : list count_row)
    (large : list hash_row) (total : Z) :
  total_files counts = Ok total ->
  (printable (total :: sum_counts large :: map count (shown_hashes large))
   /\ exists html, _section_study_summary counts large = Ok html)
  \/ (~ printable (total :: sum_counts large
                     :: map count (shown_hashes large))
      /\ _section_study_summary counts large = Raise ValueError).
Proof.
  intros Ht. unfold _section_study_summary.
  assert (Hc : (within_digit_limit total = true
                /\ exists html,
                     match counts with
                     | [] =>
                         Ok ("<div class=" ++ q "info-box"
                             ++ ">No study data found</div>")
                     | _ :: _ =>
                         total <- sum_files 0 counts ;;
                         total_text <- format_of_int total ;;
                         Ok ("<div class=" ++ q "table-scroll"
                             ++ "><table><tr><th>Study UID</th><th>Files</th><th>&gt;1KB</th><th>&gt;20KB</th><th>&gt;50KB</th></tr>"
                             ++ concat_map count_row_html counts
                             ++ "</table></div>"
                             ++ "<div class=" ++ q "metrics" ++ "><div class="
                             ++ q "metric"
                             ++ "><div class=" ++ q "value" ++ ">"
                             ++ total_text
                             ++ "</div><div class=" ++ q "label"
                             ++ ">Total files</div></div></div>")
                     end = Ok html)
               \/ (within_digit_limit total = false
                   /\ match counts with
                      | [] =>
                          Ok ("<div class=" ++ q "info-box"
                              ++ ">No study data found</div>")
                      | _ :: _ =>
                          total <- sum_files 0 counts ;;
                          total_text <- format_of_int total ;;
                          Ok ("<div class=" ++ q "table-scroll"
                              ++ "><table><tr><th>Study UID</th><th>Files</th><th>&gt;1KB</th><th>&gt;20KB</th><th>&gt;50KB</th></tr>"
                              ++ concat_map count_row_html counts
                              ++ "</table></div>"
                              ++ "<div class=" ++ q "metrics"
                              ++ "><div class=" ++ q "metric"
                              ++ "><div class=" ++ q "value" ++ ">"
                              ++ total_text
                              ++ "</div><div class=" ++ q "label"
                              ++ ">Total files</div></div></div>")
                      end = Raise ValueError)).
  { destruct counts as [|r rows].
    - cbn in Ht. apply Ok_inj in Ht. subst total.
      left. split; [reflexivity | eexists; reflexivity].
    - unfold total_files in Ht. rewrite Ht. cbn [bind].
      destruct (format_of_int_cases total) as [[H1 ->]|[H1 ->]]; cbn [bind].
      + left. split; [exact H1 | eexists; reflexivity].
      + right. now split. }
  destruct Hc as [[H1 [h ->]]|[H1 ->]]; cbn [bind];
    [|right; split; [intros H; printable_inv H; congruence | reflexivity]].
  destruct (large_hashes_cases large) as [[Hp [t ->]]|[Hp ->]]; cbn [bind].
  - left. split; [now constructor | eexists; reflexivity].
  - right. split; [|reflexivity]. intros H. apply Hp.
    unfold printable in H. now inversion H.
Qed.

Lemma printable_app (a b : list Z) :
  printable (a ++ b) <-> printable a /\ printable b.
Proof. apply Forall_app. Qed.

Lemma render_report_cases (d : report_data) (project_name timestamp : string)
    (total : Z) :
  total_files (counts d) = Ok total ->
  (printable (printed_numbers d total)
   /\ exists html, render_report d project_name timestamp = Ok html)
  \/ (~ printable (printed_numbers d total)
      /\ render_report d project_name timestamp = Raise ValueError).
Proof.
  intros Ht. unfold render_report, printed_numbers. rewrite Ht. cbn [bind].
  cbv zeta.
  destruct (format_of_int_cases total) as [[H1 ->]|[H1 ->]]; cbn [bind];
    [|right; split; [|reflexivity]; intros H; apply printable_app in H;
      destruct H as [H _]; printable_inv H; congruence].
  destruct (section_overview_cases (std_elements d) (priv_elements d)
              (sop_classes d) (studies d)
              (values_of (std_elements d) "0008,0060") total (scan_summary d))
    as [[H2 [h2 ->]]|[H2 ->]]; cbn [bind];
    [|right; split; [|reflexivity]; intros H; apply printable_app in H;
      now destruct H as [H _]].
  destruct (section_study_summary_cases (counts d) (large_priv d) total Ht)
    as [[H3 [h3 ->]]|[H3 ->]]; cbn [bind].
  - left. split; [|eexists; reflexivity].
    apply printable_app. split; [exact H2|].
    unfold printable in H3. now inversion H3.
  - right. split; [|reflexivity]. intros H. apply printable_app in H.
    destruct H as [_ H]. apply H3. now constructor.
Qed.

Lemma render_report_exn (d : report_data) (project_name timestamp : string)
    (e : exn) :
  render_report d project_name timestamp = Raise e -> e = ValueError.
Proof.
  destruct (total_files (counts d)) as [total|e'] eqn:Ht.
  - destruct (render_report_cases d project_name timestamp total Ht)
      as [[_ [html ->]]|[_ ->]]; congruence.
  - unfold render_report. rewrite Ht. cbn [bind]. intros H.
    injection H as <-. unfold total_files in Ht.
    destruct (counts d); [discriminate|].
    now destruct (sum_files_exn _ _ _ Ht).
Qed.

(** X17: the report is rendered exactly when every file count of the counts
    rows is an integer and every integer that the report prints (the total
    of the file counts, the numbers of the scan summary, the sum of the hash
    counts and the counts of the hash rows shown) is within the digit limit
    of the conversion to text; when rendering fails, it fails with
    [ValueError]. *)
Theorem report_is_rendered_iff_numbers_convert
    (d : report_data) (project_name timestamp : string) :
  ((exists html, render_report d project_name timestamp = Ok html)
   <-> exists total,
         total_files (counts d) = Ok total
         /\ printable (printed_numbers d total))
  /\ (Forall (fun r => is_int (files r)) (counts d)
      <-> exists total, total_files (counts d) = Ok total)
  /\ (forall e, render_report d project_name timestamp = Raise e ->
        e = ValueError).
Proof.
  split; [|split; [|intros e; apply render_report_exn]].
  - split.
    + intros [html H].
      destruct (total_files (counts d)) as [total|e] eqn:Ht.
      * exists total. split; [reflexivity|].
        destruct (render_report_cases d project_name timestamp total Ht)
          as [[Hp _]|[_ Hr]]; [exact Hp | congruence].
      * unfold render_report in H. rewrite Ht in H. discriminate.
    + intros [total [Ht Hp]].
      destruct (render_report_cases d project_name timestamp total Ht)
        as [[_ Hr]|[Hn _]]; [exact Hr | contradiction].
  - unfold total_files. split.
    + intros H. destruct (counts d) as [|r rows]; [now exists 0%Z|].
      apply (sum_files_defined _ 0%Z H).
    + intros [total Ht]. destruct (counts d) as [|r rows] eqn:E;
        [constructor|].
      apply Forall_forall. intros x Hx.
      destruct (int_cases (files x)) as [Hi|Hi]; [exact Hi|].
      assert (Hopt : int_opt (files x) = None).
      { unfold int in Hi. destruct (int_opt (files x));
          [discriminate | reflexivity]. }
      rewrite (sum_files_raises _ x Hx Hopt) in Ht. discriminate.
Qed.

Lemma report_is_rendered_iff_numbers_convert_witness :
  total_files (counts hostile_report) = Ok 3%Z
  /\ printable (printed_numbers hostile_report 3)
  /\ exists html, render_report hostile_report "demo" "2024-01-01" = Ok html.
Proof.
  assert (Hp : printable (printed_numbers hostile_report 3))
    by (repeat constructor).
  split; [reflexivity|]. split; [exact Hp|].
  apply (proj1 (report_is_rendered_iff_numbers_convert
                  hostile_report "demo" "2024-01-01")).
  exists 3%Z. split; [reflexivity | exact Hp].
Defined.

(* ------------------------------------------------------------------ *)
(** ** The table of the ten largest hashes *)
(* ------------------------------------------------------------------ *)

(** C7, amended: with more than 10 unique hashes, the table of the large
    hashes holds exactly the first 10 rows of the stable descending sort by
    count, one table row each with the escaped hash and the count: the sort
    is a permutation of the rows in descending order of count, rows of equal
    count in parser order, so no row left out has a larger count than a row
    shown.  The note after the table gives the limit, 10, and the number of
    parsed rows, which is the number of unique hashes when no hash is
    repeated; it never gives the number of hashes left out.  This is
    rendered when the sum of the counts and the counts of the rows shown are
    within the digit limit of the conversion to text; otherwise rendering
    raises [ValueError].  The study summary is its title, the part on the
    counts, then this table and note. *)
Theorem large_hash_table_top_ten (large_priv : list hash_row) :
  display_limit < unique_hashes large_priv ->
  Permutation (sorted_desc large_priv) large_priv
  /\ StronglySorted count_ge (sorted_desc large_priv)
  /\ (forall c, with_count c (sorted_desc large_priv)
                = with_count c large_priv)
  /\ shown_hashes large_priv = firstn 10 (sorted_desc large_priv)
  /\ List.length (shown_hashes large_priv) = 10
  /\ (forall a b, In a (shown_hashes large_priv) ->
                  In b (skipn 10 (sorted_desc large_priv)) ->
                  (count b <= count a)%Z)
  /\ (printable (sum_counts large_priv
                 :: map count (shown_hashes large_priv)) ->
      large_hashes_html large_priv = Ok (top_ten_text large_priv))
  /\ (~ printable (sum_counts large_priv
                   :: map count (shown_hashes large_priv)) ->
      large_hashes_html large_priv = Raise ValueError)
  /\ unique_hashes large_priv <= List.length large_priv
  /\ (NoDup (map hash large_priv) ->
      List.length large_priv = unique_hashes large_priv)
  /\ (forall counts total,
        total_files counts = Ok total ->
        printable (total :: sum_counts large_priv
                   :: map count (shown_hashes large_priv)) ->
        _section_study_summary counts large_priv
        = Ok ("<h2>Study Summary</h2>" ++ counts_part counts total
              ++ top_ten_text large_priv)).
Proof.
  intros Huniq.
  assert (Hle : unique_hashes large_priv <= List.length large_priv).
  { unfold unique_hashes.
    rewrite <- (length_map hash large_priv). apply nodup_length_le. }
  assert (Hlen : display_limit < List.length large_priv) by lia.
  split; [apply sorted_desc_perm|].
  split; [apply sorted_desc_sorted|].
  split; [intros c; apply sorted_desc_stable|].
  split; [reflexivity|].
  split.
  { unfold shown_hashes. rewrite length_firstn.
    rewrite (Permutation_length (sorted_desc_perm large_priv)).
    unfold display_limit in *. lia. }
  split.
  { intros a b Ha Hb.
    exact (sorted_split_ge 10 _ (sorted_desc_sorted large_priv) a b Ha Hb). }
  split; [exact (large_hashes_top_ten _ Hlen)|].
  split.
  { intros Hn. destruct (large_hashes_cases large_priv) as [[Hp _]|[_ Hr]];
      [contradiction | exact Hr]. }
  split; [exact Hle|].
  split.
  { intros Hnd. unfold unique_hashes.
    now rewrite (nodup_fixed_point string_dec Hnd), length_map. }
  intros counts total Ht Hp.
  unfold printable in Hp. apply Forall_cons_iff in Hp. destruct Hp as [Hw Hp].
  unfold _section_study_summary.
  rewrite (large_hashes_top_ten _ Hlen Hp).
  unfold total_files in Ht. unfold counts_part.
  destruct counts as [|r rows].
  - reflexivity.
  - rewrite Ht. cbn [bind]. unfold format_of_int. rewrite Hw. cbn [bind].
    rewrite !str_app_assoc. reflexivity.
Qed.

Lemma large_hash_table_top_ten_witness :
  display_limit < unique_hashes (sample_hashes 12)
  /\ large_hashes_html (sample_hashes 12)
     = Ok (top_ten_text (sample_hashes 12))
  /\ map count (shown_hashes (sample_hashes 12))
     = [12; 11; 10; 9; 8; 7; 6; 5; 4; 3]%Z
  /\ List.length (shown_hashes (sample_hashes 12)) = 10.
Proof.
  assert (H : display_limit < unique_hashes (sample_hashes 12))
    by (vm_compute; lia).
  destruct (large_hash_table_top_ten (sample_hashes 12) H)
    as [_ [_ [_ [Hshown [Hlen [_ [Hhtml _]]]]]]].
  split; [exact H|].
  split; [apply Hhtml; vm_compute; repeat constructor|].
  split; [|exact Hlen].
  rewrite Hshown. reflexivity.
Defined.

(* ------------------------------------------------------------------ *)
(** ** Files that are missing when the report is generated *)
(* ------------------------------------------------------------------ *)

Lemma open_exists (fs : filesystem) (path : string) :
  exists_ fs path = true ->
  open_readlines fs path = Ok (match fs path with
                               | Some text => readlines text
                               | None => []
                               end).
Proof.
  unfold exists_, open_readlines. destruct (fs path); [reflexivity|discriminate].
Qed.

Lemma large_loop_exn (lines : list string) (rows : list hash_row) (e : exn) :
  large_loop rows lines = Raise e -> e = ValueError.
Proof.
  revert rows. induction lines as [|raw lines IH]; intros rows H;
    [discriminate|].
  cbn [large_loop] in H. unfold large_step in H.
  destruct (startswith (strip raw) "Hash: "); [|exact (IH _ H)].
  destruct (split_once ", count: " (strip raw)) as [|p0 [|p1 [|p2 r]]];
    try exact (IH _ H).
  destruct (int_cases p1) as [[n Hn]|Hn]; rewrite Hn in H; cbn [bind] in H.
  - exact (IH _ H).
  - congruence.
Qed.

Ltac guarded_parser :=
  match goal with
  | |- context [exists_ ?fs ?p] =>
      let E := fresh "E" in
      destruct (exists_ fs p) eqn:E; cbn [negb];
      [rewrite (open_exists _ _ E); cbn [bind] | ]
  end.

Lemma load_std_defined fs p : exists v, load_std_elements fs p = Ok v.
Proof.
  unfold load_std_elements, parse_standard_elements.
  guarded_parser; eexists; reflexivity.
Qed.

Lemma load_priv_defined fs p : exists v, load_priv_elements fs p = Ok v.
Proof.
  unfold load_priv_elements, parse_private_elements.
  guarded_parser; eexists; reflexivity.
Qed.

Lemma load_dt_defined fs p : exists v, load_dt_elements fs p = Ok v.
Proof.
  unfold load_dt_elements, parse_date_time.
  guarded_parser; eexists; reflexivity.
Qed.

Lemma parse_simple_list_defined fs p : exists v, parse_simple_list fs p = Ok v.
Proof. unfold parse_simple_list. guarded_parser; eexists; reflexivity. Qed.

Lemma parse_counts_defined fs p : exists v, parse_counts fs p = Ok v.
Proof. unfold parse_counts. guarded_parser; eexists; reflexivity. Qed.

Lemma parse_private_creators_defined fs p :
  exists v, parse_private_creators fs p = Ok v.
Proof. unfold parse_private_creators. guarded_parser; eexists; reflexivity. Qed.

Lemma parse_sequences_defined fs p : exists v, parse_sequences fs p = Ok v.
Proof. unfold parse_sequences. guarded_parser; eexists; reflexivity. Qed.

Lemma parse_large_exn fs p e :
  parse_large_private_elements fs p = Raise e -> e = ValueError.
Proof.
  unfold parse_large_private_elements. guarded_parser.
  - apply large_loop_exn.
  - discriminate.
Qed.

Lemma generate_html_report_exn
    (parse_scan_summary : filesystem -> string -> result (option (OD.t Z)))
    (fs : filesystem) (output_dir project_name timestamp : string) :
  (forall fs' path, parse_scan_summary fs' path <> Raise FileNotFoundError) ->
  forall e,
    generate_html_report parse_scan_summary fs output_dir project_name
      timestamp = Raise e ->
    e = ValueError.
Proof.
  intros Hpss e. unfold generate_html_report, load_report.
  destruct (load_std_defined fs (path_join output_dir "standard_elements.txt"))
    as [v1 ->].
  destruct (load_priv_defined fs (path_join output_dir "private_elements.txt"))
    as [v2 ->].
  destruct (load_dt_defined fs (path_join output_dir "date_time_elements.txt"))
    as [v3 ->].
  destruct (parse_simple_list_defined fs (path_join output_dir "sop_classes.txt"))
    as [v4 ->].
  destruct (parse_simple_list_defined fs
              (path_join output_dir "dicom_studies.txt")) as [v5 ->].
  destruct (parse_counts_defined fs (path_join output_dir "counts.txt"))
    as [v6 ->].
  destruct (parse_private_creators_defined fs
              (path_join output_dir "private_creators.txt")) as [v7 ->].
  destruct (parse_sequences_defined fs
              (path_join output_dir "standard_sequences.txt")) as [v8 ->].
  destruct (parse_sequences_defined fs
              (path_join output_dir "private_sequences.txt")) as [v9 ->].
  cbn [bind].
  destruct (parse_large_private_elements fs
              (path_join output_dir "large_private_elements.txt"))
    as [v10|e10] eqn:E10; cbn [bind].
  - destruct (parse_scan_summary fs (path_join output_dir "scan_summary.txt"))
      as [v11|e11] eqn:E11; cbn [bind].
    + intros H.
      exact (render_report_exn _ _ _ _ H).
    + intros H. injection H as <-.
      specialize (Hpss fs (path_join output_dir "scan_summary.txt")).
      rewrite E11 in Hpss. destruct e11; congruence.
  - intros H. injection H as <-. exact (parse_large_exn _ _ _ E10).
Qed.

(** X18: whichever report files are missing from the output directory, the
    report generator does not fail with [FileNotFoundError], provided the
    scan-summary parser does not: a missing file counts as an empty one. *)
Theorem generate_html_report_tolerates_missing_files
    (parse_scan_summary : filesystem -> string -> result (option (OD.t Z)))
    (fs : filesystem) (output_dir project_name timestamp : string) :
  (forall fs' path, parse_scan_summary fs' path <> Raise FileNotFoundError) ->
  generate_html_report parse_scan_summary fs output_dir project_name timestamp
  <> Raise FileNotFoundError.
Proof.
  intros Hpss H.
  pose proof (generate_html_report_exn _ _ _ _ _ Hpss _ H). discriminate.
Qed.

Lemma generate_html_report_tolerates_missing_files_witness :
  (forall fs' path, no_summary fs' path <> Raise FileNotFoundError)
  /\ generate_html_report no_summary no_files "out" "demo" "2024-01-01"
     <> Raise FileNotFoundError.
Proof.
  assert (H : forall fs' path, no_summary fs' path <> Raise FileNotFoundError)
    by (intros fs' path; discriminate).
  split; [exact H|].
  exact (generate_html_report_tolerates_missing_files
           no_summary no_files "out" "demo" "2024-01-01" H).
Defined.

(* ------------------------------------------------------------------ *)
(** ** Escaping loses nothing *)
(* ------------------------------------------------------------------ *)

Lemma escape_char_cases (c : ascii) :
  (is_special c = false /\ escape_char c = String c "")
  \/ (c = "&"%char /\ escape_char c = "&amp;")
  \/ (c = "<"%char /\ escape_char c = "&lt;")
  \/ (c = ">"%char /\ escape_char c = "&gt;")
  \/ (c = DQ /\ escape_char c = "&quot;")
  \/ (c = "'"%char /\ escape_char c = "&#x27;").
Proof.
  unfold escape_char, is_special, is_markup.
  destruct (Ascii.eqb c "&") eqn:E1;
    [apply Ascii.eqb_eq in E1; subst; right; left; now split|].
  destruct (Ascii.eqb c "<") eqn:E2;
    [apply Ascii.eqb_eq in E2; subst; right; right; left; now split|].
  destruct (Ascii.eqb c ">") eqn:E3;
    [apply Ascii.eqb_eq in E3; subst; right; right; right; left; now split|].
  destruct (Ascii.eqb c DQ) eqn:E4;
    [apply Ascii.eqb_eq in E4; subst; right; right; right; right; left;
     now split|].
  destruct (Ascii.eqb c "'") eqn:E5;
    [apply Ascii.eqb_eq in E5; subst; right; right; right; right; right;
     now split|].
  left. now split.
Qed.

Lemma not_special_amp (c : ascii) : is_special c = false -> c <> "&"%char.
Proof. intros H ->. discriminate. Qed.

Lemma escape_char_prefix_free (c d : ascii) (x y : string) :
  escape_char c ++ x = escape_char d ++ y -> c = d /\ x = y.
Proof.
  destruct (escape_char_cases c) as [[Hc ->]|[[-> ->]|[[-> ->]|[[-> ->]|[[-> ->]|[-> ->]]]]]];
  destruct (escape_char_cases d) as [[Hd ->]|[[-> ->]|[[-> ->]|[[-> ->]|[[-> ->]|[-> ->]]]]]];
    cbn [append]; intros H;
    try (injection H as H1 H2; subst;
         first [ now split
               | exfalso; apply (not_special_amp _ Hc); reflexivity
               | exfalso; apply (not_special_amp _ Hd); reflexivity ]);
    try discriminate;
    try (injection H; intros; subst; now split).
Qed.

(** X19: [html.escape] loses nothing: two different texts never have the same
    escaped form, so a value shown in the report identifies the value that
    was found; and a text without [&], [<], [>] or a quote is shown as it
    is. *)
Theorem escape_is_injective (a b : string) :
  (_esc a = _esc b -> a = b)
  /\ (plain a = true -> _esc a = a).
Proof.
  unfold _esc. split.
  - revert b. induction a as [|c a IH]; intros [|d b] H.
    + reflexivity.
    + cbn [escape] in H.
      destruct (escape_char_cases d)
        as [[_ E]|[[_ E]|[[_ E]|[[_ E]|[[_ E]|[_ E]]]]]];
        rewrite E in H; discriminate.
    + cbn [escape] in H.
      destruct (escape_char_cases c)
        as [[_ E]|[[_ E]|[[_ E]|[[_ E]|[[_ E]|[_ E]]]]]];
        rewrite E in H; discriminate.
    + cbn [escape] in H. apply escape_char_prefix_free in H.
      destruct H as [-> H]. now rewrite (IH _ H).
  - induction a as [|c a IH]; [reflexivity|].
    unfold plain. cbn [all_chars escape]. intros H.
    apply andb_true_iff in H. destruct H as [Hc Ha].
    apply negb_true_iff in Hc.
    destruct (escape_char_cases c)
      as [[_ E]|[[-> _]|[[-> _]|[[-> _]|[[-> _]|[-> _]]]]]];
      try discriminate.
    rewrite E. cbn [append]. now rewrite (IH Ha).
Qed.

Lemma escape_is_injective_witness :
  _esc "Doe^John" = "Doe^John" /\ _esc "a<b" <> _esc "a&lt;b".
Proof.
  split.
  - exact (proj2 (escape_is_injective "Doe^John" "") eq_refl).
  - intros H. apply (proj1 (escape_is_injective "a<b" "a&lt;b")) in H.
    discriminate.
Defined.

(* ------------------------------------------------------------------ *)
(** ** Short tables of hashes *)
(* ------------------------------------------------------------------ *)

Lemma firstn_all_le {A : Type} (n : nat) (l : list A) :
  List.length l <= n -> firstn n l = l.
Proof. intros H. now apply firstn_all2. Qed.

(** X16: with at most ten hashes the table shows every row, in descending
    order of count, and no note follows it. *)
Theorem short_hash_table_is_complete (large_priv : list hash_row) :
  List.length large_priv <= 10 ->
  shown_hashes large_priv = sorted_desc large_priv
  /\ Permutation (shown_hashes large_priv) large_priv
  /\ StronglySorted count_ge (shown_hashes large_priv)
  /\ hash_note large_priv = "".
Proof.
  intros H.
  assert (Hs : shown_hashes large_priv = sorted_desc large_priv).
  { unfold shown_hashes, display_limit. apply firstn_all_le.
    now rewrite (Permutation_length (sorted_desc_perm large_priv)). }
  split; [exact Hs|]. rewrite Hs.
  split; [apply sorted_desc_perm|]. split; [apply sorted_desc_sorted|].
  unfold hash_note, display_limit.
  destruct (Nat.ltb_spec 10 (List.length large_priv)); [lia | reflexivity].
Qed.

Lemma short_hash_table_is_complete_witness :
  List.length (sample_hashes 3) <= 10
  /\ shown_hashes (sample_hashes 3)
     = [ mk_hash_row "h3" 3; mk_hash_row "h2" 2; mk_hash_row "h1" 1 ]
  /\ hash_note (sample_hashes 3) = "".
Proof.
  assert (H : List.length (sample_hashes 3) <= 10) by (cbn; lia).
  destruct (short_hash_table_is_complete (sample_hashes 3) H)
    as [Hs [_ [_ Hn]]].
  split; [exact H|]. split; [rewrite Hs; reflexivity | exact Hn].
Defined.

(* ------------------------------------------------------------------ *)
(** ** Lines that belong to no key *)
(* ------------------------------------------------------------------ *)

Lemma seq_step_orphan (d : OD.t (list string)) (raw : string) :
  seq_key_line_b raw = false -> seq_step (d, None) raw = (d, None).
Proof.
  unfold seq_key_line_b, indented, text_of, seq_step.
  destruct (seq_skipped (rstrip_nl raw)); [reflexivity|].
  destruct (startswith (rstrip_nl raw) "  "); [reflexivity | discriminate].
Qed.

Lemma dt_step_orphan (d : OD.t (list string)) (raw : string) :
  header_of raw = None -> dt_step (d, None) raw = (d, None).
Proof.
  unfold header_of, text_of, dt_step. intros ->.
  destruct (String.eqb (rstrip_nl raw) "Date/Time Elements"
            || blank (rstrip_nl raw)); reflexivity.
Qed.

Lemma fold_fixed {S A : Type} (step : S -> A -> S) (P : A -> Prop) (st : S) :
  (forall a, P a -> step st a = st) ->
  forall l, Forall P l -> fold_left step l st = st.
Proof.
  intros Hstep. induction 1 as [|a l Ha _ IH]; [reflexivity|].
  cbn [fold_left]. now rewrite (Hstep a Ha).
Qed.

(** X14: the lines before the first key line of a sequence file, and before
    the first tag line of a date/time file, leave no trace: titles, stray
    text and indented values that belong to no key are dropped, and the
    result is that of the rest of the file. *)
Theorem orphan_lines_are_dropped (pre rest : list string) :
  (Forall (fun raw => seq_key_line_b raw = false) pre ->
   parse_sequences_lines (pre ++ rest) = parse_sequences_lines rest)
  /\ (Forall (fun raw => header_of raw = None) pre ->
      parse_date_time_lines (pre ++ rest) = parse_date_time_lines rest).
Proof.
  split; intros H.
  - unfold parse_sequences_lines, seq_loop. rewrite fold_left_app.
    now rewrite (fold_fixed seq_step _ ([], None)
                   (seq_step_orphan []) pre H).
  - unfold parse_date_time_lines, dt_loop. rewrite fold_left_app.
    now rewrite (fold_fixed dt_step _ ([], None) (dt_step_orphan []) pre H).
Qed.

Lemma orphan_lines_are_dropped_witness :
  parse_sequences_lines
    ([ seq_header_line; seq_value_a ] ++ [ seq_key_line; seq_value_b ])
  = [ ("(0008,1115) ReferencedSeriesSequence", ["1.2.840.2"]) ]
  /\ parse_date_time_lines
       ([ dt_sentinel; dt_first_value ] ++ [ dt_date_header; dt_second_value ])
     = [ ("(0008,0020) DA StudyDate", ["20210101"]) ].
Proof.
  assert (Hs : Forall (fun raw => seq_key_line_b raw = false)
                 [ seq_header_line; seq_value_a ]) by (repeat constructor).
  assert (Hd : Forall (fun raw => header_of raw = None)
                 [ dt_sentinel; dt_first_value ]) by (repeat constructor).
  destruct (orphan_lines_are_dropped [ seq_header_line; seq_value_a ]
              [ seq_key_line; seq_value_b ]) as [H1 _].
  destruct (orphan_lines_are_dropped [ dt_sentinel; dt_first_value ]
              [ dt_date_header; dt_second_value ]) as [_ H2].
  split; [rewrite (H1 Hs) | rewrite (H2 Hd)]; reflexivity.
Defined.

(* ------------------------------------------------------------------ *)
(** ** The private-elements loop and the sequence loop *)
(* ------------------------------------------------------------------ *)

Lemma private_step_seq_step (st : OD.t (list string) * option string)
    (raw : string) :
  seq_labelled raw = false -> private_step st raw = seq_step st raw.
Proof.
  destruct st as [d cur].
  unfold seq_labelled, text_of, private_step, seq_step, seq_skipped.
  intros H. apply orb_false_iff in H. destruct H as [-> ->]. cbn [orb].
  destruct (blank (rstrip_nl raw)); [reflexivity|].
  destruct (startswith (rstrip_nl raw) "  "); reflexivity.
Qed.

Lemma private_fold_seq_fold (lines : list string)
    (st : OD.t (list string) * option string) :
  Forall (fun raw => seq_labelled raw = false) lines ->
  fold_left private_step lines st = fold_left seq_step lines st.
Proof.
  intros H. revert st. induction H as [|raw lines Hraw _ IH]; intros st;
    [reflexivity|].
  cbn [fold_left]. now rewrite (private_step_seq_step _ _ Hraw), IH.
Qed.

(** X7: below its separator a private-elements file is read as a sequence
    file is: unless a line starts with [Standard Sequence] or
    [Private Sequence], the two loops do the same, so a key line seen again
    keeps its list and the indented lines below it extend it. *)
Theorem private_values_are_read_like_sequences
    (l0 l1 l2 s : string) (listing rest : list string) :
  Forall (fun raw => blank raw = false) listing -> blank s = true ->
  Forall (fun raw => seq_labelled raw = false) rest ->
  parse_private_elements_lines (l0 :: l1 :: l2 :: listing ++ s :: rest)
  = parse_sequences_lines rest.
Proof.
  intros Hl Hs Hrest. unfold parse_private_elements_lines.
  rewrite find_sep_head, (find_sep_listing _ _ _ 3 (le_n 3) Hl Hs).
  replace (3 + List.length listing + 1)
    with (3 + (List.length listing + 1)) by lia.
  cbn [Nat.add skipn].
  replace (List.length listing + 1)
    with (List.length (listing ++ [s])) by (rewrite length_app; reflexivity).
  replace (listing ++ s :: rest)%list with ((listing ++ [s]) ++ rest)%list
    by (now rewrite <- app_assoc).
  rewrite skipn_app, skipn_all, Nat.sub_diag. cbn [skipn app].
  now rewrite (private_fold_seq_fold _ _ Hrest).
Qed.

Lemma private_values_are_read_like_sequences_witness :
  parse_private_elements_lines
    ([ "Private Elements" ++ nl; nl; "List of Element Keys" ++ nl ]
       ++ [ seq_key_line ] ++ nl
       :: [ seq_key_line; seq_value_a; nl; seq_key_line; seq_value_b ])
  = [ ("(0008,1115) ReferencedSeriesSequence", ["1.2.840.1"; "1.2.840.2"]) ].
Proof.
  assert (Hl : Forall (fun raw => blank raw = false) [ seq_key_line ])
    by (repeat constructor).
  assert (Hr : Forall (fun raw => seq_labelled raw = false)
                 [ seq_key_line; seq_value_a; nl; seq_key_line; seq_value_b ])
    by (repeat constructor).
  exact (private_values_are_read_like_sequences
           ("Private Elements" ++ nl) nl ("List of Element Keys" ++ nl) nl
           [ seq_key_line ]
           [ seq_key_line; seq_value_a; nl; seq_key_line; seq_value_b ]
           Hl eq_refl Hr).
Defined.

(* ------------------------------------------------------------------ *)
(** ** The scanner's output buffer *)
(* ------------------------------------------------------------------ *)

Import Xnat.

Lemma last_slice_short {A : Type} (n : nat) (xs : list A) :
  List.length xs <= n -> last_slice n xs = xs.
Proof.
  intros H. unfold last_slice.
  replace (List.length xs - n) with 0 by lia. reflexivity.
Qed.

Lemma last_slice_length {A : Type} (n : nat) (xs : list A) :
  List.length (last_slice n xs) = Nat.min n (List.length xs).
Proof. unfold last_slice. rewrite length_skipn. lia. Qed.

Lemma tl_skipn {A : Type} (k : nat) (xs : list A) :
  tl (skipn k xs) = skipn (S k) xs.
Proof.
  revert xs. induction k as [|k IH]; intros [|x xs]; try reflexivity.
  cbn [skipn]. rewrite IH. destruct xs; reflexivity.
Qed.

Lemma keep_line_last_slice (m : list string) (line : string) :
  keep_line (last_slice 20 m) line
  = last_slice 20 (m ++ [rstrip_nl line]).
Proof.
  unfold keep_line. rewrite length_app, last_slice_length. cbn [List.length].
  destruct (le_lt_dec (List.length m) 19) as [Hs|Hl].
  - rewrite (last_slice_short 20 m) by lia.
    rewrite (last_slice_short 20 (m ++ _)) by (rewrite length_app; cbn; lia).
    destruct (Nat.ltb_spec 20 (Nat.min 20 (List.length m) + 1)); [lia|].
    reflexivity.
  - destruct (Nat.ltb_spec 20 (Nat.min 20 (List.length m) + 1)); [|lia].
    unfold last_slice. rewrite length_app. cbn [List.length].
    replace (List.length m + 1 - 20) with (S (List.length m - 20)) by lia.
    rewrite <- tl_skipn. f_equal.
    rewrite skipn_app.
    replace (List.length m - 20 - List.length m) with 0 by lia.
    reflexivity.
Qed.

Lemma fold_keep_line (stdout : list string) :
  fold_left keep_line stdout [] = last_slice 20 (map rstrip_nl stdout).
Proof.
  induction stdout as [|line stdout IH] using rev_ind; [reflexivity|].
  rewrite fold_left_app, map_app. cbn [fold_left map].
  rewrite IH. apply keep_line_last_slice.
Qed.

Lemma last_slice_last_slice {A : Type} (n m : nat) (xs : list A) :
  n <= m -> last_slice n (last_slice m xs) = last_slice n xs.
Proof.
  intros H. unfold last_slice. rewrite length_skipn, skipn_skipn.
  f_equal. lia.
Qed.

(** X20: the buffer of [run_tag_sniffer] is the last 20 lines printed so far,
    without their line feeds: it never grows beyond 20 lines, and it drops
    nothing while fewer were printed. *)
Theorem last_lines_is_bounded_tail (stdout : list string) :
  fold_left keep_line stdout [] = last_slice 20 (map rstrip_nl stdout)
  /\ List.length (fold_left keep_line stdout [])
     = Nat.min 20 (List.length stdout).
Proof.
  rewrite fold_keep_line. split; [reflexivity|].
  now rewrite last_slice_length, length_map.
Qed.

(** X21: [run_tag_sniffer] yields every line the scanner prints, in order
    and without its line feed; it raises exactly when the return code is
    not 0, and the message then carries the return code and the last ten
    lines of the whole output, however long it was. *)
Theorem run_tag_sniffer_reports_tail (stdout : list string) (returncode : Z) :
  run_tag_sniffer stdout returncode
  = (map rstrip_nl stdout,
     if (returncode =? 0)%Z then None
     else Some ("Tag sniffer exited with code " ++ str_int returncode
                ++ nl ++ nl ++ "Last output:" ++ nl
                ++ join nl (last_slice 10 (map rstrip_nl stdout)))).
Proof.
  unfold run_tag_sniffer, failure_message.
  rewrite fold_keep_line, last_slice_last_slice by lia. reflexivity.
Qed.

Lemma run_tag_sniffer_reports_tail_witness :
  List.length (fst (run_tag_sniffer (scanner_output 25) 3)) = 25
  /\ snd (run_tag_sniffer (scanner_output 25) 3)
     = Some ("Tag sniffer exited with code 3" ++ nl ++ nl
             ++ "Last output:" ++ nl
             ++ "line 16" ++ nl ++ "line 17" ++ nl ++ "line 18" ++ nl
             ++ "line 19" ++ nl ++ "line 20" ++ nl ++ "line 21" ++ nl
             ++ "line 22" ++ nl ++ "line 23" ++ nl ++ "line 24" ++ nl
             ++ "line 25").
Proof.
  rewrite (run_tag_sniffer_reports_tail (scanner_output 25) 3).
  split; reflexivity.
Defined.
